(** * Planwerk editor: the interactive terminal bridge

    A shallow embedding of the terminal bridge of the Planwerk editor:
    the binary framing protocol, the PTY session manager and connection
    router of [server.ts], and the browser side of the bridge in the
    [TerminalPanel] component.

    Conventions.
    - A byte is a [Z] in [0, 255]; a [Buffer] or [Uint8Array] is a [list Z].
    - A JavaScript string is the list of its code points: a surrogate pair
      counts as the one code point it denotes, an unpaired surrogate as a
      code point in [0xD800, 0xDFFF].
    - Module-level variables of [server.ts] ([currentPty], [activeWs]) are
      fields of an explicit state; objects that the code holds by reference
      (sockets, PTY handles, terminals) live in tables and are named by
      their index.
    - Code that can throw runs in a state-and-exception monad; [try]/[catch]
      is [try_catch]. *)

From Stdlib Require Import ZArith List Lia Bool String Ascii.
From Stdlib Require Import Floats.SpecFloat.
From Stdlib Require DecimalFacts DecimalPos.
From stdpp Require Import base numbers list.

Local Open Scope Z_scope.

(** ** Text: code points and UTF-8 *)

Module Utf8.

Definition jsstring := list Z.

(** A string literal of the source, as a list of code points (the
    literals of the source are ASCII). *)
Fixpoint lit (s : string) : jsstring :=
  match s with
  | EmptyString => []
  | String a s' => Z.of_N (N_of_ascii a) :: lit s'
  end.

Definition is_surrogate (c : Z) : bool := (0xD800 <=? c) && (c <=? 0xDFFF).

(** A Unicode scalar value: what a well-formed string is made of. *)
Definition scalar (c : Z) : Prop :=
  0 <= c <= 0x10FFFF /\ is_surrogate c = false.

Definition REPLACEMENT : Z := 0xFFFD.

(** The UTF-8 bytes of one code point, as [Buffer.write],
    [Buffer.byteLength] and [TextEncoder.encode] produce them: an
    unpaired surrogate is written as U+FFFD. *)
Definition utf8_char (c : Z) : list Z :=
  if c <? 0x80 then [c]
  else if c <? 0x800 then [0xC0 + c / 64; 0x80 + c mod 64]
  else if c <? 0x10000 then
    if is_surrogate c then [0xEF; 0xBF; 0xBD]
    else [0xE0 + c / 4096; 0x80 + (c / 64) mod 64; 0x80 + c mod 64]
  else [0xF0 + c / 262144; 0x80 + (c / 4096) mod 64;
        0x80 + (c / 64) mod 64; 0x80 + c mod 64].

Fixpoint utf8 (s : jsstring) : list Z :=
  match s with
  | [] => []
  | c :: s' => utf8_char c ++ utf8 s'
  end.

(** [Buffer.byteLength(s)] *)
Definition byteLength (s : jsstring) : nat := length (utf8 s).

Definition between (lo hi b : Z) : bool := (lo <=? b) && (b <=? hi).

(** Bounds of the second byte of a three- and four-byte sequence. *)
Definition lower2 (b0 : Z) : Z :=
  if b0 =? 0xE0 then 0xA0 else if b0 =? 0xF0 then 0x90 else 0x80.
Definition upper2 (b0 : Z) : Z :=
  if b0 =? 0xED then 0x9F else if b0 =? 0xF4 then 0x8F else 0xBF.

(** [buf.toString()]: UTF-8 decoding in which every maximal ill-formed
    part becomes one U+FFFD and decoding resumes at the offending
    byte. *)
Fixpoint toString (b : list Z) : jsstring :=
  match b with
  | [] => []
  | b0 :: r0 =>
    if b0 <? 0x80 then b0 :: toString r0
    else if between 0xC2 0xDF b0 then
      match r0 with
      | [] => [REPLACEMENT]
      | b1 :: r1 =>
        if between 0x80 0xBF b1
        then ((b0 - 0xC0) * 64 + (b1 - 0x80)) :: toString r1
        else REPLACEMENT :: toString r0
      end
    else if between 0xE0 0xEF b0 then
      match r0 with
      | [] => [REPLACEMENT]
      | b1 :: r1 =>
        if between (lower2 b0) (upper2 b0) b1 then
          match r1 with
          | [] => [REPLACEMENT]
          | b2 :: r2 =>
            if between 0x80 0xBF b2
            then ((b0 - 0xE0) * 4096 + (b1 - 0x80) * 64 + (b2 - 0x80))
                   :: toString r2
            else REPLACEMENT :: toString r1
          end
        else REPLACEMENT :: toString r0
      end
    else if between 0xF0 0xF4 b0 then
      match r0 with
      | [] => [REPLACEMENT]
      | b1 :: r1 =>
        if between (lower2 b0) (upper2 b0) b1 then
          match r1 with
          | [] => [REPLACEMENT]
          | b2 :: r2 =>
            if between 0x80 0xBF b2 then
              match r2 with
              | [] => [REPLACEMENT]
              | b3 :: r3 =>
                if between 0x80 0xBF b3
                then ((b0 - 0xF0) * 262144 + (b1 - 0x80) * 4096
                      + (b2 - 0x80) * 64 + (b3 - 0x80)) :: toString r3
                else REPLACEMENT :: toString r2
              end
            else REPLACEMENT :: toString r1
          end
        else REPLACEMENT :: toString r0
      end
    else REPLACEMENT :: toString r0
  end.

(** [new TextDecoder().decode(bytes)]: as [toString], after a leading
    byte order mark is dropped. *)
Definition TextDecoder_decode (b : list Z) : jsstring :=
  match b with
  | 0xEF :: 0xBB :: 0xBF :: r => toString r
  | _ => toString b
  end.

End Utf8.

(** ** Buffers and frames *)

Module Buf.
Import Utf8.

(** [Buffer.alloc(n)], [new Uint8Array(n)]: [n] zero bytes. *)
Definition alloc (n : nat) : list Z := replicate n 0.

(** [buf[i] = v]: the value is stored modulo 256; an index out of range
    is ignored. *)
Definition store (buf : list Z) (i : nat) (v : Z) : list Z :=
  <[i := v mod 256]> buf.

(** Copy [src] into [buf] from index [off] on. *)
Fixpoint blit (buf : list Z) (off : nat) (src : list Z) : list Z :=
  match src with
  | [] => buf
  | x :: src' => blit (<[off := x]> buf) (S off) src'
  end.

(** [buf.write(s, off)]: the UTF-8 bytes of [s] from index [off] on;
    writing stops before the first character that does not fit. *)
Fixpoint write (buf : list Z) (s : jsstring) (off : nat) : list Z :=
  match s with
  | [] => buf
  | c :: s' =>
    let e := utf8_char c in
    if (off + length e <=? length buf)%nat
    then write (blit buf off e) s' (off + length e)
    else buf
  end.

(** [arr.set(src, off)] of a typed array. It raises a RangeError when
    [src] does not fit; the callers size the array to fit. *)
Definition set (buf : list Z) (src : list Z) (off : nat) : option (list Z) :=
  if (off + length src <=? length buf)%nat
  then Some (blit buf off src) else None.

(** [buf.subarray(i)] *)
Definition subarray (buf : list Z) (i : nat) : list Z := drop i buf.

End Buf.

(** ** The framing protocol *)

Module Protocol.

Inductive Kind := DATA | CONTROL.

(** [DATA_BYTE] and [CONTROL_BYTE], the same on both sides. *)
Definition kind_byte (k : Kind) : Z :=
  match k with DATA => 0x00 | CONTROL => 0x01 end.

(** How both [message] handlers take a message apart: nothing for an
    empty message ([if (buf.length === 0) return]), else the pair of
    [buf[0]] and [buf.subarray(1)]. *)
Definition decode (buf : list Z) : option (Z * list Z) :=
  if (length buf =? 0)%nat then None
  else Some (hd 0 buf, Buf.subarray buf 1).



End Protocol.

(** ** JSON values, [JSON.stringify] and [JSON.parse] *)

Module Json.
Import Utf8.

(** A JavaScript value, as far as [JSON.parse] and property reads
    produce them. A number is an IEEE 754 binary64; the properties of an
    object are listed in the order of the text, a later duplicate
    overriding an earlier one. *)
#[warnings="-register-all"]
Inductive JsValue :=
| JUndefined
| JNull
| JBool (b : bool)
| JNum (x : spec_float)
| JStr (s : jsstring)
| JArr (elems : list JsValue)
| JObj (fields : list (jsstring * JsValue)).

Definition binary64_of_Z (n : Z) : spec_float :=
  binary_normalize 53 1024 n 0 false.

(** The number denoted by the decimal literal [m * 10^e], [0 <= m],
    with the sign [neg], rounded to the nearest binary64, ties to
    even. *)
Definition binary64_of_decimal (neg : bool) (m e : Z) : spec_float :=
  if m =? 0 then S754_zero neg
  else if 0 <=? e then binary_round 53 1024 neg (Z.to_pos (m * 10 ^ e)) 0
  else
    let '(q, e', l) := SFdiv_core_binary 53 1024 m 0 (10 ^ (- e)) 0 in
    binary_round_aux 53 1024 neg q e' l.

(** JavaScript truthiness (ToBoolean). *)
Definition truthy (v : JsValue) : bool :=
  match v with
  | JUndefined => false
  | JNull => false
  | JBool b => b
  | JNum (S754_zero _) => false
  | JNum S754_nan => false
  | JNum _ => true
  | JStr s => match s with [] => false | _ => true end
  | JArr _ => true
  | JObj _ => true
  end.

(** The value of the own property [k], the last one of that name;
    [JUndefined] when there is none. *)
Definition lookup_field (k : jsstring) (fields : list (jsstring * JsValue))
  : JsValue :=
  match find (fun kv => bool_decide (fst kv = k)) (rev fields) with
  | Some kv => snd kv
  | None => JUndefined
  end.

(** [v.k], for a property name [k] that no prototype defines (the
    source reads [type], [cols], [rows] and [file]). [None] is the
    TypeError of reading a property of [null] or [undefined]. *)
Definition get_prop (v : JsValue) (k : jsstring) : option JsValue :=
  match v with
  | JUndefined | JNull => None
  | JObj fields => Some (lookup_field k fields)
  | _ => Some JUndefined
  end.

(** [v === s] for a string [s] *)
Definition strict_eq_str (v : JsValue) (s : jsstring) : bool :=
  match v with
  | JStr x => bool_decide (x = s)
  | _ => false
  end.

(** *** [JSON.stringify] of the object literals of the source *)

(** A field of an object literal that the source serialises: a string,
    or an integral number (the terminal's column and row counts). *)
Inductive Field := FStr (s : jsstring) | FInt (n : Z).
Definition ObjLit := list (jsstring * Field).

Definition hex_digit (d : Z) : Z := if d <? 10 then 48 + d else 87 + d.

(** The escape [\uXXXX], lower-case. *)
Definition unicode_escape (c : Z) : jsstring :=
  [92; 117; hex_digit (c / 4096 mod 16); hex_digit (c / 256 mod 16);
   hex_digit (c / 16 mod 16); hex_digit (c mod 16)].

Definition quote_char (c : Z) : jsstring :=
  if c =? 8 then [92; 98]
  else if c =? 9 then [92; 116]
  else if c =? 10 then [92; 110]
  else if c =? 12 then [92; 102]
  else if c =? 13 then [92; 114]
  else if c =? 34 then [92; 34]
  else if c =? 92 then [92; 92]
  else if (c <? 32) || is_surrogate c then unicode_escape c
  else [c].

(** QuoteJSONString *)
Definition quote (s : jsstring) : jsstring :=
  [34] ++ flat_map quote_char s ++ [34].

Fixpoint uint_digits (u : Decimal.uint) : jsstring :=
  match u with
  | Decimal.Nil => []
  | Decimal.D0 u => 48 :: uint_digits u
  | Decimal.D1 u => 49 :: uint_digits u
  | Decimal.D2 u => 50 :: uint_digits u
  | Decimal.D3 u => 51 :: uint_digits u
  | Decimal.D4 u => 52 :: uint_digits u
  | Decimal.D5 u => 53 :: uint_digits u
  | Decimal.D6 u => 54 :: uint_digits u
  | Decimal.D7 u => 55 :: uint_digits u
  | Decimal.D8 u => 56 :: uint_digits u
  | Decimal.D9 u => 57 :: uint_digits u
  end.

Definition int_digits (n : Z) : jsstring :=
  match Z.to_int n with
  | Decimal.Pos u => uint_digits u
  | Decimal.Neg u => 45 :: uint_digits u
  end.

Definition stringify_field (f : Field) : jsstring :=
  match f with
  | FStr s => quote s
  | FInt n => int_digits n
  end.

Fixpoint stringify_members (o : ObjLit) : jsstring :=
  match o with
  | [] => []
  | [(k, f)] => quote k ++ [58] ++ stringify_field f
  | (k, f) :: rest =>
    quote k ++ [58] ++ stringify_field f ++ [44] ++ stringify_members rest
  end.

Definition JSON_stringify (o : ObjLit) : jsstring :=
  [123] ++ stringify_members o ++ [125].

(** *** [JSON.parse] *)

Definition is_ws (c : Z) : bool :=
  (c =? 32) || (c =? 9) || (c =? 10) || (c =? 13).

Fixpoint skip_ws (s : jsstring) : jsstring :=
  match s with
  | c :: r => if is_ws c then skip_ws r else s
  | [] => []
  end.

Definition is_digit (c : Z) : bool := between 48 57 c.

(** The string starts with the character [c]. *)
Definition head_is (c : Z) (s : jsstring) : bool :=
  match s with
  | x :: _ => x =? c
  | [] => false
  end.

Definition hex_value (c : Z) : option Z :=
  if between 48 57 c then Some (c - 48)
  else if between 97 102 c then Some (c - 87)
  else if between 65 70 c then Some (c - 55)
  else None.

Definition hex4 (a b c d : Z) : option Z :=
  match hex_value a, hex_value b, hex_value c, hex_value d with
  | Some x, Some y, Some z, Some w => Some (x * 4096 + y * 256 + z * 16 + w)
  | _, _, _, _ => None
  end.

(** The characters of a string after its opening quote, up to and
    including the closing quote; [acc] is reversed. *)
Fixpoint parse_chars (s : jsstring) (acc : jsstring)
  : option (jsstring * jsstring) :=
  match s with
  | [] => None
  | c :: r =>
    if c =? 34 then Some (rev acc, r)
    else if c =? 92 then
      match r with
      | [] => None
      | e :: r' =>
        if e =? 34 then parse_chars r' (34 :: acc)
        else if e =? 92 then parse_chars r' (92 :: acc)
        else if e =? 47 then parse_chars r' (47 :: acc)
        else if e =? 98 then parse_chars r' (8 :: acc)
        else if e =? 102 then parse_chars r' (12 :: acc)
        else if e =? 110 then parse_chars r' (10 :: acc)
        else if e =? 114 then parse_chars r' (13 :: acc)
        else if e =? 116 then parse_chars r' (9 :: acc)
        else if e =? 117 then
          match r' with
          | h1 :: h2 :: h3 :: h4 :: r'' =>
            match hex4 h1 h2 h3 h4 with
            | Some u => parse_chars r'' (u :: acc)
            | None => None
            end
          | _ => None
          end
        else None
      end
    else if c <? 32 then None
    else parse_chars r (c :: acc)
  end.

(** Two escapes that form a surrogate pair denote one code point. *)
Fixpoint pair_surrogates (s : jsstring) : jsstring :=
  match s with
  | [] => []
  | h :: r =>
    match r with
    | l :: r' =>
      if between 0xD800 0xDBFF h && between 0xDC00 0xDFFF l
      then (0x10000 + (h - 0xD800) * 1024 + (l - 0xDC00)) :: pair_surrogates r'
      else h :: pair_surrogates r
    | [] => [h]
    end
  end.

Definition parse_string (s : jsstring) : option (jsstring * jsstring) :=
  match parse_chars s [] with
  | Some (str, r) => Some (pair_surrogates str, r)
  | None => None
  end.

(** The digits at the head of [s], folded into [m]; the count of
    digits read is added to [n]. *)
Fixpoint parse_digits (s : jsstring) (m : Z) (n : Z) : Z * Z * jsstring :=
  match s with
  | c :: r => if is_digit c then parse_digits r (10 * m + (c - 48)) (n + 1)
              else (m, n, s)
  | [] => (m, n, [])
  end.

Definition parse_exponent (s : jsstring) : option (Z * jsstring) :=
  match s with
  | c :: r =>
    if (c =? 101) || (c =? 69) then
      let neg := head_is 45 r in
      let r1 := if head_is 43 r || head_is 45 r then tl r else r in
      let '(x, n, r2) := parse_digits r1 0 0 in
      if n =? 0 then None else Some (if neg then - x else x, r2)
    else Some (0, s)
  | [] => Some (0, [])
  end.

Definition parse_fraction (s : jsstring) (m : Z) : option (Z * Z * jsstring) :=
  if head_is 46 s then
    let '(m', n, r') := parse_digits (tl s) m 0 in
    if n =? 0 then None else Some (m', n, r')
  else Some (m, 0, s).

Definition parse_number (s : jsstring) : option (spec_float * jsstring) :=
  let neg := head_is 45 s in
  let s1 := if neg then tl s else s in
  let int_part :=
    match s1 with
    | c :: r =>
      if c =? 48 then Some (0, r)
      else if is_digit c
           then let '(m, _, r') := parse_digits s1 0 0 in Some (m, r')
           else None
    | [] => None
    end in
  match int_part with
  | None => None
  | Some (m, s2) =>
    match parse_fraction s2 m with
    | None => None
    | Some (m', n, s3) =>
      match parse_exponent s3 with
      | None => None
      | Some (x, s4) => Some (binary64_of_decimal neg m' (x - n), s4)
      end
    end
  end.

Definition expect (w : jsstring) (s : jsstring) : option jsstring :=
  if bool_decide (take (length w) s = w) then Some (drop (length w) s)
  else None.

Fixpoint parse_value (fuel : nat) (s : jsstring)
  : option (JsValue * jsstring) :=
  match fuel with
  | O => None
  | S f =>
    match skip_ws s with
    | [] => None
    | c :: r =>
      if c =? 123 then
        let r' := skip_ws r in
        if head_is 125 r' then Some (JObj [], tl r')
        else parse_members f r' []
      else if c =? 91 then
        let r' := skip_ws r in
        if head_is 93 r' then Some (JArr [], tl r')
        else parse_elements f r' []
      else if c =? 34 then
        match parse_string r with
        | Some (str, r') => Some (JStr str, r')
        | None => None
        end
      else if c =? 116 then
        match expect (lit "rue") r with
        | Some r' => Some (JBool true, r') | None => None end
      else if c =? 102 then
        match expect (lit "alse") r with
        | Some r' => Some (JBool false, r') | None => None end
      else if c =? 110 then
        match expect (lit "ull") r with
        | Some r' => Some (JNull, r') | None => None end
      else
        match parse_number (c :: r) with
        | Some (x, r') => Some (JNum x, r')
        | None => None
        end
    end
  end
with parse_members (fuel : nat) (s : jsstring)
                   (acc : list (jsstring * JsValue))
  : option (JsValue * jsstring) :=
  match fuel with
  | O => None
  | S f =>
    match skip_ws s with
    | [] => None
    | q :: r =>
      if negb (q =? 34) then None
      else
        match parse_string r with
        | None => None
        | Some (k, r1) =>
          let r1' := skip_ws r1 in
          if negb (head_is 58 r1') then None
          else
            match parse_value f (tl r1') with
            | None => None
            | Some (v, r3) =>
              let r3' := skip_ws r3 in
              if head_is 44 r3' then parse_members f (tl r3') (acc ++ [(k, v)])
              else if head_is 125 r3'
                   then Some (JObj (acc ++ [(k, v)]), tl r3')
                   else None
            end
        end
    end
  end
with parse_elements (fuel : nat) (s : jsstring) (acc : list JsValue)
  : option (JsValue * jsstring) :=
  match fuel with
  | O => None
  | S f =>
    match parse_value f s with
    | None => None
    | Some (v, r) =>
      let r' := skip_ws r in
      if head_is 44 r' then parse_elements f (tl r') (acc ++ [v])
      else if head_is 93 r' then Some (JArr (acc ++ [v]), tl r')
      else None
    end
  end.

(** [JSON.parse(text)]; [None] is the SyntaxError it throws. The fuel
    bounds the depth of the calls; it is enough for every text, more
    fuel never changes the result ([parse_value_fuel]). *)
Definition JSON_parse (text : jsstring) : option JsValue :=
  match parse_value (2 + 2 * length text) text with
  | Some (v, r) => match skip_ws r with [] => Some v | _ => None end
  | None => None
  end.

(** *** What [JSON.parse] reads back from [JSON.stringify] *)

(** The value an object literal denotes: its fields in order, a string
    as a string, an integer as the binary64 nearest to it. *)
Definition value_of_field (f : Field) : JsValue :=
  match f with
  | FStr s => JStr s
  | FInt n => JNum (binary64_of_Z n)
  end.

Definition value_of (o : ObjLit) : JsValue :=
  JObj (map (fun kf => (fst kf, value_of_field (snd kf))) o).

(** The names and the strings of the literal are well-formed: made of
    Unicode scalar values. *)
Definition well_formed_field (f : Field) : Prop :=
  match f with
  | FStr s => Forall scalar s
  | FInt _ => True
  end.

Definition well_formed (o : ObjLit) : Prop :=
  Forall (fun kf => Forall scalar (fst kf) /\ well_formed_field (snd kf)) o.

(** The text goes on with a comma or a closing brace. *)
Definition ends_value (rest : jsstring) : Prop :=
  head_is 44 rest = true \/ head_is 125 rest = true.

End Json.

(** ** Statements that may throw *)

Module Eff.

Inductive Exn :=
  SyntaxError | TypeError | RangeError | SpawnError | ResizeError.

Inductive Outcome (A : Type) := Ok (a : A) | Throw (e : Exn).
Arguments Ok {A} a.
Arguments Throw {A} e.

(** A statement over a state of type [St]: it returns or throws, and
    leaves a state either way. *)
Definition M (St A : Type) : Type := St -> Outcome A * St.

Definition ret {St A} (a : A) : M St A := fun s => (Ok a, s).
Definition throw {St A} (e : Exn) : M St A := fun s => (Throw e, s).
Definition bind {St A B} (m : M St A) (k : A -> M St B) : M St B :=
  fun s => match m s with
           | (Ok a, s') => k a s'
           | (Throw e, s') => (Throw e, s')
           end.
(** [try { m } catch { h }]: the effects of [m] up to the throw stay. *)
Definition try_catch {St A} (m : M St A) (h : Exn -> M St A) : M St A :=
  fun s => match m s with
           | (Ok a, s') => (Ok a, s')
           | (Throw e, s') => h e s'
           end.
Definition gets {St A} (f : St -> A) : M St A := fun s => (Ok (f s), s).
Definition modify {St} (f : St -> St) : M St unit := fun s => (Ok tt, f s).

(** The statement returns (it does not throw). *)
Definition returns {St A} (m : M St A) (s : St) : Prop :=
  exists a, fst (m s) = Ok a.

(** The statement never throws. *)
Definition safe {St A} (m : M St A) : Prop := forall s, returns m s.

(** The statement takes every state to one that [R] relates to it. *)
Definition keeps {St} (R : St -> St -> Prop) {A} (m : M St A) : Prop :=
  forall s, R s (snd (m s)).

Module Notations.
Notation "'let*' x ':=' c 'in' k" := (bind c (fun x => k))
  (at level 10, x name, c at level 100, k at level 200).
Notation "c '>>>' k" := (bind c (fun _ => k))
  (at level 90, right associativity).
End Notations.

(** [JSON.parse(text)], throwing. *)
Definition parse {St} (text : Utf8.jsstring) : M St Json.JsValue :=
  match Json.JSON_parse text with
  | Some v => ret v
  | None => throw SyntaxError
  end.

(** [v.k], throwing. *)
Definition prop {St} (v : Json.JsValue) (k : string) : M St Json.JsValue :=
  match Json.get_prop v (Utf8.lit k) with
  | Some x => ret x
  | None => throw TypeError
  end.

End Eff.

(** ** The server: [server.ts] *)

Module Server.
Import Utf8 Json Eff Eff.Notations.

(** Protocol bytes *)
Definition DATA_BYTE : Z := Protocol.kind_byte Protocol.DATA.
Definition CONTROL_BYTE : Z := Protocol.kind_byte Protocol.CONTROL.

(** *** The world the server runs in *)

Inductive ReadyState := CONNECTING | OPEN | CLOSING | CLOSED.

Definition is_open (r : ReadyState) : bool :=
  match r with OPEN => true | _ => false end.

(** A WebSocket of the [ws] library: its [readyState] and the messages
    handed to [send], oldest first. *)
Record Socket := mkSocket {
  readyState : ReadyState;
  sentMessages : list (list Z)
}.

(** A pseudo-terminal handle of [node-pty], as far as the server
    observes and drives it: the process id, the dimensions, the strings
    handed to [write] (oldest first), whether [kill] was called and
    whether the exit was reported. Exit is reported by an event of its
    own, some time after the process ended or was killed. *)
Record Pty := mkPty {
  pid : Z;
  cols : JsValue;
  rows : JsValue;
  writes : list jsstring;
  killed : bool;
  exited : bool
}.

(** The bytes that reached the input stream of the process: [node-pty]
    writes a string as UTF-8. *)
Definition input_stream (p : Pty) : list Z := flat_map utf8 (writes p).

(** The module-level variables [currentPty], [activeWs] and
    [fileChangeTimer] (the file name its pending callback captured),
    and the tables of sockets and PTY handles. Every handle in [ptys]
    was spawned by [spawnSession] and carries its [onData] and [onExit]
    callbacks; every socket in [socks] was accepted and carries its
    [message] and [close] handlers. *)
Record State := mkState {
  currentPty : option nat;
  activeWs : option nat;
  fileChangeTimer : option jsstring;
  ptys : list Pty;
  socks : list Socket
}.

Definition initial : State := mkState None None None [] [].

Definition set_currentPty (v : option nat) (s : State) : State :=
  mkState v (activeWs s) (fileChangeTimer s) (ptys s) (socks s).
Definition set_activeWs (v : option nat) (s : State) : State :=
  mkState (currentPty s) v (fileChangeTimer s) (ptys s) (socks s).
Definition set_fileChangeTimer (v : option jsstring) (s : State) : State :=
  mkState (currentPty s) (activeWs s) v (ptys s) (socks s).
Definition set_ptys (v : list Pty) (s : State) : State :=
  mkState (currentPty s) (activeWs s) (fileChangeTimer s) v (socks s).
Definition set_socks (v : list Socket) (s : State) : State :=
  mkState (currentPty s) (activeWs s) (fileChangeTimer s) (ptys s) v.

(** What [pty.spawn] does when it is called: it throws, or it returns a
    handle for a process with the given id. *)
Inductive SpawnOutcome := SpawnThrows | Spawned (p : Z).

Definition M : Type -> Type := Eff.M State.

(** *** Calls on sockets and PTY handles *)

(** [ws.send(payload)] *)
Definition ws_send (ws : nat) (payload : list Z) : M unit :=
  modify (fun s => set_socks
    (alter (fun k => mkSocket (readyState k) (sentMessages k ++ [payload]))
           ws (socks s)) s).

(** [ws.readyState === WebSocket.OPEN] *)
Definition ws_is_open (ws : nat) : M bool :=
  gets (fun s => match socks s !! ws with
                 | Some k => is_open (readyState k)
                 | None => false
                 end).

(** The handle of a process just spawned, 80 columns by 24 rows. *)
Definition fresh_pty (p : Z) : Pty :=
  mkPty p (JNum (binary64_of_Z 80)) (JNum (binary64_of_Z 24)) [] false false.

(** [pty.spawn(shell, args, {cols: 80, rows: 24, ...})]; the new
    handle gets the next free index. *)
Definition pty_spawn (o : SpawnOutcome) : M nat :=
  match o with
  | SpawnThrows => throw SpawnError
  | Spawned p =>
    fun s => (Ok (length (ptys s)), set_ptys (ptys s ++ [fresh_pty p]) s)
  end.

Definition pty_write (h : nat) (data : jsstring) : M unit :=
  modify (fun s => set_ptys
    (alter (fun p => mkPty (pid p) (cols p) (rows p) (writes p ++ [data])
                           (killed p) (exited p)) h (ptys s)) s).

(** A size that [resize] of [node-pty] accepts: a number that is
    positive and finite. *)
Definition positive_finite (v : JsValue) : bool :=
  match v with
  | JNum (S754_finite false _ _) => true
  | _ => false
  end.

(** [handle.resize(cols, rows)] of [node-pty]: it throws, and leaves the
    handle as it was, unless [cols] and [rows] are positive finite
    numbers; the handle then has the dimensions it was given. *)
Definition pty_resize (h : nat) (c r : JsValue) : M unit :=
  if positive_finite c && positive_finite r then
    modify (fun s => set_ptys
      (alter (fun p => mkPty (pid p) c r (writes p) (killed p) (exited p))
             h (ptys s)) s)
  else throw ResizeError.

Definition pty_kill (h : nat) : M unit :=
  modify (fun s => set_ptys
    (alter (fun p => mkPty (pid p) (cols p) (rows p) (writes p) true
                           (exited p)) h (ptys s)) s).

(** *** The functions of [server.ts] *)

(** The buffer that [sendControl] and [sendData] build:
    [Buffer.alloc(1 + Buffer.byteLength(msg))], the kind byte stored at
    index 0, [msg] written from index 1. *)
Definition frame (kind : Z) (msg : jsstring) : list Z :=
  let payload := Buf.alloc (1 + byteLength msg) in
  let payload := Buf.store payload 0 kind in
  Buf.write payload msg 1.

Definition sendControl (ws : nat) (obj : ObjLit) : M unit :=
  let* o := ws_is_open ws in
  if negb o then ret tt
  else ws_send ws (frame CONTROL_BYTE (JSON_stringify obj)).

Definition sendData (ws : nat) (data : jsstring) : M unit :=
  let* o := ws_is_open ws in
  if negb o then ret tt
  else ws_send ws (frame DATA_BYTE data).

(** The object literal [{ type: t }]. *)
Definition ctl (t : string) : ObjLit := [(lit "type", FStr (lit t))].

(** The [onData] callback that [spawnSession] registers. *)
Definition onData (data : jsstring) : M unit :=
  let* a := gets activeWs in
  match a with
  | Some ws => sendData ws data
  | None => ret tt
  end.

(** The [onExit] callback that [spawnSession] registers. *)
Definition onExit : M unit :=
  modify (set_currentPty None) >>>
  let* a := gets activeWs in
  match a with
  | Some ws => sendControl ws (ctl "exit")
  | None => ret tt
  end.

Definition spawnSession (o : SpawnOutcome) : M unit :=
  let* cur := gets currentPty in
  match cur with
  | Some _ => ret tt
  | None =>
    let* spawned :=
      try_catch
        (let* h := pty_spawn o in
         modify (set_currentPty (Some h)) >>> ret true)
        (fun _ =>
           let* a := gets activeWs in
           match a with
           | Some ws => sendControl ws (ctl "exit")
           | None => ret tt
           end >>> ret false) in
    (* when spawned, onData and onExit are registered on the new handle *)
    ret tt
  end.

Definition killSession : M unit :=
  let* cur := gets currentPty in
  match cur with
  | None => ret tt
  | Some h => pty_kill h >>> modify (set_currentPty None)
  end.

(** The [message] handler of the socket [ws]. *)
Definition onMessage (ws : nat) (raw : list Z) (o : SpawnOutcome) : M unit :=
  match Protocol.decode raw with
  | None => ret tt
  | Some (type, body) =>
    if type =? DATA_BYTE then
      let* cur := gets currentPty in
      match cur with
      | Some h => pty_write h (toString body)
      | None => ret tt
      end
    else if type =? CONTROL_BYTE then
      try_catch
        (let* msg := parse (toString body) in
         let* t := prop msg "type" in
         if strict_eq_str t (lit "start") then
           spawnSession o >>>
           let* cur := gets currentPty in
           sendControl ws (ctl (match cur with
                                | Some _ => "session-active"
                                | None => "exit"
                                end))
         else
           let* t := prop msg "type" in
           if strict_eq_str t (lit "close") then
             killSession >>>
             sendControl ws (ctl "session-inactive")
           else
             let* t := prop msg "type" in
             let* resize :=
               if strict_eq_str t (lit "resize") then
                 let* c := prop msg "cols" in
                 if truthy c then
                   let* r := prop msg "rows" in ret (truthy r)
                 else ret false
               else ret false in
             if resize then
               let* cur := gets currentPty in
               match cur with
               | Some h =>
                 let* c := prop msg "cols" in
                 let* r := prop msg "rows" in
                 pty_resize h c r
               | None => ret tt
               end
             else ret tt)
        (fun _ => ret tt)
    else ret tt
  end.

(** The [connection] handler, for a socket the server has just accepted;
    the socket gets the next free index. *)
Definition onConnection (rs : ReadyState) : M unit :=
  let* ws := gets (fun s => length (socks s)) in
  modify (fun s => set_socks (socks s ++ [mkSocket rs []]) s) >>>
  modify (set_activeWs (Some ws)) >>>
  let* cur := gets currentPty in
  sendControl ws (ctl (match cur with
                       | Some _ => "session-active"
                       | None => "session-inactive"
                       end)).

(** The [close] handler of the socket [ws]. *)
Definition onClose (ws : nat) : M unit :=
  let* a := gets activeWs in
  if bool_decide (a = Some ws) then modify (set_activeWs None) else ret tt.

(** [filename.endsWith(".md")] *)
Definition endsWith (s suffix : jsstring) : bool :=
  bool_decide (drop (length s - length suffix)%nat s = suffix).

(** The callback of [fs.watch]: it (re)arms the debounce timer. *)
Definition onWatch (filename : option jsstring) : M unit :=
  match filename with
  | None => ret tt
  | Some f =>
    if match f with [] => true | _ => false end || negb (endsWith f (lit ".md"))
    then ret tt
    else modify (set_fileChangeTimer (Some f))
  end.

(** The callback of the debounce timer, 300 ms after the last change. *)
Definition onFileChangeTimer (filename : jsstring) : M unit :=
  let relative := map (fun c => if c =? 92 then 47 else c) filename in
  let* a := gets activeWs in
  match a with
  | Some ws => sendControl ws [(lit "type", FStr (lit "file-changed"));
                               (lit "file", FStr relative)]
  | None => ret tt
  end.

(** *** The event loop *)

(** What the event loop can deliver: a connection accepted on the
    terminal path, its socket in the state [rs] (OPEN, with the [ws]
    library); a message on a socket, with what [pty.spawn] will do if the
    handler calls it; a socket leaving the OPEN state before its [close]
    event; the [close] event of a socket; output of a process; the exit of
    a process; a change under the watched directory; the debounce timer
    firing. *)
Inductive Event :=
| EvConnection (rs : ReadyState)
| EvMessage (ws : nat) (raw : list Z) (o : SpawnOutcome)
| EvClosing (ws : nat)
| EvClose (ws : nat)
| EvPtyData (h : nat) (data : jsstring)
| EvPtyExit (h : nat)
| EvWatch (filename : option jsstring)
| EvTimer.

Definition set_readyState (ws : nat) (rs : ReadyState) : M unit :=
  modify (fun s => set_socks
    (alter (fun k => mkSocket rs (sentMessages k)) ws (socks s)) s).

Definition mark_exited (h : nat) : M unit :=
  modify (fun s => set_ptys
    (alter (fun p => mkPty (pid p) (cols p) (rows p) (writes p) (killed p)
                           true) h (ptys s)) s).

(** One turn of the event loop: the handler registered for the event
    runs to completion. An event for a socket or handle that does not
    exist, or for a process whose exit was already reported, is not
    delivered. *)
Definition step (e : Event) : M unit :=
  match e with
  | EvConnection rs => onConnection rs
  | EvMessage ws raw o =>
    let* known := gets (fun s => bool_decide (is_Some (socks s !! ws))) in
    if known then onMessage ws raw o else ret tt
  | EvClosing ws => set_readyState ws CLOSING
  | EvClose ws =>
    let* known := gets (fun s => bool_decide (is_Some (socks s !! ws))) in
    if known then set_readyState ws CLOSED >>> onClose ws else ret tt
  | EvPtyData h data =>
    let* p := gets (fun s => ptys s !! h) in
    match p with
    | Some p => if exited p then ret tt else onData data
    | None => ret tt
    end
  | EvPtyExit h =>
    let* p := gets (fun s => ptys s !! h) in
    match p with
    | Some p => if exited p then ret tt else mark_exited h >>> onExit
    | None => ret tt
    end
  | EvWatch filename => onWatch filename
  | EvTimer =>
    let* t := gets fileChangeTimer in
    match t with
    | Some f => modify (set_fileChangeTimer None) >>> onFileChangeTimer f
    | None => ret tt
    end
  end.

(** A run of the event loop. An exception that escapes a handler ends
    the run. *)
Fixpoint run (es : list Event) : M unit :=
  match es with
  | [] => ret tt
  | e :: es' => step e >>> run es'
  end.

(** The state after a run. *)
Definition exec (es : list Event) (s : State) : State := snd (run es s).

(** The messages sent to the socket [ws] so far. *)
Definition sent (s : State) (ws : nat) : list (list Z) :=
  match socks s !! ws with
  | Some k => sentMessages k
  | None => []
  end.

(** *** Notions used to state the properties *)

(** The control frame carrying the object [{ type: t }]. *)
Definition control_frame (t : string) : list Z :=
  CONTROL_BYTE :: utf8 (JSON_stringify (ctl t)).

(** The value a control frame carries, when it is one and its payload
    parses. *)
Definition control_message (raw : list Z) : option JsValue :=
  match Protocol.decode raw with
  | Some (type, body) =>
    if type =? CONTROL_BYTE then JSON_parse (toString body) else None
  | None => None
  end.

(** [raw] is a control frame whose [type] is the string [t]. *)
Definition carries (raw : list Z) (t : string) : Prop :=
  exists msg, control_message raw = Some msg
              /\ get_prop msg (lit "type") = Some (JStr (lit t)).

(** A control message the router does not act on by its [type]: the
    read of [type] throws, or [type] is none of [start], [close] and
    [resize]. *)
Definition unrecognized (msg : JsValue) : Prop :=
  match get_prop msg (lit "type") with
  | None => True
  | Some t => strict_eq_str t (lit "start") = false
              /\ strict_eq_str t (lit "close") = false
              /\ strict_eq_str t (lit "resize") = false
  end.

(** The event is a [start] request. *)
Definition is_start (e : Event) : Prop :=
  match e with
  | EvMessage _ raw _ => carries raw "start"
  | _ => False
  end.

(** The socket [ws] exists and is OPEN. *)
Definition open_in (s : State) (ws : nat) : bool :=
  match socks s !! ws with
  | Some k => is_open (readyState k)
  | None => false
  end.

(** The state after [payload] was sent to [ws], if [ws] is open. *)
Definition delivered (ws : nat) (payload : list Z) (s : State) : State :=
  if open_in s ws
  then set_socks
         (alter (fun k => mkSocket (readyState k) (sentMessages k ++ [payload]))
                ws (socks s)) s
  else s.

(** [{"type":"resize","cols":c,"rows":r}], as the browser sends it. *)
Definition resize_payload (c r : Z) : list Z :=
  utf8 (JSON_stringify [(lit "type", FStr (lit "resize"));
                        (lit "cols", FInt c); (lit "rows", FInt r)]).

(** What that payload parses to. *)
Definition resize_message (c r : Z) : JsValue :=
  JObj [(lit "type", JStr (lit "resize"));
        (lit "cols", JNum (binary64_of_Z c));
        (lit "rows", JNum (binary64_of_Z r))].

(** A state with a running session: one client connected and asked for
    a start, the spawn gave process 4242. *)
Definition running_state : State :=
  exec [EvConnection OPEN;
        EvMessage 0 (control_frame "start") (Spawned 4242)] initial.

(** One client: it connects, starts a session, asks to close it, and
    the killed process then exits. *)
Definition close_then_exit : list Event :=
  [EvConnection OPEN;
   EvMessage 0 (control_frame "start") (Spawned 4242);
   EvMessage 0 (control_frame "close") SpawnThrows;
   EvPtyExit 0].

(** Two connections are accepted, one after the other; both stay
    open. *)
Definition two_connections : list Event :=
  [EvConnection OPEN; EvConnection OPEN].

(** The state report a connection gets when it is accepted in [s]. *)
Definition state_report (s : State) : list Z :=
  control_frame (match currentPty s with
                 | Some _ => "session-active"
                 | None => "session-inactive"
                 end).

(** The socket [w] has been sent at least what it had been sent. *)
Definition extends (s s' : State) : Prop :=
  forall w, sent s w `prefix_of` sent s' w.

(** The session, when there is one, is a handle in the table whose
    process was neither killed nor reported as exited. *)
Definition session_alive (s : State) : Prop :=
  forall h, currentPty s = Some h ->
            exists p, ptys s !! h = Some p
                      /\ killed p = false /\ exited p = false.

(** The handle [p] after [kill()], and after its exit was reported. *)
Definition kill_sent (p : Pty) : Pty :=
  mkPty (pid p) (cols p) (rows p) (writes p) true (exited p).
Definition exit_reported (p : Pty) : Pty :=
  mkPty (pid p) (cols p) (rows p) (writes p) (killed p) true.

(** The handle [p] after the strings [ds] were written to it. *)
Definition written (p : Pty) (ds : list jsstring) : Pty :=
  mkPty (pid p) (cols p) (rows p) (writes p ++ ds) (killed p) (exited p).

(** The DATA frames for the output chunks [ds], in their order. *)
Definition data_frames (ds : list jsstring) : list (list Z) :=
  map (fun d => DATA_BYTE :: utf8 d) ds.

(** One client connected, started a session (process 1), closed it and
    started another (process 2); the exit of the first process has not
    been reported yet. *)
Definition restarted_state : State :=
  exec [EvConnection OPEN;
        EvMessage 0 (control_frame "start") (Spawned 1);
        EvMessage 0 (control_frame "close") SpawnThrows;
        EvMessage 0 (control_frame "start") (Spawned 2)] initial.

(** A live process: it was spawned, [kill] was not called on its
    handle, and its exit was not reported. *)
Definition live (p : Pty) : bool := negb (killed p) && negb (exited p).

(** The run of [restarted_state], then the exit of the first, killed
    process is reported, and the client asks for a start once more; the
    spawn gives process 3. *)
Definition start_after_late_exit : list Event :=
  [EvConnection OPEN;
   EvMessage 0 (control_frame "start") (Spawned 1);
   EvMessage 0 (control_frame "close") SpawnThrows;
   EvMessage 0 (control_frame "start") (Spawned 2);
   EvPtyExit 0;
   EvMessage 0 (control_frame "start") (Spawned 3)].

(** The event is a message on the socket [w]. *)
Definition from_socket (w : nat) (e : Event) : Prop :=
  match e with
  | EvMessage ws _ _ => ws = w
  | _ => False
  end.

(** The sockets of [s] that are not OPEN are not OPEN in [s'] either,
    and have been sent nothing since. *)
Definition stays_closed (s s' : State) : Prop :=
  forall w k, socks s !! w = Some k -> is_open (readyState k) = false ->
    exists k', socks s' !! w = Some k'
               /\ is_open (readyState k') = false
               /\ sentMessages k' = sentMessages k.

(** The guard of the watcher: the callback goes on for a name that is
    not empty and ends in [.md]. *)
Definition is_markdown (filename : option jsstring) : bool :=
  match filename with
  | None => false
  | Some f =>
    negb (match f with [] => true | _ => false end
          || negb (endsWith f (lit ".md")))
  end.

(** [filename.replace(/\\/g, "/")] *)
Definition relative_path (filename : jsstring) : jsstring :=
  map (fun c => if c =? 92 then 47 else c) filename.

(** The control frame carrying [{ type: "file-changed", file: ... }]
    for the changed file [filename]. *)
Definition file_changed_frame (filename : jsstring) : list Z :=
  CONTROL_BYTE
    :: utf8 (JSON_stringify [(lit "type", FStr (lit "file-changed"));
                             (lit "file", FStr (relative_path filename))]).

End Server.

(** ** The browser side: the [TerminalPanel] component *)

Module Client.
Import Utf8 Json Eff Eff.Notations.

Definition DATA_BYTE : Z := Protocol.kind_byte Protocol.DATA.
Definition CONTROL_BYTE : Z := Protocol.kind_byte Protocol.CONTROL.

Inductive ReadyState := CONNECTING | OPEN | CLOSING | CLOSED.

Definition is_open (r : ReadyState) : bool :=
  match r with OPEN => true | _ => false end.

(** A browser WebSocket: its [readyState], the messages handed to
    [send] (oldest first), and the run of the connection effect whose
    [connect] created it. Its [onopen] and [onclose] handlers are
    closures of that run: they read and write its variables. *)
Record Socket := mkSocket {
  readyState : ReadyState;
  sentMessages : list (list Z);
  creator : nat
}.

(** One run of the connection effect ([useEffect], lines 57 to 120):
    its variables [disposed] and [reconnectTimer], the timer it set
    last. Every run of the effect has variables of its own. *)
Record Effect := mkEffect {
  disposed : bool;
  reconnectTimer : option nat
}.

(** A timer set with [setTimeout(connect, 2000)]: the run of the effect
    whose [connect] it calls, and whether it is pending (it has neither
    fired nor been cleared). *)
Record Timer := mkTimer {
  timer_effect : nat;
  pending : bool
}.

(** A terminal emulator instance: whether [dispose] was called, the
    byte chunks handed to [write] (oldest first), and its grid size
    (80 x 24 when created). *)
Record Terminal := mkTerminal {
  term_disposed : bool;
  term_written : list (list Z);
  term_cols : Z;
  term_rows : Z
}.

(** A [ResizeObserver]: whether [disconnect] was called, and the
    terminal its callback closes over. *)
Record Observer := mkObserver {
  disconnected : bool;
  observed_term : nat
}.

(** The state of the component: its React state ([sessionActive],
    [connected]), its refs, the runs of the connection effect, and the
    objects the refs point into. [containerRef] tells whether
    [containerRef.current] is set; [awaiting] counts the calls of
    [ensureTerminal] suspended at the module import; [timers] holds the
    reconnect timers that were set; [dispatched] lists the details of
    the [docs-file-changed] events dispatched on [window]. *)
Record State := mkState {
  sessionActive : bool;
  connected : bool;
  containerRef : bool;
  termRef : option nat;
  fitAddonRef : option nat;
  wsRef : option nat;
  resizeObserverRef : option nat;
  termModulesRef : bool;
  effects : list Effect;
  awaiting : nat;
  timers : list Timer;
  sockets : list Socket;
  terminals : list Terminal;
  observers : list Observer;
  dispatched : list JsValue
}.

Definition initial : State :=
  mkState false false false None None None None false [] 0 [] [] [] [] [].

Definition M : Type -> Type := Eff.M State.

Definition setSessionActive (v : bool) : M unit := modify (fun s =>
  mkState v (connected s) (containerRef s) (termRef s) (fitAddonRef s)
    (wsRef s) (resizeObserverRef s) (termModulesRef s) (effects s)
    (awaiting s) (timers s) (sockets s) (terminals s) (observers s)
    (dispatched s)).
Definition setConnected (v : bool) : M unit := modify (fun s =>
  mkState (sessionActive s) v (containerRef s) (termRef s) (fitAddonRef s)
    (wsRef s) (resizeObserverRef s) (termModulesRef s) (effects s)
    (awaiting s) (timers s) (sockets s) (terminals s) (observers s)
    (dispatched s)).
Definition set_containerRef (v : bool) : M unit := modify (fun s =>
  mkState (sessionActive s) (connected s) v (termRef s) (fitAddonRef s)
    (wsRef s) (resizeObserverRef s) (termModulesRef s) (effects s)
    (awaiting s) (timers s) (sockets s) (terminals s) (observers s)
    (dispatched s)).
Definition set_termRef (v : option nat) : M unit := modify (fun s =>
  mkState (sessionActive s) (connected s) (containerRef s) v (fitAddonRef s)
    (wsRef s) (resizeObserverRef s) (termModulesRef s) (effects s)
    (awaiting s) (timers s) (sockets s) (terminals s) (observers s)
    (dispatched s)).
Definition set_fitAddonRef (v : option nat) : M unit := modify (fun s =>
  mkState (sessionActive s) (connected s) (containerRef s) (termRef s) v
    (wsRef s) (resizeObserverRef s) (termModulesRef s) (effects s)
    (awaiting s) (timers s) (sockets s) (terminals s) (observers s)
    (dispatched s)).
Definition set_wsRef (v : option nat) : M unit := modify (fun s =>
  mkState (sessionActive s) (connected s) (containerRef s) (termRef s)
    (fitAddonRef s) v (resizeObserverRef s) (termModulesRef s) (effects s)
    (awaiting s) (timers s) (sockets s) (terminals s) (observers s)
    (dispatched s)).
Definition set_resizeObserverRef (v : option nat) : M unit := modify (fun s =>
  mkState (sessionActive s) (connected s) (containerRef s) (termRef s)
    (fitAddonRef s) (wsRef s) v (termModulesRef s) (effects s)
    (awaiting s) (timers s) (sockets s) (terminals s) (observers s)
    (dispatched s)).
Definition set_termModulesRef (v : bool) : M unit := modify (fun s =>
  mkState (sessionActive s) (connected s) (containerRef s) (termRef s)
    (fitAddonRef s) (wsRef s) (resizeObserverRef s) v (effects s)
    (awaiting s) (timers s) (sockets s) (terminals s) (observers s)
    (dispatched s)).
Definition set_effects (f : list Effect -> list Effect) : M unit :=
  modify (fun s =>
  mkState (sessionActive s) (connected s) (containerRef s) (termRef s)
    (fitAddonRef s) (wsRef s) (resizeObserverRef s) (termModulesRef s)
    (f (effects s)) (awaiting s) (timers s) (sockets s) (terminals s)
    (observers s) (dispatched s)).
Definition set_awaiting (v : nat) : M unit := modify (fun s =>
  mkState (sessionActive s) (connected s) (containerRef s) (termRef s)
    (fitAddonRef s) (wsRef s) (resizeObserverRef s) (termModulesRef s)
    (effects s) v (timers s) (sockets s) (terminals s) (observers s)
    (dispatched s)).
Definition set_timers (f : list Timer -> list Timer) : M unit :=
  modify (fun s =>
  mkState (sessionActive s) (connected s) (containerRef s) (termRef s)
    (fitAddonRef s) (wsRef s) (resizeObserverRef s) (termModulesRef s)
    (effects s) (awaiting s) (f (timers s)) (sockets s) (terminals s)
    (observers s) (dispatched s)).
Definition set_sockets (f : list Socket -> list Socket) : M unit :=
  modify (fun s =>
  mkState (sessionActive s) (connected s) (containerRef s) (termRef s)
    (fitAddonRef s) (wsRef s) (resizeObserverRef s) (termModulesRef s)
    (effects s) (awaiting s) (timers s) (f (sockets s)) (terminals s)
    (observers s) (dispatched s)).
Definition set_terminals (f : list Terminal -> list Terminal) : M unit :=
  modify (fun s =>
  mkState (sessionActive s) (connected s) (containerRef s) (termRef s)
    (fitAddonRef s) (wsRef s) (resizeObserverRef s) (termModulesRef s)
    (effects s) (awaiting s) (timers s) (sockets s) (f (terminals s))
    (observers s) (dispatched s)).
Definition set_observers (f : list Observer -> list Observer) : M unit :=
  modify (fun s =>
  mkState (sessionActive s) (connected s) (containerRef s) (termRef s)
    (fitAddonRef s) (wsRef s) (resizeObserverRef s) (termModulesRef s)
    (effects s) (awaiting s) (timers s) (sockets s) (terminals s)
    (f (observers s)) (dispatched s)).
Definition dispatchEvent (detail : JsValue) : M unit := modify (fun s =>
  mkState (sessionActive s) (connected s) (containerRef s) (termRef s)
    (fitAddonRef s) (wsRef s) (resizeObserverRef s) (termModulesRef s)
    (effects s) (awaiting s) (timers s) (sockets s) (terminals s)
    (observers s) (dispatched s ++ [detail])).

(** *** Calls on sockets, terminals and observers *)

Definition ws_send (ws : nat) (payload : list Z) : M unit :=
  set_sockets
    (alter (fun k => mkSocket (readyState k) (sentMessages k ++ [payload])
                              (creator k))
           ws).

Definition ws_is_open (ws : nat) : M bool :=
  gets (fun s => match sockets s !! ws with
                 | Some k => is_open (readyState k)
                 | None => false
                 end).

Definition set_readyState (ws : nat) (rs : ReadyState) : M unit :=
  set_sockets (alter (fun k => mkSocket rs (sentMessages k) (creator k)) ws).

(** [ws.close()] *)
Definition ws_close (ws : nat) : M unit :=
  set_sockets (alter (fun k =>
    match readyState k with
    | CLOSED | CLOSING => k
    | _ => mkSocket CLOSING (sentMessages k) (creator k)
    end) ws).

(** [clearTimeout(t)] *)
Definition clearTimeout (t : nat) : M unit :=
  set_timers (alter (fun x => mkTimer (timer_effect x) false) t).

(** [term.write(bytes)] *)
Definition term_write (t : nat) (bytes : list Z) : M unit :=
  set_terminals (alter (fun x =>
    mkTerminal (term_disposed x) (term_written x ++ [bytes])
               (term_cols x) (term_rows x)) t).

(** [term.dispose()] *)
Definition term_dispose (t : nat) : M unit :=
  set_terminals (alter (fun x =>
    mkTerminal true (term_written x) (term_cols x) (term_rows x)) t).

(** [ro.disconnect()] *)
Definition observer_disconnect (o : nat) : M unit :=
  set_observers (alter (fun x => mkObserver true (observed_term x)) o).

(** *** The functions of the component *)

(** The array that [sendControl] and the keystroke handler build:
    [new Uint8Array(1 + bytes.length)], the kind byte stored at index 0,
    the bytes copied in from index 1. *)
Definition frame (kind : Z) (bytes : list Z) : M (list Z) :=
  let payload := Buf.alloc (1 + length bytes) in
  let payload := Buf.store payload 0 kind in
  match Buf.set payload bytes 1 with
  | Some payload => ret payload
  | None => throw RangeError
  end.

Definition sendControl (ws : nat) (obj : ObjLit) : M unit :=
  let* o := ws_is_open ws in
  if negb o then ret tt
  else
    let msg := utf8 (JSON_stringify obj) in
    let* payload := frame CONTROL_BYTE msg in
    ws_send ws payload.

Definition ctl (t : string) : ObjLit := [(lit "type", FStr (lit t))].

(** The part of [ensureTerminal] after the modules are there: the
    terminal, its fit addon and its resize observer are created, unless
    the container is missing or a terminal exists. The key and resize
    callbacks it registers are [onTermData] and [onResizeObserved]. *)
Definition createTerminal : M unit :=
  let* c := gets containerRef in
  let* t := gets termRef in
  if negb c || (match t with Some _ => true | None => false end) then ret tt
  else
    let* term := gets (fun s => length (terminals s)) in
    set_terminals (fun l => l ++ [mkTerminal false [] 80 24]) >>>
    set_termRef (Some term) >>>
    set_fitAddonRef (Some term) >>>
    let* ro := gets (fun s => length (observers s)) in
    set_observers (fun l => l ++ [mkObserver false term]) >>>
    set_resizeObserverRef (Some ro).

(** [ensureTerminal()], up to its first suspension. *)
Definition ensureTerminal : M unit :=
  let* t := gets termRef in
  match t with
  | Some _ => ret tt
  | None =>
    let* m := gets termModulesRef in
    if negb m then
      let* n := gets awaiting in set_awaiting (S n)
    else createTerminal
  end.

(** A suspended [ensureTerminal] resumes: the modules are loaded. *)
Definition onModulesLoaded : M unit :=
  let* n := gets awaiting in
  match n with
  | O => ret tt
  | S n' =>
    set_awaiting n' >>>
    set_termModulesRef true >>>
    createTerminal
  end.

(** [ws.onmessage]. *)
Definition onMessage (data : list Z) : M unit :=
  match Protocol.decode data with
  | None => ret tt
  | Some (type, body) =>
    if type =? DATA_BYTE then
      let* t := gets termRef in
      match t with
      | Some t => term_write t body
      | None => ret tt
      end
    else if type =? CONTROL_BYTE then
      try_catch
        (let* msg := parse (TextDecoder_decode body) in
         let* t := prop msg "type" in
         if strict_eq_str t (lit "session-active") then
           setSessionActive true >>>
           ensureTerminal
         else
           let* t := prop msg "type" in
           if strict_eq_str t (lit "session-inactive") then
             setSessionActive false
           else
             let* t := prop msg "type" in
             if strict_eq_str t (lit "exit") then
               setSessionActive false
             else
               let* t := prop msg "type" in
               if strict_eq_str t (lit "file-changed") then
                 let* f := prop msg "file" in
                 dispatchEvent f
               else ret tt)
        (fun _ => ret tt)
    else ret tt
  end.

(** The variable [disposed] of the run [r] of the effect, read by one
    of its closures. (The closures of a run that does not exist cannot
    run; the value given for it is of no consequence.) *)
Definition get_disposed (r : nat) : M bool :=
  gets (fun s => match effects s !! r with
                 | Some e => disposed e
                 | None => true
                 end).

Definition get_reconnectTimer (r : nat) : M (option nat) :=
  gets (fun s => match effects s !! r with
                 | Some e => reconnectTimer e
                 | None => None
                 end).

(** [connect()], the closure of the run [r] of the effect. *)
Definition connect (r : nat) : M unit :=
  let* d := get_disposed r in
  if d then ret tt
  else
    let* ws := gets (fun s => length (sockets s)) in
    set_sockets (fun l => l ++ [mkSocket CONNECTING [] r]) >>>
    set_wsRef (Some ws).

(** [ws.onopen] of a socket that the run [r] created. *)
Definition onOpen (r : nat) : M unit :=
  let* d := get_disposed r in
  if d then ret tt else setConnected true.

(** [ws.onclose] of a socket that the run [r] created. *)
Definition onClose (r : nat) : M unit :=
  let* d := get_disposed r in
  if d then ret tt
  else
    setConnected false >>>
    set_wsRef None >>>
    let* t := gets (fun s => length (timers s)) in
    set_timers (fun l => l ++ [mkTimer r true]) >>>
    set_effects (alter (fun e => mkEffect (disposed e) (Some t)) r).

(** The body of the connection effect: a run with variables of its
    own, [disposed] false and no timer set, which calls [connect()]. *)
Definition connectionEffect : M unit :=
  let* r := gets (fun s => length (effects s)) in
  set_effects (fun l => l ++ [mkEffect false None]) >>>
  connect r.

(** The cleanup that the run [r] of the effect returned. *)
Definition cleanup (r : nat) : M unit :=
  set_effects (alter (fun e => mkEffect true (reconnectTimer e)) r) >>>
  (let* t := get_reconnectTimer r in
   match t with
   | Some t => clearTimeout t
   | None => ret tt
   end) >>>
  let* w := gets wsRef in
  match w with
  | Some ws => ws_close ws
  | None => ret tt
  end >>>
  set_wsRef None.

(** The keystroke callback registered with [term.onData]. *)
Definition onTermData (data : jsstring) : M unit :=
  let* w := gets wsRef in
  match w with
  | None => ret tt
  | Some ws =>
    let* o := ws_is_open ws in
    if o then
      let encoded := utf8 data in
      let* payload := frame DATA_BYTE encoded in
      ws_send ws payload
    else ret tt
  end.

(** The callback of the resize observer [o]: after the fit, which
    leaves the terminal with the grid [cols] x [rows], the new size is
    reported to the server. *)
Definition onResizeObserved (o : nat) (cols rows : Z) : M unit :=
  try_catch
    (let* ob := gets (fun s => observers s !! o) in
     match ob with
     | None => ret tt
     | Some ob =>
       set_terminals (alter (fun x =>
         mkTerminal (term_disposed x) (term_written x) cols rows)
         (observed_term ob)) >>>
       let* w := gets wsRef in
       match w with
       | None => ret tt
       | Some ws =>
         let* op := ws_is_open ws in
         if op then
           sendControl ws [(lit "type", FStr (lit "resize"));
                           (lit "cols", FInt cols); (lit "rows", FInt rows)]
         else ret tt
       end
     end)
    (fun _ => ret tt).

Definition handleStart : M unit :=
  let* w := gets wsRef in
  match w with
  | None => ret tt
  | Some ws =>
    let* o := ws_is_open ws in
    if negb o then ret tt
    else sendControl ws (ctl "start")
  end.

Definition handleStop : M unit :=
  let* w := gets wsRef in
  match w with
  | None => ret tt
  | Some ws =>
    let* o := ws_is_open ws in
    if negb o then ret tt
    else
      sendControl ws (ctl "close") >>>
      (let* r := gets resizeObserverRef in
       match r with
       | Some ro => observer_disconnect ro
       | None => ret tt
       end) >>>
      set_resizeObserverRef None >>>
      (let* t := gets termRef in
       match t with
       | Some t => term_dispose t
       | None => ret tt
       end) >>>
      set_termRef None >>>
      set_fitAddonRef None
  end.

(** *** The event loop of the page *)

Inductive Event :=
| EvMount
| EvUnmount
| EvOpen (ws : nat)
| EvMessage (data : list Z)
| EvClose (ws : nat)
| EvReconnectTimer (t : nat)
| EvModulesLoaded
| EvCommit
| EvKeys (t : nat) (data : jsstring)
| EvResize (o : nat) (cols rows : Z)
| EvClickStart
| EvClickStop.

(** One turn of the event loop. [EvMount] is React running the
    connection effect: when the component mounts, and once more after a
    cleanup when React remounts it (as it does in development under
    StrictMode). [EvUnmount] is React running the cleanup of the latest
    run of the effect. [EvOpen] and [EvClose] are the [open] and [close]
    events of a socket, handled by the closures of the run that created
    it; [EvReconnectTimer] is a pending timer firing. An event of a
    socket or timer that does not exist is not delivered. [EvCommit] is
    React committing a render: the container element exists exactly
    while the session is shown as active. A disposed terminal reports no
    keys, a disconnected observer no longer calls back. The fits that
    only change the grid of the terminal (on open, on a height change)
    are left out. *)
Definition step (e : Event) : M unit :=
  match e with
  | EvMount => connectionEffect
  | EvUnmount =>
    let* n := gets (fun s => length (effects s)) in
    match n with
    | O => ret tt
    | S r => cleanup r
    end
  | EvOpen ws =>
    let* k := gets (fun s => sockets s !! ws) in
    match k with
    | Some k => set_readyState ws OPEN >>> onOpen (creator k)
    | None => ret tt
    end
  | EvMessage data => onMessage data
  | EvClose ws =>
    let* k := gets (fun s => sockets s !! ws) in
    match k with
    | Some k => set_readyState ws CLOSED >>> onClose (creator k)
    | None => ret tt
    end
  | EvReconnectTimer t =>
    let* x := gets (fun s => timers s !! t) in
    match x with
    | Some x =>
      if pending x then
        set_timers (alter (fun x => mkTimer (timer_effect x) false) t) >>>
        connect (timer_effect x)
      else ret tt
    | None => ret tt
    end
  | EvModulesLoaded => onModulesLoaded
  | EvCommit => let* a := gets sessionActive in set_containerRef a
  | EvKeys t data =>
    let* x := gets (fun s => terminals s !! t) in
    match x with
    | Some x => if term_disposed x then ret tt else onTermData data
    | None => ret tt
    end
  | EvResize o cols rows =>
    let* ob := gets (fun s => observers s !! o) in
    match ob with
    | Some ob => if disconnected ob then ret tt
                 else onResizeObserved o cols rows
    | None => ret tt
    end
  | EvClickStart => handleStart
  | EvClickStop => handleStop
  end.

(** The terminals on which [dispose] was called. *)
Definition disposed_terminals (s : State) : list bool :=
  map term_disposed (terminals s).

(** The observers on which [disconnect] was called. *)
Definition disconnected_observers (s : State) : list bool :=
  map disconnected (observers s).

(** *** Notions used to state the properties *)

(** The control frame carrying the object [{ type: t }]. *)
Definition control_frame (t : string) : list Z :=
  CONTROL_BYTE :: utf8 (JSON_stringify (ctl t)).

(** The value a control frame carries, when it is one and its payload
    parses. *)
Definition control_message (raw : list Z) : option JsValue :=
  match Protocol.decode raw with
  | Some (type, body) =>
    if type =? CONTROL_BYTE then JSON_parse (TextDecoder_decode body)
    else None
  | None => None
  end.

(** [raw] is a control frame whose [type] is the string [t]. *)
Definition carries (raw : list Z) (t : string) : Prop :=
  exists msg, control_message raw = Some msg
              /\ get_prop msg (lit "type") = Some (JStr (lit t)).

(** The socket [ws] exists and is OPEN. *)
Definition open_in (s : State) (ws : nat) : bool :=
  match sockets s !! ws with
  | Some k => is_open (readyState k)
  | None => false
  end.

(** The component holds an open socket. *)
Definition has_open_socket (s : State) : bool :=
  match wsRef s with
  | Some ws => open_in s ws
  | None => false
  end.

(** The state [handleStop] leaves when the component holds the open
    socket [ws]: the [close] frame is sent, the observer and the
    terminal that the refs point to are disconnected and disposed, and
    the three refs are cleared. *)
Definition stopped (ws : nat) (s : State) : State :=
  mkState (sessionActive s) (connected s) (containerRef s) None None
    (wsRef s) None (termModulesRef s) (effects s) (awaiting s) (timers s)
    (alter (fun k => mkSocket (readyState k)
                       (sentMessages k ++ [control_frame "close"])
                       (creator k))
           ws (sockets s))
    (match termRef s with
     | Some t => alter (fun x => mkTerminal true (term_written x)
                                   (term_cols x) (term_rows x))
                       t (terminals s)
     | None => terminals s
     end)
    (match resizeObserverRef s with
     | Some ro => alter (fun x => mkObserver true (observed_term x))
                        ro (observers s)
     | None => observers s
     end)
    (dispatched s).

(** From [s] to [s'] no terminal was disposed and no observer was
    disconnected: what is disposed or disconnected in [s'] was so in
    [s]. *)
Definition nothing_disposed (s s' : State) : Prop :=
  (forall t x', terminals s' !! t = Some x' -> term_disposed x' = true ->
                exists x, terminals s !! t = Some x /\ term_disposed x = true)
  /\ (forall o y', observers s' !! o = Some y' -> disconnected y' = true ->
                   exists y, observers s !! o = Some y
                             /\ disconnected y = true).

(** The state after the session was marked inactive. *)
Definition marked_inactive (s : State) : State :=
  mkState false (connected s) (containerRef s) (termRef s) (fitAddonRef s)
    (wsRef s) (resizeObserverRef s) (termModulesRef s) (effects s)
    (awaiting s) (timers s) (sockets s) (terminals s) (observers s)
    (dispatched s).

(** A page with a live terminal whose socket has closed: the component
    mounted and connected, the server reported an active session, the
    render committed and the modules loaded (so the terminal exists),
    then the connection closed. *)
Definition disconnected_with_terminal : State :=
  snd (step (EvClose 0)
    (snd (step EvModulesLoaded
      (snd (step EvCommit
        (snd (step (EvMessage (control_frame "session-active"))
          (snd (step (EvOpen 0)
            (snd (step EvMount initial))))))))))).

(** The same page while the connection is still open. *)
Definition connected_with_terminal : State :=
  snd (step EvModulesLoaded
    (snd (step EvCommit
      (snd (step (EvMessage (control_frame "session-active"))
        (snd (step (EvOpen 0)
          (snd (step EvMount initial))))))))).

(** A run of the page's event loop, and the state after it. *)
Fixpoint run (es : list Event) : M unit :=
  match es with
  | [] => ret tt
  | e :: es' => step e >>> run es'
  end.

Definition exec (es : list Event) (s : State) : State := snd (run es s).

(** The messages sent on the socket [ws] so far. *)
Definition sent (s : State) (ws : nat) : list (list Z) :=
  match sockets s !! ws with
  | Some k => sentMessages k
  | None => []
  end.

(** A page that React mounted, unmounted and mounted again, as it does
    in development under StrictMode: the socket of the first run of the
    effect was closed by its cleanup, the socket of the second run has
    opened. *)
Definition remounted_page : State :=
  exec [EvMount; EvUnmount; EvMount; EvOpen 1] initial.

(** The state after the session was marked active. *)
Definition marked_active (s : State) : State :=
  mkState true (connected s) (containerRef s) (termRef s) (fitAddonRef s)
    (wsRef s) (resizeObserverRef s) (termModulesRef s) (effects s)
    (awaiting s) (timers s) (sockets s) (terminals s) (observers s)
    (dispatched s).

(** The state after [ensureTerminal] created the terminal, its fit
    addon and its resize observer. *)
Definition with_terminal (s : State) : State :=
  mkState (sessionActive s) (connected s) (containerRef s)
    (Some (length (terminals s))) (Some (length (terminals s)))
    (wsRef s) (Some (length (observers s))) (termModulesRef s) (effects s)
    (awaiting s) (timers s) (sockets s)
    (terminals s ++ [mkTerminal false [] 80 24])
    (observers s ++ [mkObserver false (length (terminals s))])
    (dispatched s).

(** The state after one more call of [ensureTerminal] was suspended at
    the import of the terminal modules. *)
Definition with_import_pending (s : State) : State :=
  mkState (sessionActive s) (connected s) (containerRef s) (termRef s)
    (fitAddonRef s) (wsRef s) (resizeObserverRef s) (termModulesRef s)
    (effects s) (S (awaiting s)) (timers s) (sockets s) (terminals s)
    (observers s) (dispatched s).

(** Every terminal that was not disposed is the one [termRef] points
    to, every observer that was not disconnected is the one
    [resizeObserverRef] points to, and without a terminal there is no
    observer. *)
Definition one_terminal (s : State) : Prop :=
  (forall t x, terminals s !! t = Some x -> term_disposed x = false ->
               termRef s = Some t)
  /\ (forall o y, observers s !! o = Some y -> disconnected y = false ->
                  resizeObserverRef s = Some o)
  /\ (termRef s = None -> resizeObserverRef s = None).

(** From [s] to [s'] the property [one_terminal] is kept. *)
Definition keeps_one_terminal (s s' : State) : Prop :=
  one_terminal s -> one_terminal s'.

(** Every run of the connection effect was cleaned up. *)
Definition all_disposed (s : State) : Prop :=
  Forall (fun e => disposed e = true) (effects s).

(** The component was unmounted: every run of the connection effect was
    cleaned up, and the component holds no socket. *)
Definition unmounted (s : State) : Prop :=
  all_disposed s /\ wsRef s = None.

(** Only the latest run of the effect can be one that was not cleaned
    up: React runs the cleanup of a run before it runs the effect
    again. *)
Definition one_live_effect (s : State) : Prop :=
  forall r e, effects s !! r = Some e -> disposed e = false ->
              S r = length (effects s).

(** From [s] to [s'] nothing of the connection changed: the sockets and
    what was sent on them, the socket held, the runs of the effect, the
    timers, and the [connected] flag. *)
Definition same_connection (s s' : State) : Prop :=
  sockets s' = sockets s /\ wsRef s' = wsRef s
  /\ effects s' = effects s /\ timers s' = timers s
  /\ connected s' = connected s.

(** From [s] to [s'] no socket was created, nothing was sent on any
    socket, and the [connected] flag did not change. *)
Definition silent (s s' : State) : Prop :=
  length (sockets s') = length (sockets s)
  /\ (forall ws, sent s' ws = sent s ws)
  /\ connected s' = connected s.

(** The socket [k] after its [close] event. *)
Definition closed (k : Socket) : Socket :=
  mkSocket CLOSED (sentMessages k) (creator k).

(** From [s] to [s'] the session indicator did not change. *)
Definition same_indicator (s s' : State) : Prop :=
  sessionActive s' = sessionActive s.

(** The event is a message from the server. *)
Definition is_message (e : Event) : Prop :=
  match e with
  | EvMessage _ => True
  | _ => False
  end.

(** The page of [connected_with_terminal] after the session was stopped
    and the server confirmed it, the render committed, and start was
    clicked again. *)
Definition restarting_page : State :=
  exec [EvClickStop; EvMessage (control_frame "session-inactive"); EvCommit;
        EvClickStart] connected_with_terminal.

End Client.

(** ** One browser and the server *)

Module Bridge.
Import Utf8 Json Eff.

(** The page after it has received the frames [frames], in order. *)
Definition receive (frames : list (list Z)) (c : Client.State)
  : Client.State :=
  Client.exec (map Client.EvMessage frames) c.

(** [currentPty] is set: the server has a session. *)
Definition has_session (s : Server.State) : bool :=
  match Server.currentPty s with
  | Some _ => true
  | None => false
  end.

(** The events of a server to which one browser stays connected: no
    other connection is accepted and the socket stays open; the names of
    the files that change are well-formed strings. *)
Definition one_client_event (e : Server.Event) : Prop :=
  match e with
  | Server.EvConnection _ => False
  | Server.EvClosing _ => False
  | Server.EvClose _ => False
  | Server.EvWatch (Some f) => Forall scalar f
  | _ => True
  end.

(** The state of a server with one browser connected, whose socket is
    open: the active connection is the socket 0, the only one. *)
Definition one_client (s : Server.State) : Prop :=
  Server.open_in s 0 = true
  /\ length (Server.socks s) = 1%nat
  /\ Server.activeWs s = Some 0%nat
  /\ (forall f, Server.fileChangeTimer s = Some f -> Forall scalar f).

(** The indicator of a page that has received all the server sent to
    the socket 0 tells whether the server has a session. *)
Definition indicator_agrees (s : Server.State) : Prop :=
  forall c, Client.sessionActive (receive (Server.sent s 0) c)
            = has_session s.

End Bridge.

(** * Properties *)

(** ** UTF-8: decoding undoes encoding on well-formed text *)

Section Utf8Facts.
Import Utf8.

Lemma between_true lo hi b : lo <= b <= hi -> between lo hi b = true.
Proof.
  intros [H1 H2]. unfold between.
  apply andb_true_intro; split; apply Z.leb_le; assumption.
Qed.

Lemma between_false lo hi b : b < lo \/ hi < b -> between lo hi b = false.
Proof.
  intros H. unfold between. apply andb_false_iff.
  destruct H; [left | right]; apply Z.leb_gt; assumption.
Qed.

Lemma toString_1 b rest :
  0 <= b < 0x80 -> toString (b :: rest) = b :: toString rest.
Proof.
  intros H. cbn [toString].
  rewrite (proj2 (Z.ltb_lt b 0x80)) by lia. reflexivity.
Qed.

Lemma toString_2 q r rest :
  2 <= q < 32 -> 0 <= r < 64 ->
  toString ((0xC0 + q) :: (0x80 + r) :: rest) = (q * 64 + r) :: toString rest.
Proof.
  intros Hq Hr. cbn [toString].
  rewrite (proj2 (Z.ltb_ge (0xC0 + q) 0x80)) by lia.
  rewrite !between_true by lia.
  f_equal. lia.
Qed.

Lemma toString_3 q r1 r2 rest :
  0 <= q < 16 -> 0 <= r1 < 64 -> 0 <= r2 < 64 ->
  (q = 0 -> 32 <= r1) -> (q = 13 -> r1 < 32) ->
  toString ((0xE0 + q) :: (0x80 + r1) :: (0x80 + r2) :: rest)
  = (q * 4096 + r1 * 64 + r2) :: toString rest.
Proof.
  intros Hq Hr1 Hr2 H0 H13. cbn [toString].
  rewrite (proj2 (Z.ltb_ge (0xE0 + q) 0x80)) by lia.
  rewrite (between_false 0xC2 0xDF) by lia.
  rewrite (between_true 0xE0 0xEF) by lia.
  rewrite (between_true (lower2 _) (upper2 _)).
  2:{ unfold lower2, upper2.
      destruct (Z.eqb_spec (0xE0 + q) 0xE0), (Z.eqb_spec (0xE0 + q) 0xF0),
        (Z.eqb_spec (0xE0 + q) 0xED), (Z.eqb_spec (0xE0 + q) 0xF4); lia. }
  rewrite between_true by lia.
  f_equal. lia.
Qed.

Lemma toString_4 q r1 r2 r3 rest :
  0 <= q <= 4 -> 0 <= r1 < 64 -> 0 <= r2 < 64 -> 0 <= r3 < 64 ->
  (q = 0 -> 16 <= r1) -> (q = 4 -> r1 < 16) ->
  toString ((0xF0 + q) :: (0x80 + r1) :: (0x80 + r2) :: (0x80 + r3) :: rest)
  = (q * 262144 + r1 * 4096 + r2 * 64 + r3) :: toString rest.
Proof.
  intros Hq Hr1 Hr2 Hr3 H0 H4. cbn [toString].
  rewrite (proj2 (Z.ltb_ge (0xF0 + q) 0x80)) by lia.
  rewrite (between_false 0xC2 0xDF) by lia.
  rewrite (between_false 0xE0 0xEF) by lia.
  rewrite (between_true 0xF0 0xF4) by lia.
  rewrite (between_true (lower2 _) (upper2 _)).
  2:{ unfold lower2, upper2.
      destruct (Z.eqb_spec (0xF0 + q) 0xE0), (Z.eqb_spec (0xF0 + q) 0xF0),
        (Z.eqb_spec (0xF0 + q) 0xED), (Z.eqb_spec (0xF0 + q) 0xF4); lia. }
  rewrite !between_true by lia.
  f_equal. lia.
Qed.

(** Decoding the bytes of one scalar value gives it back. *)
Lemma toString_utf8_char c rest :
  scalar c -> toString (utf8_char c ++ rest) = c :: toString rest.
Proof.
  intros [Hc Hs]. unfold utf8_char.
  destruct (Z.ltb_spec c 0x80).
  { apply toString_1. lia. }
  destruct (Z.ltb_spec c 0x800).
  { cbn [app]. rewrite toString_2.
    - f_equal. Z.to_euclidean_division_equations. lia.
    - Z.to_euclidean_division_equations. lia.
    - Z.to_euclidean_division_equations. lia. }
  destruct (Z.ltb_spec c 0x10000).
  { rewrite Hs. cbn [app].
    unfold is_surrogate in Hs. apply andb_false_iff in Hs.
    rewrite !Z.leb_gt in Hs.
    rewrite toString_3.
    - f_equal. Z.to_euclidean_division_equations. lia.
    - Z.to_euclidean_division_equations. lia.
    - Z.to_euclidean_division_equations. lia.
    - Z.to_euclidean_division_equations. lia.
    - Z.to_euclidean_division_equations. lia.
    - Z.to_euclidean_division_equations. lia. }
  cbn [app]. rewrite toString_4.
  - f_equal. Z.to_euclidean_division_equations. lia.
  - Z.to_euclidean_division_equations. lia.
  - Z.to_euclidean_division_equations. lia.
  - Z.to_euclidean_division_equations. lia.
  - Z.to_euclidean_division_equations. lia.
  - Z.to_euclidean_division_equations. lia.
  - Z.to_euclidean_division_equations. lia.
Qed.

(** Decoding the UTF-8 bytes of a well-formed string gives the string
    back. *)
Lemma toString_utf8 s : Forall scalar s -> toString (utf8 s) = s.
Proof.
  induction 1 as [| c s Hc _ IH]; [reflexivity |].
  cbn [utf8]. rewrite toString_utf8_char by assumption.
  rewrite IH. reflexivity.
Qed.


(** Every ASCII string literal is well-formed. *)
Lemma lit_scalar s : Forall scalar (lit s).
Proof.
  induction s as [| a s IH]; constructor; [| assumption].
  pose proof (N_ascii_bounded a) as Hb.
  unfold scalar, is_surrogate.
  assert (0 <= Z.of_N (N_of_ascii a) < 256) as Hr by lia.
  split; [lia |].
  apply andb_false_iff. left. apply Z.leb_gt. lia.
Qed.

End Utf8Facts.

(** ** Frames *)

Section FrameFacts.
Import Utf8.

Lemma blit_middle src : forall pre zs post,
  length zs = length src ->
  Buf.blit (pre ++ zs ++ post) (length pre) src = pre ++ src ++ post.
Proof.
  induction src as [| x src IH]; intros pre zs post Hlen.
  - destruct zs; [reflexivity | discriminate].
  - destruct zs as [| z zs]; [discriminate |].
    cbn [Buf.blit]. cbn [app].
    rewrite insert_app_r_alt by lia.
    rewrite Nat.sub_diag. cbn [insert list_insert].
    replace (pre ++ x :: zs ++ post) with ((pre ++ [x]) ++ zs ++ post)
      by (rewrite <- app_assoc; reflexivity).
    replace (S (length pre)) with (length (pre ++ [x]))
      by (rewrite length_app; simpl; lia).
    rewrite IH by (simpl in Hlen; lia).
    rewrite <- app_assoc. reflexivity.
Qed.

Lemma write_zeros s : forall pre n,
  (length (utf8 s) <= n)%nat ->
  Buf.write (pre ++ replicate n 0) s (length pre)
  = pre ++ utf8 s ++ replicate (n - length (utf8 s)) 0.
Proof.
  induction s as [| c s IH]; intros pre n Hn.
  - cbn. rewrite Nat.sub_0_r. reflexivity.
  - cbn [Buf.write utf8] in *. rewrite length_app in Hn.
    set (e := utf8_char c) in *.
    rewrite length_app, length_replicate.
    destruct (Nat.leb_spec (length pre + length e) (length pre + n))
      as [_ | Hc]; [| lia].
    replace n with (length e + (n - length e))%nat at 1 by lia.
    rewrite replicate_add.
    rewrite blit_middle by (rewrite length_replicate; reflexivity).
    rewrite app_assoc, <- length_app.
    rewrite IH by lia.
    rewrite <- !app_assoc, length_app.
    do 4 f_equal. lia.
Qed.

(** The buffer the server sends is the kind byte followed by the UTF-8
    bytes of the message. *)
Lemma server_frame_eq kind msg :
  Server.frame kind msg = kind mod 256 :: utf8 msg.
Proof.
  unfold Server.frame, Buf.alloc, Buf.store, byteLength.
  cbn [Nat.add replicate insert list_insert].
  change (kind mod 256 :: replicate (length (utf8 msg)) 0)
    with ([kind mod 256] ++ replicate (length (utf8 msg)) 0).
  change 1%nat with (length [kind mod 256]).
  rewrite write_zeros by lia.
  rewrite Nat.sub_diag. cbn. rewrite app_nil_r. reflexivity.
Qed.

(** The array the browser sends is the kind byte followed by the
    payload bytes; building it does not throw. *)
Lemma client_frame_eq kind bytes (s : Client.State) :
  Client.frame kind bytes s = (Eff.Ok (kind mod 256 :: bytes), s).
Proof.
  unfold Client.frame, Buf.alloc, Buf.store, Buf.set.
  cbn [Nat.add replicate insert list_insert length].
  rewrite length_replicate, Nat.leb_refl.
  pose proof (blit_middle bytes [kind mod 256] (replicate (length bytes) 0)
                [] (length_replicate _ _)) as H.
  rewrite !app_nil_r in H. cbn [app length] in H.
  rewrite H. reflexivity.
Qed.

Lemma decode_cons b p : Protocol.decode (b :: p) = Some (b, p).
Proof. reflexivity. Qed.


End FrameFacts.



(** ** Statements: returning, and sequencing *)

Section EffFacts.
Import Eff.
Context {St : Type}.

Lemma bind_ok {A B} (m : M St A) (k : A -> M St B) s a :
  fst (m s) = Ok a -> bind m k s = k a (snd (m s)).
Proof.
  unfold bind. destruct (m s) as [[a' | e] s']; cbn; intros H.
  - injection H as ->. reflexivity.
  - discriminate.
Qed.

Lemma safe_ret {A} (a : A) : safe (St := St) (ret a).
Proof. intros s. exists a. reflexivity. Qed.

Lemma safe_gets {A} (f : St -> A) : safe (gets f).
Proof. intros s. exists (f s). reflexivity. Qed.

Lemma safe_modify (f : St -> St) : safe (modify f).
Proof. intros s. exists tt. reflexivity. Qed.

Lemma safe_bind {A B} (m : M St A) (k : A -> M St B) :
  safe m -> (forall a, safe (k a)) -> safe (bind m k).
Proof.
  intros Hm Hk s. destruct (Hm s) as [a Ha].
  unfold returns. rewrite (bind_ok _ _ _ _ Ha). apply Hk.
Qed.

Lemma safe_try_catch {A} (m : M St A) (h : Exn -> M St A) :
  (forall e, safe (h e)) -> safe (try_catch m h).
Proof.
  intros Hh s. unfold returns, try_catch.
  destruct (m s) as [[a | e] s'].
  - exists a. reflexivity.
  - apply Hh.
Qed.

Lemma safe_unit (m : M St unit) s : safe m -> fst (m s) = Ok tt.
Proof. intros H. destruct (H s) as [[] Ha]. exact Ha. Qed.

Context (R : St -> St -> Prop) `{!PreOrder R}.

Lemma keeps_ret {A} (a : A) : keeps R (ret a).
Proof using Type*. intros s. cbn. reflexivity. Qed.

Lemma keeps_throw {A} e : keeps R (@throw St A e).
Proof using Type*. intros s. cbn. reflexivity. Qed.

Lemma keeps_gets {A} (f : St -> A) : keeps R (gets f).
Proof using Type*. intros s. cbn. reflexivity. Qed.

Lemma keeps_modify (f : St -> St) : (forall s, R s (f s)) -> keeps R (modify f).
Proof. intros H s. apply H. Qed.

Lemma keeps_bind {A B} (m : M St A) (k : A -> M St B) :
  keeps R m -> (forall a, keeps R (k a)) -> keeps R (bind m k).
Proof using Type*.
  intros Hm Hk s. unfold bind. specialize (Hm s).
  destruct (m s) as [[a | e] s']; cbn in *.
  - etransitivity; [exact Hm | apply Hk].
  - exact Hm.
Qed.

Lemma keeps_try_catch {A} (m : M St A) (h : Exn -> M St A) :
  keeps R m -> (forall e, keeps R (h e)) -> keeps R (try_catch m h).
Proof using Type*.
  intros Hm Hh s. unfold try_catch. specialize (Hm s).
  destruct (m s) as [[a | e] s']; cbn in *.
  - exact Hm.
  - etransitivity; [exact Hm | apply Hh].
Qed.

Lemma keeps_parse text : keeps R (@parse St text).
Proof using Type*.
  unfold parse. destruct (Json.JSON_parse text);
    [apply keeps_ret | apply keeps_throw].
Qed.

Lemma keeps_prop v k : keeps R (@prop St v k).
Proof using Type*.
  unfold prop. destruct (Json.get_prop v (Utf8.lit k));
    [apply keeps_ret | apply keeps_throw].
Qed.

End EffFacts.

(** ** The server: what each function does to the state *)

Section ServerFacts.
Import Utf8 Json Eff Server.

Lemma sendControl_eq ws obj s :
  sendControl ws obj s
  = (Ok tt, delivered ws (CONTROL_BYTE :: utf8 (JSON_stringify obj)) s).
Proof.
  unfold sendControl, delivered, open_in, bind, ws_is_open, gets, ws_send,
    modify, ret.
  rewrite server_frame_eq.
  destruct (socks s !! ws) as [k |]; [| reflexivity].
  destruct (is_open (readyState k)); reflexivity.
Qed.

Lemma sendData_eq ws data s :
  sendData ws data s = (Ok tt, delivered ws (DATA_BYTE :: utf8 data) s).
Proof.
  unfold sendData, delivered, open_in, bind, ws_is_open, gets, ws_send,
    modify, ret.
  rewrite server_frame_eq.
  destruct (socks s !! ws) as [k |]; [| reflexivity].
  destruct (is_open (readyState k)); reflexivity.
Qed.

Lemma sendControl_ctl ws t s :
  sendControl ws (ctl t) s = (Ok tt, delivered ws (control_frame t) s).
Proof. apply sendControl_eq. Qed.

Lemma delivered_currentPty ws p s :
  currentPty (delivered ws p s) = currentPty s.
Proof. unfold delivered. destruct (open_in s ws); reflexivity. Qed.

Lemma delivered_activeWs ws p s :
  activeWs (delivered ws p s) = activeWs s.
Proof. unfold delivered. destruct (open_in s ws); reflexivity. Qed.

Lemma delivered_ptys ws p s : ptys (delivered ws p s) = ptys s.
Proof. unfold delivered. destruct (open_in s ws); reflexivity. Qed.

Lemma delivered_timer ws p s :
  fileChangeTimer (delivered ws p s) = fileChangeTimer s.
Proof. unfold delivered. destruct (open_in s ws); reflexivity. Qed.

Lemma delivered_closed ws p s : open_in s ws = false -> delivered ws p s = s.
Proof. unfold delivered. intros ->. reflexivity. Qed.

Lemma sent_delivered ws p s w :
  sent (delivered ws p s) w
  = if open_in s ws && bool_decide (w = ws) then sent s w ++ [p]
    else sent s w.
Proof.
  unfold delivered, sent. destruct (open_in s ws) eqn:Ho; [| reflexivity].
  cbn [andb socks set_socks]. unfold open_in in Ho.
  case_bool_decide as Hw.
  - subst w. rewrite list_lookup_alter_eq.
    destruct (socks s !! ws) as [k |]; [reflexivity | discriminate].
  - rewrite list_lookup_alter_ne by congruence. reflexivity.
Qed.

Lemma sent_delivered_same ws p s :
  open_in s ws = true -> sent (delivered ws p s) ws = sent s ws ++ [p].
Proof.
  intros Ho. rewrite sent_delivered, Ho. cbn.
  rewrite bool_decide_eq_true_2 by reflexivity. reflexivity.
Qed.

Lemma sent_delivered_other ws p s w :
  w <> ws -> sent (delivered ws p s) w = sent s w.
Proof.
  intros Hw. rewrite sent_delivered.
  rewrite (bool_decide_eq_false_2 _ Hw), andb_false_r. reflexivity.
Qed.

Lemma open_in_delivered ws p s w :
  open_in (delivered ws p s) w = open_in s w.
Proof.
  unfold delivered. destruct (open_in s ws) eqn:Ho; [| reflexivity].
  unfold open_in. cbn [socks set_socks].
  destruct (decide (w = ws)) as [-> | Hw].
  - rewrite list_lookup_alter_eq. destruct (socks s !! ws); reflexivity.
  - rewrite list_lookup_alter_ne by congruence. reflexivity.
Qed.

(** *** The session manager *)

Lemma spawnSession_running o s h :
  currentPty s = Some h -> spawnSession o s = (Ok tt, s).
Proof.
  intros H. unfold spawnSession, bind, gets. rewrite H. reflexivity.
Qed.

Lemma spawnSession_throws s :
  currentPty s = None ->
  spawnSession SpawnThrows s
  = (Ok tt, match activeWs s with
            | Some ws => delivered ws (control_frame "exit") s
            | None => s
            end).
Proof.
  intros H. unfold spawnSession, bind, gets, try_catch, pty_spawn, throw.
  rewrite H. destruct (activeWs s) as [ws |]; [| reflexivity].
  rewrite sendControl_ctl. reflexivity.
Qed.

Lemma spawnSession_spawned p s :
  currentPty s = None ->
  spawnSession (Spawned p) s
  = (Ok tt, set_currentPty (Some (length (ptys s)))
              (set_ptys (ptys s ++ [fresh_pty p]) s)).
Proof.
  intros H. unfold spawnSession, bind, gets, try_catch, pty_spawn.
  rewrite H. reflexivity.
Qed.

Lemma killSession_eq s :
  killSession s
  = (Ok tt, match currentPty s with
            | None => s
            | Some h =>
              set_currentPty None
                (set_ptys (alter (fun p => mkPty (pid p) (cols p) (rows p)
                                              (writes p) true (exited p))
                                 h (ptys s)) s)
            end).
Proof.
  unfold killSession, bind, gets. destruct (currentPty s); reflexivity.
Qed.

Lemma onExit_eq s :
  onExit s
  = (Ok tt, match activeWs s with
            | Some ws => delivered ws (control_frame "exit")
                           (set_currentPty None s)
            | None => set_currentPty None s
            end).
Proof.
  unfold onExit, bind, modify, gets. cbn [activeWs set_currentPty].
  destruct (activeWs s) as [ws |]; [| reflexivity].
  rewrite sendControl_ctl. reflexivity.
Qed.

End ServerFacts.

(** ** The server: the message handler, case by case *)

Section MessageFacts.
Import Utf8 Json Eff Server.

Lemma control_message_inv raw msg :
  control_message raw = Some msg ->
  exists body, raw = CONTROL_BYTE :: body
               /\ JSON_parse (toString body) = Some msg.
Proof.
  unfold control_message. destruct raw as [| b body]; [discriminate |].
  rewrite decode_cons. destruct (Z.eqb_spec b CONTROL_BYTE) as [-> | _].
  - intros H. exists body. split; [reflexivity | exact H].
  - discriminate.
Qed.

Lemma control_message_cons body :
  control_message (CONTROL_BYTE :: body) = JSON_parse (toString body).
Proof. reflexivity. Qed.

Lemma strict_eq_str_lit a b :
  strict_eq_str (JStr (lit a)) (lit b) = bool_decide (lit a = lit b).
Proof. reflexivity. Qed.

Lemma spawnSession_ok o s : exists s1, spawnSession o s = (Ok tt, s1).
Proof.
  destruct (currentPty s) as [h |] eqn:Hc.
  - eexists. apply (spawnSession_running o s h Hc).
  - destruct o; eexists.
    + apply spawnSession_throws, Hc.
    + apply spawnSession_spawned, Hc.
Qed.

(** Unfold the message handler on a control frame whose payload parsed
    to [msg] and whose [type] reads as [t]. *)
Ltac on_control Hp Ht :=
  unfold onMessage; rewrite decode_cons;
  change (CONTROL_BYTE =? DATA_BYTE) with false;
  change (CONTROL_BYTE =? CONTROL_BYTE) with true;
  cbv beta iota;
  unfold try_catch, bind, parse, prop;
  rewrite Hp; unfold ret at 1; cbv beta iota;
  rewrite ?Ht; unfold ret; cbv beta iota.

Lemma onMessage_empty ws o s : onMessage ws [] o s = (Ok tt, s).
Proof. reflexivity. Qed.

Lemma onMessage_data ws body o s :
  onMessage ws (DATA_BYTE :: body) o s
  = (Ok tt, match currentPty s with
            | Some h =>
              set_ptys (alter (fun p => mkPty (pid p) (cols p) (rows p)
                                          (writes p ++ [toString body])
                                          (killed p) (exited p))
                              h (ptys s)) s
            | None => s
            end).
Proof.
  unfold onMessage. rewrite decode_cons.
  change (DATA_BYTE =? DATA_BYTE) with true. cbv beta iota.
  unfold bind, gets. destruct (currentPty s); reflexivity.
Qed.

Lemma onMessage_other_kind ws b body o s :
  b <> DATA_BYTE -> b <> CONTROL_BYTE ->
  onMessage ws (b :: body) o s = (Ok tt, s).
Proof.
  intros Hd Hc. unfold onMessage. rewrite decode_cons.
  rewrite (proj2 (Z.eqb_neq _ _) Hd), (proj2 (Z.eqb_neq _ _) Hc).
  reflexivity.
Qed.

Lemma onMessage_bad_json ws body o s :
  JSON_parse (toString body) = None ->
  onMessage ws (CONTROL_BYTE :: body) o s = (Ok tt, s).
Proof.
  intros Hp. unfold onMessage. rewrite decode_cons.
  change (CONTROL_BYTE =? DATA_BYTE) with false.
  change (CONTROL_BYTE =? CONTROL_BYTE) with true.
  cbv beta iota. unfold try_catch, bind, parse. rewrite Hp. reflexivity.
Qed.

Lemma onMessage_no_type ws body msg o s :
  JSON_parse (toString body) = Some msg ->
  get_prop msg (lit "type") = None ->
  onMessage ws (CONTROL_BYTE :: body) o s = (Ok tt, s).
Proof.
  intros Hp Ht. on_control Hp Ht. reflexivity.
Qed.

Lemma onMessage_start ws raw o s s1 :
  carries raw "start" ->
  spawnSession o s = (Ok tt, s1) ->
  onMessage ws raw o s
  = (Ok tt, delivered ws (control_frame (match currentPty s1 with
                                         | Some _ => "session-active"
                                         | None => "exit"
                                         end)) s1).
Proof.
  intros (msg & Hm & Ht) Hs.
  apply control_message_inv in Hm as (body & -> & Hp).
  on_control Hp Ht.
  rewrite strict_eq_str_lit.
  change (bool_decide (lit "start" = lit "start")) with true.
  cbv beta iota. rewrite Hs. unfold gets. cbv beta iota.
  rewrite sendControl_ctl. reflexivity.
Qed.

Lemma onMessage_close ws raw o s :
  carries raw "close" ->
  onMessage ws raw o s
  = (Ok tt, delivered ws (control_frame "session-inactive")
              (snd (killSession s))).
Proof.
  intros (msg & Hm & Ht).
  apply control_message_inv in Hm as (body & -> & Hp).
  on_control Hp Ht.
  rewrite !strict_eq_str_lit.
  change (bool_decide (lit "close" = lit "start")) with false.
  change (bool_decide (lit "close" = lit "close")) with true.
  cbv beta iota. rewrite killSession_eq. cbv beta iota.
  rewrite sendControl_ctl. reflexivity.
Qed.

(** A [resize] request: [c] and [r] are what [msg.cols] and [msg.rows]
    read as. *)
Lemma onMessage_resize ws body msg c r o s :
  JSON_parse (toString body) = Some msg ->
  get_prop msg (lit "type") = Some (JStr (lit "resize")) ->
  get_prop msg (lit "cols") = Some c ->
  get_prop msg (lit "rows") = Some r ->
  onMessage ws (CONTROL_BYTE :: body) o s
  = (Ok tt,
     if truthy c && truthy r then
       match currentPty s with
       | Some h =>
         if positive_finite c && positive_finite r then
           set_ptys (alter (fun p => mkPty (pid p) c r (writes p) (killed p)
                                       (exited p)) h (ptys s)) s
         else s
       | None => s
       end
     else s).
Proof.
  intros Hp Ht Hc Hr. on_control Hp Ht.
  rewrite !strict_eq_str_lit.
  change (bool_decide (lit "resize" = lit "start")) with false.
  change (bool_decide (lit "resize" = lit "close")) with false.
  change (bool_decide (lit "resize" = lit "resize")) with true.
  cbv beta iota. rewrite !Hc. cbv beta iota.
  destruct (truthy c); cbv beta iota; [| reflexivity].
  rewrite !Hr. cbv beta iota.
  destruct (truthy r); cbv beta iota; [| reflexivity].
  unfold gets. cbv beta iota.
  destruct (currentPty s); [| reflexivity].
  unfold pty_resize.
  destruct (positive_finite c && positive_finite r); reflexivity.
Qed.

Lemma positive_finite_truthy v : positive_finite v = true -> truthy v = true.
Proof.
  destruct v as [| | b | x | s | l | l]; try discriminate.
  destruct x as [sg | sg | | sg m e]; try discriminate.
  intros _. reflexivity.
Qed.

(** A control frame whose [type] is none of the three the server
    knows. *)
Lemma onMessage_unrecognized ws body msg t o s :
  JSON_parse (toString body) = Some msg ->
  get_prop msg (lit "type") = Some t ->
  strict_eq_str t (lit "start") = false ->
  strict_eq_str t (lit "close") = false ->
  strict_eq_str t (lit "resize") = false ->
  onMessage ws (CONTROL_BYTE :: body) o s = (Ok tt, s).
Proof.
  intros Hp Ht H1 H2 H3. on_control Hp Ht.
  rewrite H1, H2, H3. reflexivity.
Qed.

End MessageFacts.

(** ** The server never throws *)

Section ServerSafety.
Import Utf8 Json Eff Server.

Lemma sendControl_safe ws obj : safe (sendControl ws obj).
Proof. intros s. exists tt. rewrite sendControl_eq. reflexivity. Qed.

Lemma sendData_safe ws data : safe (sendData ws data).
Proof. intros s. exists tt. rewrite sendData_eq. reflexivity. Qed.

Lemma spawnSession_safe o : safe (spawnSession o).
Proof.
  intros s. exists tt. destruct (spawnSession_ok o s) as [s1 ->]. reflexivity.
Qed.

Lemma killSession_safe : safe killSession.
Proof. intros s. exists tt. rewrite killSession_eq. reflexivity. Qed.

Lemma onExit_safe : safe onExit.
Proof. intros s. exists tt. rewrite onExit_eq. reflexivity. Qed.

Lemma onData_safe data : safe (onData data).
Proof.
  apply safe_bind; [apply safe_gets |].
  intros [ws |]; [apply sendData_safe | apply safe_ret].
Qed.

Lemma onMessage_safe ws raw o : safe (onMessage ws raw o).
Proof.
  unfold onMessage. destruct (Protocol.decode raw) as [[type body] |];
    [| apply safe_ret].
  destruct (type =? DATA_BYTE).
  { apply safe_bind; [apply safe_gets |].
    intros [h |]; [apply safe_modify | apply safe_ret]. }
  destruct (type =? CONTROL_BYTE); [| apply safe_ret].
  apply safe_try_catch. intros _. apply safe_ret.
Qed.

Lemma onConnection_safe rs : safe (onConnection rs).
Proof.
  unfold onConnection.
  apply safe_bind; [apply safe_gets | intros ws].
  apply safe_bind; [apply safe_modify | intros _].
  apply safe_bind; [apply safe_modify | intros _].
  apply safe_bind; [apply safe_gets | intros cur].
  apply sendControl_safe.
Qed.

Lemma onClose_safe ws : safe (onClose ws).
Proof.
  unfold onClose. apply safe_bind; [apply safe_gets |].
  intros a. destruct (bool_decide _); [apply safe_modify | apply safe_ret].
Qed.

Lemma onWatch_safe f : safe (onWatch f).
Proof.
  unfold onWatch. destruct f as [f |]; [| apply safe_ret].
  destruct (_ || _); [apply safe_ret | apply safe_modify].
Qed.

Lemma onFileChangeTimer_safe f : safe (onFileChangeTimer f).
Proof.
  unfold onFileChangeTimer. apply safe_bind; [apply safe_gets |].
  intros [ws |]; [apply sendControl_safe | apply safe_ret].
Qed.

(** No handler lets an exception escape into the event loop. *)
Lemma step_safe e : safe (step e).
Proof.
  destruct e; cbn [step].
  - apply onConnection_safe.
  - apply safe_bind; [apply safe_gets |].
    intros [|]; [apply onMessage_safe | apply safe_ret].
  - apply safe_modify.
  - apply safe_bind; [apply safe_gets |].
    intros [|]; [| apply safe_ret].
    apply safe_bind; [apply safe_modify | intros _; apply onClose_safe].
  - apply safe_bind; [apply safe_gets |].
    intros [p |]; [| apply safe_ret].
    destruct (exited p); [apply safe_ret | apply onData_safe].
  - apply safe_bind; [apply safe_gets |].
    intros [p |]; [| apply safe_ret].
    destruct (exited p); [apply safe_ret |].
    apply safe_bind; [apply safe_modify | intros _; apply onExit_safe].
  - apply onWatch_safe.
  - apply safe_bind; [apply safe_gets |].
    intros [f |]; [| apply safe_ret].
    apply safe_bind; [apply safe_modify |].
    intros _. apply onFileChangeTimer_safe.
Qed.

Lemma run_safe es : safe (run es).
Proof.
  induction es as [| e es IH]; cbn [run]; [apply safe_ret |].
  apply safe_bind; [apply step_safe | intros _; exact IH].
Qed.

Lemma run_cons e es s :
  run (e :: es) s = run es (snd (step e s)).
Proof.
  cbn [run]. apply (bind_ok (step e) (fun _ => run es) s tt).
  apply safe_unit, step_safe.
Qed.

Lemma exec_cons e es s : exec (e :: es) s = exec es (snd (step e s)).
Proof. unfold exec. rewrite run_cons. reflexivity. Qed.

Lemma exec_nil s : exec [] s = s.
Proof. reflexivity. Qed.

Lemma step_message ws raw o s k :
  socks s !! ws = Some k ->
  step (EvMessage ws raw o) s = onMessage ws raw o s.
Proof.
  intros Hk. cbn [step]. unfold bind, gets. rewrite Hk.
  rewrite bool_decide_eq_true_2 by (eexists; reflexivity). reflexivity.
Qed.

Lemma step_message_unknown ws raw o s :
  socks s !! ws = None -> step (EvMessage ws raw o) s = (Ok tt, s).
Proof.
  intros Hk. cbn [step]. unfold bind, gets. rewrite Hk.
  rewrite bool_decide_eq_false_2; [reflexivity |].
  intros [x Hx]. discriminate.
Qed.

End ServerSafety.

(** C8. The message handler never throws, whatever the message. It
    ignores a message of length zero, and it drops a control frame whose
    payload is not valid JSON or whose type it does not know: nothing is
    sent, no socket changes state, the session is as before. *)
Theorem C8_message_handler_never_throws :
  forall (ws : nat) (raw : list Z) (o : Server.SpawnOutcome) (s : Server.State),
    fst (Server.onMessage ws raw o s) = Eff.Ok tt
    /\ (raw = [] -> Server.onMessage ws raw o s = (Eff.Ok tt, s))
    /\ (forall body,
          raw = Server.CONTROL_BYTE :: body ->
          Json.JSON_parse (Utf8.toString body) = None ->
          Server.onMessage ws raw o s = (Eff.Ok tt, s))
    /\ (forall body msg,
          raw = Server.CONTROL_BYTE :: body ->
          Json.JSON_parse (Utf8.toString body) = Some msg ->
          Server.unrecognized msg ->
          Server.onMessage ws raw o s = (Eff.Ok tt, s)).
Proof.
  intros ws raw o s. split; [apply safe_unit, onMessage_safe |].
  split; [intros ->; apply onMessage_empty |].
  split.
  - intros body -> Hp. apply onMessage_bad_json, Hp.
  - intros body msg -> Hp Hu. unfold Server.unrecognized in Hu.
    destruct (Json.get_prop msg (Utf8.lit "type")) as [t |] eqn:Ht.
    + destruct Hu as (H1 & H2 & H3).
      apply (onMessage_unrecognized ws body msg t o s Hp Ht H1 H2 H3).
    + apply (onMessage_no_type ws body msg o s Hp Ht).
Qed.

(** Scenario E of the specification, and an unknown type, on the state
    the server starts in. *)
Lemma C8_witness :
  Server.onMessage 0
    (Server.CONTROL_BYTE :: Utf8.utf8 (Utf8.lit "not valid json{"))
    Server.SpawnThrows Server.initial = (Eff.Ok tt, Server.initial)
  /\ Server.onMessage 0
       (Server.CONTROL_BYTE
        :: Utf8.utf8 (Json.JSON_stringify (Server.ctl "ping")))
       Server.SpawnThrows Server.initial = (Eff.Ok tt, Server.initial)
  /\ Server.onMessage 0 [] Server.SpawnThrows Server.initial
     = (Eff.Ok tt, Server.initial).
Proof.
  assert (Json.JSON_parse
            (Utf8.toString (Utf8.utf8 (Utf8.lit "not valid json{"))) = None)
    as Hbad by (vm_compute; reflexivity).
  assert (Json.JSON_parse
            (Utf8.toString
               (Utf8.utf8 (Json.JSON_stringify (Server.ctl "ping"))))
          = Some (Json.JObj [(Utf8.lit "type", Json.JStr (Utf8.lit "ping"))]))
    as Hping by (vm_compute; reflexivity).
  assert (Server.unrecognized
            (Json.JObj [(Utf8.lit "type", Json.JStr (Utf8.lit "ping"))]))
    as Hun by (vm_compute; auto).
  destruct (C8_message_handler_never_throws 0
              (Server.CONTROL_BYTE :: Utf8.utf8 (Utf8.lit "not valid json{"))
              Server.SpawnThrows Server.initial) as (_ & _ & Hjson & _).
  destruct (C8_message_handler_never_throws 0
              (Server.CONTROL_BYTE
               :: Utf8.utf8 (Json.JSON_stringify (Server.ctl "ping")))
              Server.SpawnThrows Server.initial) as (_ & _ & _ & Htype).
  destruct (C8_message_handler_never_throws 0 []
              Server.SpawnThrows Server.initial) as (_ & Hempty & _).
  split; [| split].
  - apply (Hjson _ eq_refl Hbad).
  - apply (Htype _ _ eq_refl Hping Hun).
  - apply (Hempty eq_refl).
Defined.

(** ** The router: resize and input *)

Section RouterProperties.
Import Utf8 Json Eff Server.

Lemma get_prop_obj msg k v :
  get_prop msg k = Some v -> v <> JUndefined ->
  exists fields, msg = JObj fields.
Proof.
  destruct msg; cbn; intros H Hv; try discriminate;
    try (injection H as <-; contradiction).
  eexists. reflexivity.
Qed.

Lemma get_prop_total msg k v k' :
  get_prop msg k = Some v -> exists v', get_prop msg k' = Some v'.
Proof.
  destruct msg; cbn; intros H; try discriminate; eexists; reflexivity.
Qed.

Lemma alter_as_insert {A} (f : A -> A) (l : list A) i x :
  l !! i = Some x -> alter f i l = <[i := f x]> l.
Proof.
  intros Hx. apply list_eq. intros j.
  destruct (decide (i = j)) as [<- | Hne].
  - rewrite list_lookup_alter_eq, Hx.
    rewrite list_lookup_insert_eq by (eapply lookup_lt_Some; eassumption).
    reflexivity.
  - rewrite list_lookup_alter_ne, list_lookup_insert_ne by assumption.
    reflexivity.
Qed.

Lemma input_stream_write p data :
  input_stream (mkPty (pid p) (cols p) (rows p) (writes p ++ [data])
                      (killed p) (exited p))
  = input_stream p ++ utf8 data.
Proof.
  unfold input_stream. cbn [writes].
  rewrite flat_map_app. cbn. rewrite app_nil_r. reflexivity.
Qed.

(** C7, as the code has it. While a session runs, a [resize] control
    frame whose [cols] and [rows] are both positive finite numbers sets
    the dimensions of the terminal to exactly these two values and
    changes nothing else. The frame is ignored, the dimensions staying as
    they were, when either field is absent or falsy, and also when
    either is truthy without being a positive finite number: [resize]
    then throws, and the handler's [catch] drops the error. *)
Theorem C7_resize_sets_dimensions :
  forall ws body msg c r o s h p,
    JSON_parse (toString body) = Some msg ->
    get_prop msg (lit "type") = Some (JStr (lit "resize")) ->
    get_prop msg (lit "cols") = Some c ->
    get_prop msg (lit "rows") = Some r ->
    currentPty s = Some h ->
    ptys s !! h = Some p ->
    (positive_finite c = true -> positive_finite r = true ->
     onMessage ws (CONTROL_BYTE :: body) o s
     = (Ok tt, set_ptys (<[h := mkPty (pid p) c r (writes p) (killed p)
                                      (exited p)]> (ptys s)) s))
    /\ (truthy c = false \/ truthy r = false ->
        onMessage ws (CONTROL_BYTE :: body) o s = (Ok tt, s))
    /\ (positive_finite c = false \/ positive_finite r = false ->
        onMessage ws (CONTROL_BYTE :: body) o s = (Ok tt, s)).
Proof.
  intros ws body msg c r o s h p Hp Ht Hc Hr Hcur Hh.
  rewrite (onMessage_resize ws body msg c r o s Hp Ht Hc Hr), Hcur.
  split; [| split].
  - intros Hpc Hpr.
    rewrite (positive_finite_truthy c Hpc), (positive_finite_truthy r Hpr).
    rewrite Hpc, Hpr. cbn [andb].
    rewrite (alter_as_insert _ _ _ _ Hh). reflexivity.
  - intros [-> | ->]; [reflexivity |].
    rewrite andb_false_r. reflexivity.
  - intros Hn.
    assert (positive_finite c && positive_finite r = false) as ->.
    { destruct Hn as [-> | ->]; [reflexivity | apply andb_false_r]. }
    destruct (truthy c && truthy r); reflexivity.
Qed.

(** Scenario C of the specification: 120 x 40 is taken over, a zero
    column count is ignored. *)
Lemma C7_witness :
  (ptys (snd (onMessage 0 (CONTROL_BYTE :: resize_payload 120 40)
                SpawnThrows running_state)) !! 0%nat
   = Some (mkPty 4242 (JNum (binary64_of_Z 120)) (JNum (binary64_of_Z 40))
                 [] false false))
  /\ onMessage 0 (CONTROL_BYTE :: resize_payload 0 40) SpawnThrows
       running_state
     = (Ok tt, running_state).
Proof.
  assert (currentPty running_state = Some 0%nat) as Hcur
    by (vm_compute; reflexivity).
  assert (ptys running_state !! 0%nat = Some (fresh_pty 4242)) as Hp
    by (vm_compute; reflexivity).
  split.
  - assert (JSON_parse (toString (resize_payload 120 40))
            = Some (resize_message 120 40)) as H1
      by (vm_compute; reflexivity).
    assert (get_prop (resize_message 120 40) (lit "type")
            = Some (JStr (lit "resize"))) as H2 by (vm_compute; reflexivity).
    assert (get_prop (resize_message 120 40) (lit "cols")
            = Some (JNum (binary64_of_Z 120))) as H3
      by (vm_compute; reflexivity).
    assert (get_prop (resize_message 120 40) (lit "rows")
            = Some (JNum (binary64_of_Z 40))) as H4
      by (vm_compute; reflexivity).
    assert (positive_finite (JNum (binary64_of_Z 120)) = true) as H5
      by (vm_compute; reflexivity).
    assert (positive_finite (JNum (binary64_of_Z 40)) = true) as H6
      by (vm_compute; reflexivity).
    destruct (C7_resize_sets_dimensions 0 (resize_payload 120 40)
                (resize_message 120 40) (JNum (binary64_of_Z 120))
                (JNum (binary64_of_Z 40)) SpawnThrows running_state 0%nat
                (fresh_pty 4242) H1 H2 H3 H4 Hcur Hp) as [Hset _].
    rewrite (Hset H5 H6). cbn [snd ptys set_ptys].
    apply list_lookup_insert_eq. vm_compute. lia.
  - assert (JSON_parse (toString (resize_payload 0 40))
            = Some (resize_message 0 40)) as H1
      by (vm_compute; reflexivity).
    assert (get_prop (resize_message 0 40) (lit "type")
            = Some (JStr (lit "resize"))) as H2 by (vm_compute; reflexivity).
    assert (get_prop (resize_message 0 40) (lit "cols")
            = Some (JNum (binary64_of_Z 0))) as H3
      by (vm_compute; reflexivity).
    assert (get_prop (resize_message 0 40) (lit "rows")
            = Some (JNum (binary64_of_Z 40))) as H4
      by (vm_compute; reflexivity).
    destruct (C7_resize_sets_dimensions 0 (resize_payload 0 40)
                (resize_message 0 40) (JNum (binary64_of_Z 0))
                (JNum (binary64_of_Z 40)) SpawnThrows running_state 0%nat
                (fresh_pty 4242) H1 H2 H3 H4 Hcur Hp) as (_ & Hign & _).
    apply Hign. left. reflexivity.
Defined.

(** C7 as the specification states it fails for a size that is truthy
    without being positive. In the frame
    [{"type":"resize","cols":-1,"rows":40}] both fields are present and
    truthy, and the terminal of the running session keeps its 80
    columns and 24 rows. *)
Lemma C7_counterexample :
  let raw := CONTROL_BYTE :: resize_payload (-1) 40 in
  let s' := snd (onMessage 0 raw SpawnThrows running_state) in
  control_message raw = Some (resize_message (-1) 40)
  /\ get_prop (resize_message (-1) 40) (lit "cols")
     = Some (JNum (binary64_of_Z (-1)))
  /\ get_prop (resize_message (-1) 40) (lit "rows")
     = Some (JNum (binary64_of_Z 40))
  /\ truthy (JNum (binary64_of_Z (-1))) = true
  /\ truthy (JNum (binary64_of_Z 40)) = true
  /\ currentPty running_state = Some 0%nat
  /\ (cols <$> ptys s' !! 0%nat) = Some (JNum (binary64_of_Z 80))
  /\ (rows <$> ptys s' !! 0%nat) = Some (JNum (binary64_of_Z 24))
  /\ JNum (binary64_of_Z 80) <> JNum (binary64_of_Z (-1)).
Proof.
  cbv zeta. split; [vm_compute; reflexivity |].
  split; [vm_compute; reflexivity |].
  split; [vm_compute; reflexivity |].
  split; [vm_compute; reflexivity |].
  split; [vm_compute; reflexivity |].
  split; [vm_compute; reflexivity |].
  split; [vm_compute; reflexivity |].
  split; [vm_compute; reflexivity |].
  vm_compute. discriminate.
Qed.

(** C6, as the code has it. Without a session a DATA frame and a
    [resize] request change nothing and throw nothing. With a session,
    the payload of a DATA frame is decoded as UTF-8 and the text is
    written to the process: the bytes reach its input as they came
    whenever they are well-formed UTF-8. *)
Theorem C6_write_and_resize :
  forall ws o s,
    (currentPty s = None ->
     (forall body, onMessage ws (DATA_BYTE :: body) o s = (Ok tt, s))
     /\ (forall raw, carries raw "resize" ->
                     onMessage ws raw o s = (Ok tt, s)))
    /\ (forall h p body,
          currentPty s = Some h ->
          ptys s !! h = Some p ->
          let p' := mkPty (pid p) (cols p) (rows p)
                          (writes p ++ [toString body]) (killed p)
                          (exited p) in
          onMessage ws (DATA_BYTE :: body) o s
          = (Ok tt, set_ptys (<[h := p']> (ptys s)) s)
          /\ input_stream p' = input_stream p ++ utf8 (toString body)
          /\ (forall str, Forall scalar str -> body = utf8 str ->
                          input_stream p' = input_stream p ++ body)).
Proof.
  intros ws o s. split.
  - intros Hcur. split.
    + intros body. rewrite onMessage_data, Hcur. reflexivity.
    + intros raw (msg & Hm & Ht).
      apply control_message_inv in Hm as (body & -> & Hp).
      destruct (get_prop_total msg _ _ (lit "cols") Ht) as [c Hc].
      destruct (get_prop_total msg _ _ (lit "rows") Ht) as [r Hr].
      rewrite (onMessage_resize ws body msg c r o s Hp Ht Hc Hr), Hcur.
      destruct (truthy c && truthy r); reflexivity.
  - intros h p body Hcur Hh p'. split; [| split].
    + rewrite onMessage_data, Hcur.
      rewrite (alter_as_insert _ _ _ _ Hh). reflexivity.
    + apply input_stream_write.
    + intros str Hs ->. unfold p'. rewrite input_stream_write.
      rewrite toString_utf8 by assumption. reflexivity.
Qed.

Lemma C6_witness :
  onMessage 0 (DATA_BYTE :: utf8 (lit "ls")) SpawnThrows initial
    = (Ok tt, initial)
  /\ onMessage 0 (CONTROL_BYTE :: resize_payload 120 40) SpawnThrows initial
     = (Ok tt, initial)
  /\ input_stream (mkPty 4242 (JNum (binary64_of_Z 80))
                     (JNum (binary64_of_Z 24)) [toString (utf8 (lit "ls"))]
                     false false)
     = utf8 (lit "ls").
Proof.
  assert (currentPty initial = None) as Hcur by reflexivity.
  assert (currentPty running_state = Some 0%nat) as Hrun
    by (vm_compute; reflexivity).
  assert (ptys running_state !! 0%nat = Some (fresh_pty 4242)) as Hp
    by (vm_compute; reflexivity).
  assert (carries (CONTROL_BYTE :: resize_payload 120 40) "resize") as Hc.
  { exists (resize_message 120 40). split; vm_compute; reflexivity. }
  destruct (C6_write_and_resize 0 SpawnThrows initial) as [Habsent _].
  destruct (Habsent Hcur) as [Hdata Hresize].
  destruct (C6_write_and_resize 0 SpawnThrows running_state) as [_ Hrunning].
  destruct (Hrunning 0%nat (fresh_pty 4242) (utf8 (lit "ls")) Hrun Hp)
    as (_ & _ & Hverbatim).
  split; [apply Hdata | split; [apply (Hresize _ Hc) |]].
  apply (Hverbatim (lit "ls") (lit_scalar "ls") eq_refl).
Defined.

(** C6 as the specification states it fails on a payload that is not
    UTF-8: the byte 0xFF reaches the process as the three bytes of
    U+FFFD. *)
Lemma C6_counterexample :
  currentPty running_state = Some 0%nat
  /\ (input_stream <$>
        ptys (snd (onMessage 0 [DATA_BYTE; 0xFF] SpawnThrows running_state))
          !! 0%nat)
     = Some [0xEF; 0xBF; 0xBD]
  /\ [0xEF; 0xBF; 0xBD] <> [0xFF].
Proof.
  split; [| split].
  - vm_compute. reflexivity.
  - vm_compute. reflexivity.
  - discriminate.
Qed.

End RouterProperties.

Section SessionProperties.
Import Utf8 Json Eff Server.

(** C10, as the code has it. A [start] request with no session and a
    spawn that fails creates no session and sends two [exit] control
    frames: the handler of the spawn failure sends one to the active
    connection, the router sends one to the requester as its reply. The
    active connection receives both exactly when it is the requester;
    when another open connection asked, each of the two receives one. *)
Theorem C10_spawn_failure_exit_frames :
  forall ws raw s,
    carries raw "start" ->
    currentPty s = None ->
    open_in s ws = true ->
    let s' := snd (onMessage ws raw SpawnThrows s) in
    fst (onMessage ws raw SpawnThrows s) = Ok tt
    /\ currentPty s' = None
    /\ ptys s' = ptys s
    /\ (activeWs s = Some ws ->
        sent s' ws
        = sent s ws ++ [control_frame "exit"; control_frame "exit"]
        /\ (forall w, w <> ws -> sent s' w = sent s w))
    /\ (forall a, activeWs s = Some a -> a <> ws -> open_in s a = true ->
                  sent s' a = sent s a ++ [control_frame "exit"]
                  /\ sent s' ws = sent s ws ++ [control_frame "exit"]
                  /\ (forall w, w <> a -> w <> ws -> sent s' w = sent s w)).
Proof.
  intros ws raw s Hraw Hcur Hopen s'.
  pose proof (spawnSession_throws s Hcur) as Hs.
  pose proof (onMessage_start ws raw SpawnThrows s _ Hraw Hs) as Hm.
  assert (currentPty (match activeWs s with
                      | Some a => delivered a (control_frame "exit") s
                      | None => s
                      end) = None) as Hnone.
  { destruct (activeWs s); [rewrite delivered_currentPty |]; exact Hcur. }
  rewrite Hnone in Hm. subst s'. rewrite Hm. cbn [fst snd].
  split; [reflexivity |]. split; [| split; [| split]].
  - rewrite delivered_currentPty. exact Hnone.
  - rewrite delivered_ptys.
    destruct (activeWs s); [apply delivered_ptys | reflexivity].
  - intros ->. split.
    + rewrite sent_delivered_same by (rewrite open_in_delivered; exact Hopen).
      rewrite sent_delivered_same by exact Hopen.
      rewrite <- app_assoc. reflexivity.
    + intros w Hw. rewrite !sent_delivered_other by exact Hw. reflexivity.
  - intros a -> Hne Hoa. split; [| split].
    + rewrite sent_delivered_other by exact Hne.
      apply sent_delivered_same, Hoa.
    + rewrite sent_delivered_same by (rewrite open_in_delivered; exact Hopen).
      rewrite sent_delivered_other by congruence. reflexivity.
    + intros w Hwa Hww. rewrite !sent_delivered_other by assumption.
      reflexivity.
Qed.

Lemma C10_witness :
  let s := exec [EvConnection OPEN] initial in
  let s' := snd (onMessage 0 (control_frame "start") SpawnThrows s) in
  sent s' 0 = [control_frame "session-inactive";
               control_frame "exit"; control_frame "exit"]
  /\ currentPty s' = None.
Proof.
  intros s s'.
  assert (carries (control_frame "start") "start") as Hc.
  { exists (JObj [(lit "type", JStr (lit "start"))]).
    split; vm_compute; reflexivity. }
  assert (currentPty s = None) as Hcur by (vm_compute; reflexivity).
  assert (activeWs s = Some 0%nat) as Hact by (vm_compute; reflexivity).
  assert (open_in s 0 = true) as Hopen by (vm_compute; reflexivity).
  destruct (C10_spawn_failure_exit_frames 0 (control_frame "start") s
              Hc Hcur Hopen) as (_ & Hnone & _ & Hsame & _).
  destruct (Hsame Hact) as [Hsent _].
  split; [exact Hsent | exact Hnone].
Defined.

(** C10 as it is stated fails when the request comes from a connection
    that a newer one has replaced (a second tab is open): the active
    connection receives one [exit] frame, not two. *)
Lemma C10_counterexample :
  let s := exec two_connections initial in
  let s' := snd (onMessage 0 (control_frame "start") SpawnThrows s) in
  activeWs s = Some 1%nat
  /\ currentPty s = None
  /\ sent s 1 = [control_frame "session-inactive"]
  /\ sent s' 1 = [control_frame "session-inactive"; control_frame "exit"]
  /\ sent s' 0 = [control_frame "session-inactive"; control_frame "exit"].
Proof. vm_compute. repeat split. Qed.

Lemma step_start_running e s h :
  is_start e -> currentPty s = Some h ->
  exists s', step e s = (Ok tt, s')
             /\ currentPty s' = Some h /\ ptys s' = ptys s.
Proof.
  destruct e as [| ws raw o | | | | | |]; cbn [is_start]; try contradiction.
  intros Hraw Hcur.
  destruct (socks s !! ws) as [k |] eqn:Hk.
  - rewrite (step_message ws raw o s k Hk).
    rewrite (onMessage_start ws raw o s s Hraw
               (spawnSession_running o s h Hcur)).
    eexists. split; [reflexivity |].
    rewrite delivered_currentPty, delivered_ptys. auto.
  - rewrite (step_message_unknown ws raw o s Hk). eauto.
Qed.

(** X26. While [currentPty] is set, [start()] does nothing: it returns
    without spawning, restarting or throwing, and leaves the whole state
    as it was. However many [start] requests arrive, each is answered
    with [session-active], the session stays the one handle the manager
    holds, and no process is added or changed (so its process id and its
    dimensions stay). *)
Theorem X26_start_while_running_is_noop :
  forall s h,
    currentPty s = Some h ->
    (forall o, spawnSession o s = (Ok tt, s))
    /\ (forall ws raw o,
          carries raw "start" ->
          onMessage ws raw o s
          = (Ok tt, delivered ws (control_frame "session-active") s))
    /\ (forall es,
          Forall is_start es ->
          fst (run es s) = Ok tt
          /\ currentPty (exec es s) = Some h
          /\ ptys (exec es s) = ptys s).
Proof.
  intros s h Hcur. split; [| split].
  - intros o. apply (spawnSession_running o s h Hcur).
  - intros ws raw o Hraw.
    rewrite (onMessage_start ws raw o s s Hraw
               (spawnSession_running o s h Hcur)), Hcur.
    reflexivity.
  - intros es Hes. split; [apply safe_unit, run_safe |].
    revert s Hcur. induction Hes as [| e es He _ IH]; intros s Hcur.
    + split; [exact Hcur | reflexivity].
    + destruct (step_start_running e s h He Hcur) as (s' & Hs & Hc' & Hp').
      rewrite exec_cons, Hs. cbn [snd].
      destruct (IH s' Hc') as [H1 H2].
      split; [exact H1 | congruence].
Qed.

Lemma X26_witness :
  let es := [EvMessage 0 (control_frame "start") (Spawned 7);
             EvMessage 0 (control_frame "start") SpawnThrows] in
  currentPty (exec es running_state) = Some 0%nat
  /\ ptys (exec es running_state) = ptys running_state.
Proof.
  intros es.
  assert (carries (control_frame "start") "start") as Hc.
  { exists (JObj [(lit "type", JStr (lit "start"))]).
    split; vm_compute; reflexivity. }
  assert (currentPty running_state = Some 0%nat) as Hrun
    by (vm_compute; reflexivity).
  assert (Forall is_start es) as Hes.
  { apply List.Forall_cons; [exact Hc |].
    apply List.Forall_cons; [exact Hc |]. apply List.Forall_nil. }
  destruct (X26_start_while_running_is_noop running_state 0%nat Hrun)
    as (_ & _ & Hall).
  destruct (Hall es Hes) as (_ & H1 & H2).
  split; [exact H1 | exact H2].
Defined.

(** C3 fails on the code: more than one session can exist. One client
    starts a session, stops it and starts another; when the exit of the
    first, killed process is reported, its exit callback clears
    [currentPty], which by then holds the second process. That process
    runs on, and the next [start] is no no-op: it spawns a third
    process beside it. Two processes are then live, and the manager
    holds only the later one. *)
Theorem C3_second_session_beside_a_live_one :
  let before := exec (take 5 start_after_late_exit) initial in
  let s := exec start_after_late_exit initial in
  fst (run start_after_late_exit initial) = Ok tt
  /\ map pid (List.filter live (ptys before)) = [2]
  /\ currentPty before = None
  /\ map pid (List.filter live (ptys s)) = [2; 3]
  /\ (pid <$> ptys s !! 0%nat) = Some 1
  /\ currentPty s = Some 2%nat
  /\ sent s 0 = [control_frame "session-inactive";
                 control_frame "session-active";
                 control_frame "session-inactive";
                 control_frame "session-active";
                 control_frame "exit";
                 control_frame "session-active"].
Proof. vm_compute. repeat split. Qed.

Lemma step_pty_exit h p s :
  ptys s !! h = Some p -> exited p = false ->
  step (EvPtyExit h) s
  = onExit (set_ptys (alter (fun p => mkPty (pid p) (cols p) (rows p)
                                        (writes p) (killed p) true)
                            h (ptys s)) s).
Proof.
  intros Hp He. cbn [step]. unfold bind at 1, gets at 1.
  rewrite Hp, He. reflexivity.
Qed.

(** C1, as the code has it. A [close] request while a session runs is
    answered with [session-inactive], and with nothing else; the
    session is forgotten at once and the process is sent the kill. The
    exit callback stays registered and is not suppressed: when the exit
    of that process is reported, an [exit] control frame goes to the
    connection that is active then, if it is open; that is the client
    that asked for the close when it is still the active connection. *)
Theorem C1_close_reply_and_later_exit :
  forall ws raw o s h p,
    carries raw "close" ->
    currentPty s = Some h ->
    ptys s !! h = Some p ->
    exited p = false ->
    open_in s ws = true ->
    let s1 := snd (onMessage ws raw o s) in
    let s2 := snd (step (EvPtyExit h) s1) in
    fst (onMessage ws raw o s) = Ok tt
    /\ currentPty s1 = None
    /\ ptys s1 !! h = Some (mkPty (pid p) (cols p) (rows p) (writes p) true
                                  false)
    /\ sent s1 ws = sent s ws ++ [control_frame "session-inactive"]
    /\ (forall w, w <> ws -> sent s1 w = sent s w)
    /\ (forall a, activeWs s = Some a -> open_in s a = true ->
                  sent s2 a = sent s1 a ++ [control_frame "exit"]).
Proof.
  intros ws raw o s h p Hraw Hcur Hp He Hopen s1 s2.
  pose proof (onMessage_close ws raw o s Hraw) as Hm.
  rewrite killSession_eq, Hcur in Hm. cbn [snd] in Hm.
  assert (ptys s1 !! h = Some (mkPty (pid p) (cols p) (rows p) (writes p)
                                     true false)) as Hp1.
  { subst s1. rewrite Hm. cbn [snd]. rewrite delivered_ptys.
    cbn [ptys set_currentPty set_ptys].
    rewrite list_lookup_alter_eq, Hp. cbn. rewrite He. reflexivity. }
  split; [rewrite Hm; reflexivity |].
  split; [subst s1; rewrite Hm; cbn [snd];
          rewrite delivered_currentPty; reflexivity |].
  split; [exact Hp1 |].
  split; [subst s1; rewrite Hm; cbn [snd];
          rewrite sent_delivered_same by exact Hopen; reflexivity |].
  split; [intros w Hw; subst s1; rewrite Hm; cbn [snd];
          rewrite sent_delivered_other by exact Hw; reflexivity |].
  intros a Ha Hoa. subst s2.
  rewrite (step_pty_exit h _ s1 Hp1 eq_refl), onExit_eq.
  cbn [activeWs set_ptys].
  assert (activeWs s1 = Some a) as Ha1.
  { subst s1. rewrite Hm. cbn [snd]. rewrite delivered_activeWs. exact Ha. }
  rewrite Ha1. cbn [snd].
  assert (open_in s1 a = true) as Ho1.
  { subst s1. rewrite Hm. cbn [snd]. rewrite open_in_delivered. exact Hoa. }
  rewrite sent_delivered_same; [reflexivity | exact Ho1].
Qed.

Lemma C1_witness :
  sent (snd (step (EvPtyExit 0)
               (snd (onMessage 0 (control_frame "close") SpawnThrows
                       running_state)))) 0
  = sent (snd (onMessage 0 (control_frame "close") SpawnThrows
                 running_state)) 0 ++ [control_frame "exit"].
Proof.
  assert (carries (control_frame "close") "close") as Hc.
  { exists (JObj [(lit "type", JStr (lit "close"))]).
    split; vm_compute; reflexivity. }
  assert (currentPty running_state = Some 0%nat) as Hrun
    by (vm_compute; reflexivity).
  assert (ptys running_state !! 0%nat = Some (fresh_pty 4242)) as Hp
    by (vm_compute; reflexivity).
  assert (open_in running_state 0 = true) as Hopen
    by (vm_compute; reflexivity).
  assert (activeWs running_state = Some 0%nat) as Hact
    by (vm_compute; reflexivity).
  destruct (C1_close_reply_and_later_exit 0 (control_frame "close")
              SpawnThrows running_state 0%nat (fresh_pty 4242)
              Hc Hrun Hp eq_refl Hopen) as (_ & _ & _ & _ & _ & Hexit).
  apply (Hexit 0%nat Hact Hopen).
Defined.

(** C1 as the specification states it fails: the client that asked for
    the close is sent an [exit] control frame after the
    [session-inactive] reply. *)
Lemma C1_counterexample :
  sent (exec close_then_exit initial) 0
  = [control_frame "session-inactive"; control_frame "session-active";
     control_frame "session-inactive"; control_frame "exit"].
Proof. vm_compute. reflexivity. Qed.

End SessionProperties.

(** ** What was sent stays sent *)

Section Monotone.
Import Utf8 Json Eff Server.

#[local] Instance extends_preorder : PreOrder extends.
Proof.
  split.
  - intros s w. reflexivity.
  - intros s1 s2 s3 H12 H23 w. etransitivity; [apply H12 | apply H23].
Qed.

Lemma extends_same_socks s s' : socks s' = socks s -> extends s s'.
Proof. intros H w. unfold sent. rewrite H. reflexivity. Qed.

Lemma extends_delivered ws p s : extends s (delivered ws p s).
Proof.
  intros w. rewrite sent_delivered.
  destruct (_ && _); [apply prefix_app_r |]; reflexivity.
Qed.

Lemma sent_set_readyState ws rs s w :
  sent (snd (set_readyState ws rs s)) w = sent s w.
Proof.
  unfold set_readyState, modify, sent. cbn [snd socks set_socks].
  destruct (decide (ws = w)) as [-> | Hne].
  - rewrite list_lookup_alter_eq. destruct (socks s !! w); reflexivity.
  - rewrite list_lookup_alter_ne by assumption. reflexivity.
Qed.

Lemma sent_new_socket k s w :
  w <> length (socks s) ->
  sent (set_socks (socks s ++ [k]) s) w = sent s w.
Proof.
  intros Hw. unfold sent. cbn [socks set_socks].
  destruct (decide (w < length (socks s))%nat) as [Hlt | Hge].
  - rewrite lookup_app_l by assumption. reflexivity.
  - rewrite !lookup_ge_None_2; [reflexivity | lia |].
    rewrite length_app. cbn. lia.
Qed.

Lemma sent_beyond s w : (length (socks s) <= w)%nat -> sent s w = [].
Proof.
  intros Hw. unfold sent. rewrite lookup_ge_None_2 by assumption.
  reflexivity.
Qed.

Lemma extends_new_socket k s : extends s (set_socks (socks s ++ [k]) s).
Proof.
  intros w. destruct (decide (w = length (socks s))) as [-> | Hne].
  - rewrite (sent_beyond s) by lia. apply prefix_nil.
  - rewrite sent_new_socket by assumption. reflexivity.
Qed.

Lemma sendControl_keeps ws obj : keeps extends (sendControl ws obj).
Proof. intros s. rewrite sendControl_eq. apply extends_delivered. Qed.

Lemma sendData_keeps ws data : keeps extends (sendData ws data).
Proof. intros s. rewrite sendData_eq. apply extends_delivered. Qed.

(** One rule of the calculus, chosen by the shape of the statement. *)
Ltac keeps_step :=
  lazymatch goal with
  | |- keeps _ (bind _ _) => apply keeps_bind; [apply _ | | intros ?]
  | |- keeps _ (try_catch _ _) =>
    apply keeps_try_catch; [apply _ | | intros ?]
  | |- keeps _ (ret _) => apply keeps_ret; apply _
  | |- keeps _ (throw _) => apply keeps_throw; apply _
  | |- keeps _ (gets _) => apply keeps_gets; apply _
  | |- keeps _ (parse _) => apply keeps_parse; apply _
  | |- keeps _ (prop _ _) => apply keeps_prop; apply _
  | |- keeps _ (sendControl _ _) => apply sendControl_keeps
  | |- keeps _ (sendData _ _) => apply sendData_keeps
  | |- keeps _ (modify _) =>
    apply keeps_modify; intros ?; apply extends_same_socks; reflexivity
  | |- keeps _ (match ?x with _ => _ end) => destruct x
  end.

Lemma pty_spawn_keeps o : keeps extends (pty_spawn o).
Proof.
  destruct o; cbn [pty_spawn]; [keeps_step |].
  intros s. apply extends_same_socks. reflexivity.
Qed.

Lemma spawnSession_keeps o : keeps extends (spawnSession o).
Proof.
  unfold spawnSession.
  repeat lazymatch goal with
         | |- keeps _ (pty_spawn _) => apply pty_spawn_keeps
         | _ => keeps_step
         end.
Qed.

Lemma killSession_keeps : keeps extends killSession.
Proof. unfold killSession, pty_kill. repeat keeps_step. Qed.

Lemma onExit_keeps : keeps extends onExit.
Proof. unfold onExit. repeat keeps_step. Qed.

Lemma onData_keeps data : keeps extends (onData data).
Proof. unfold onData. repeat keeps_step. Qed.

Ltac keeps_call :=
  lazymatch goal with
  | |- keeps _ (spawnSession _) => apply spawnSession_keeps
  | |- keeps _ killSession => apply killSession_keeps
  | |- keeps _ (onData _) => apply onData_keeps
  | |- keeps _ onExit => apply onExit_keeps
  | _ => keeps_step
  end.

Lemma onMessage_keeps ws raw o : keeps extends (onMessage ws raw o).
Proof.
  unfold onMessage, pty_write, pty_resize. repeat keeps_call.
Qed.

Lemma onConnection_keeps rs : keeps extends (onConnection rs).
Proof.
  unfold onConnection.
  keeps_step; [keeps_step |].
  keeps_step; [apply keeps_modify; intros s; apply extends_new_socket |].
  repeat keeps_step.
Qed.

Lemma onClose_keeps ws : keeps extends (onClose ws).
Proof. unfold onClose. repeat keeps_step. Qed.

Lemma set_readyState_keeps ws rs : keeps extends (set_readyState ws rs).
Proof. intros s w. rewrite sent_set_readyState. reflexivity. Qed.

Lemma step_keeps e : keeps extends (step e).
Proof.
  destruct e; cbn [step].
  - apply onConnection_keeps.
  - keeps_step; [keeps_step |].
    keeps_step; [apply onMessage_keeps | keeps_step].
  - apply set_readyState_keeps.
  - keeps_step; [keeps_step |]. keeps_step; [| keeps_step].
    keeps_step; [apply set_readyState_keeps | apply onClose_keeps].
  - repeat keeps_call.
  - unfold mark_exited. repeat keeps_call.
  - unfold onWatch. repeat keeps_step.
  - unfold onFileChangeTimer. repeat keeps_step.
Qed.

Lemma run_keeps es : keeps extends (run es).
Proof.
  induction es as [| e es IH]; cbn [run]; [keeps_step |].
  keeps_step; [apply step_keeps | exact IH].
Qed.

End Monotone.

Section ConnectionProperties.
Import Utf8 Json Eff Server.

Lemma onConnection_eq rs s :
  onConnection rs s
  = (Ok tt, delivered (length (socks s)) (state_report s)
              (set_activeWs (Some (length (socks s)))
                 (set_socks (socks s ++ [mkSocket rs []]) s))).
Proof.
  unfold onConnection, bind, gets, modify. cbn [currentPty set_activeWs
    set_socks]. rewrite sendControl_ctl. reflexivity.
Qed.

Lemma onConnection_sent_new s :
  sent (snd (onConnection OPEN s)) (length (socks s)) = [state_report s].
Proof.
  rewrite onConnection_eq. cbn [snd].
  rewrite sent_delivered_same.
  - unfold sent. cbn [socks set_activeWs set_socks].
    rewrite lookup_app_r by lia. rewrite Nat.sub_diag. reflexivity.
  - unfold open_in. cbn [socks set_activeWs set_socks].
    rewrite lookup_app_r by lia. rewrite Nat.sub_diag. reflexivity.
Qed.

Lemma onConnection_sent_old rs s w :
  w <> length (socks s) -> sent (snd (onConnection rs s)) w = sent s w.
Proof.
  intros Hw. rewrite onConnection_eq. cbn [snd].
  rewrite sent_delivered_other by assumption.
  apply (sent_new_socket (mkSocket rs []) s w Hw).
Qed.

Lemma onConnection_currentPty rs s :
  currentPty (snd (onConnection rs s)) = currentPty s.
Proof.
  rewrite onConnection_eq. cbn [snd]. rewrite delivered_currentPty.
  reflexivity.
Qed.

(** C4. A connection that the server accepts (its socket is OPEN) is
    sent exactly one frame by the connection handler, the state report:
    [session-active] if and only if a session exists, [session-inactive]
    otherwise. No other socket is sent anything then, and whatever
    happens later, the state report stays the first frame that was sent
    to this connection. *)
Theorem C4_state_report_first :
  forall (s : State) (es : list Event),
    let ws := length (socks s) in
    sent s ws = []
    /\ sent (snd (onConnection OPEN s)) ws = [state_report s]
    /\ (forall w, w <> ws -> sent (snd (onConnection OPEN s)) w = sent s w)
    /\ (exists rest,
          sent (exec (EvConnection OPEN :: es) s) ws
          = state_report s :: rest)
    /\ (state_report s = control_frame "session-active"
        <-> is_Some (currentPty s))
    /\ (state_report s = control_frame "session-inactive"
        <-> currentPty s = None).
Proof.
  intros s es ws. split; [apply sent_beyond; reflexivity |].
  split; [apply onConnection_sent_new |].
  split; [intros w Hw; apply onConnection_sent_old, Hw |].
  split.
  - rewrite exec_cons. cbn [step].
    pose proof (run_keeps es (snd (onConnection OPEN s)) ws) as [rest Hr].
    fold (exec es (snd (onConnection OPEN s))) in Hr.
    rewrite onConnection_sent_new in Hr.
    exists rest. exact Hr.
  - unfold state_report. destruct (currentPty s) as [h |]; split; split.
    + intros _. eexists. reflexivity.
    + intros _. reflexivity.
    + intros H. vm_compute in H. discriminate.
    + intros H. discriminate.
    + intros H. vm_compute in H. discriminate.
    + intros [x Hx]. discriminate.
    + intros _. reflexivity.
    + intros _. reflexivity.
Qed.

Lemma C4_witness :
  sent (snd (onConnection OPEN running_state)) 1
    = [control_frame "session-active"]
  /\ sent (snd (onConnection OPEN running_state)) 0 = sent running_state 0
  /\ sent (snd (onConnection OPEN initial)) 0
     = [control_frame "session-inactive"].
Proof.
  destruct (C4_state_report_first running_state [])
    as (_ & Hnew & Hold & _).
  destruct (C4_state_report_first initial []) as (_ & Hnew0 & _).
  split; [| split].
  - exact Hnew.
  - apply Hold. vm_compute. lia.
  - exact Hnew0.
Defined.

Lemma onClose_eq ws s :
  onClose ws s
  = (Ok tt, if bool_decide (activeWs s = Some ws)
            then set_activeWs None s else s).
Proof.
  unfold onClose, bind, gets.
  destruct (bool_decide (activeWs s = Some ws)); reflexivity.
Qed.

Lemma step_close_sent ws s w : sent (snd (step (EvClose ws) s)) w = sent s w.
Proof.
  cbn [step]. unfold bind at 1, gets at 1.
  destruct (bool_decide (is_Some (socks s !! ws))); [| reflexivity].
  unfold bind, set_readyState, modify. rewrite onClose_eq. cbn [snd].
  transitivity (sent (snd (set_readyState ws CLOSED s)) w).
  - unfold set_readyState, modify. cbn [snd activeWs set_socks].
    destruct (bool_decide (activeWs s = Some ws)); reflexivity.
  - apply sent_set_readyState.
Qed.

Lemma step_close_currentPty ws s :
  currentPty (snd (step (EvClose ws) s)) = currentPty s.
Proof.
  cbn [step]. unfold bind at 1, gets at 1.
  destruct (bool_decide (is_Some (socks s !! ws))); [| reflexivity].
  unfold bind, set_readyState, modify. rewrite onClose_eq. cbn [snd].
  cbn [activeWs set_socks].
  destruct (bool_decide (activeWs s = Some ws)); reflexivity.
Qed.

Lemma step_close_length ws s :
  length (socks (snd (step (EvClose ws) s))) = length (socks s).
Proof.
  cbn [step]. unfold bind at 1, gets at 1.
  destruct (bool_decide (is_Some (socks s !! ws))); [| reflexivity].
  unfold bind, set_readyState, modify. rewrite onClose_eq. cbn [snd].
  cbn [activeWs set_socks].
  destruct (bool_decide (activeWs s = Some ws)); cbn;
    apply length_alter.
Qed.

(** C5. When a connection closes, the pointer to the active connection
    is cleared if and only if it pointed to that connection; the
    session, the processes and what was sent to any socket are as
    before. So a connection accepted next, with the session still
    there, gets [session-active] as its state report, and closing the
    first sent [session-inactive] to nobody. *)
Theorem C5_close_keeps_session :
  forall (s : State) (ws : nat),
    (onClose ws s
     = (Ok tt, if bool_decide (activeWs s = Some ws)
               then set_activeWs None s else s))
    /\ (let s1 := snd (onClose ws s) in
        (activeWs s1 = None <-> activeWs s = Some ws \/ activeWs s = None)
        /\ currentPty s1 = currentPty s
        /\ ptys s1 = ptys s
        /\ socks s1 = socks s)
    /\ (forall w, sent (snd (step (EvClose ws) s)) w = sent s w)
    /\ (forall h,
          currentPty s = Some h ->
          let s2 := exec [EvClose ws; EvConnection OPEN] s in
          sent s2 (length (socks s)) = [control_frame "session-active"]
          /\ (forall w, w <> length (socks s) -> sent s2 w = sent s w)).
Proof.
  intros s ws. split; [apply onClose_eq |]. split; [| split].
  - rewrite onClose_eq. cbn [snd].
    case_bool_decide as Ha.
    + cbn. repeat split; auto.
    + repeat split; try reflexivity.
      * intros Hn. right. exact Hn.
      * intros [Hs | Hn]; [contradiction | exact Hn].
  - apply step_close_sent.
  - intros h Hcur s2. subst s2.
    rewrite exec_cons. set (s1 := snd (step (EvClose ws) s)).
    rewrite exec_cons, exec_nil. cbn [step].
    assert (length (socks s1) = length (socks s)) as Hlen
      by apply step_close_length.
    assert (currentPty s1 = Some h) as Hcur1
      by (unfold s1; rewrite step_close_currentPty; exact Hcur).
    split.
    + rewrite <- Hlen, onConnection_sent_new.
      unfold state_report. rewrite Hcur1. reflexivity.
    + intros w Hw. rewrite onConnection_sent_old by congruence.
      apply step_close_sent.
Qed.

(** Scenario D of the specification: a client connects and starts a
    session, its connection closes, a second one is accepted. *)
Lemma C5_witness :
  let s2 := exec [EvClose 0; EvConnection OPEN] running_state in
  sent s2 1 = [control_frame "session-active"]
  /\ sent s2 0 = sent running_state 0.
Proof.
  intros s2.
  assert (currentPty running_state = Some 0%nat) as Hrun
    by (vm_compute; reflexivity).
  destruct (C5_close_keeps_session running_state 0) as (_ & _ & _ & Hd).
  destruct (Hd 0%nat Hrun) as [Hnew Hold].
  split.
  - exact Hnew.
  - apply Hold. vm_compute. lia.
Defined.

End ConnectionProperties.

(** ** The browser side *)

Section ClientFacts.
Import Utf8 Json Eff Client.

Lemma client_control_message_inv raw msg :
  control_message raw = Some msg ->
  exists body, raw = CONTROL_BYTE :: body
               /\ JSON_parse (TextDecoder_decode body) = Some msg.
Proof.
  unfold control_message. destruct raw as [| b body]; [discriminate |].
  rewrite decode_cons. destruct (Z.eqb_spec b CONTROL_BYTE) as [-> | _].
  - intros H. exists body. split; [reflexivity | exact H].
  - discriminate.
Qed.

Lemma client_onMessage_inactive raw t s :
  t = "session-inactive"%string \/ t = "exit"%string ->
  carries raw t ->
  onMessage raw s = (Ok tt, marked_inactive s).
Proof.
  intros Ht (msg & Hm & Hty).
  apply client_control_message_inv in Hm as (body & -> & Hp).
  unfold onMessage. rewrite decode_cons.
  change (CONTROL_BYTE =? DATA_BYTE) with false.
  change (CONTROL_BYTE =? CONTROL_BYTE) with true.
  cbv beta iota. unfold try_catch, bind, parse, prop.
  rewrite Hp. unfold ret at 1. cbv beta iota.
  rewrite !Hty. unfold ret. cbv beta iota.
  rewrite !strict_eq_str_lit.
  destruct Ht as [-> | ->].
  - change (bool_decide (lit "session-inactive" = lit "session-active"))
      with false.
    change (bool_decide (lit "session-inactive" = lit "session-inactive"))
      with true.
    reflexivity.
  - change (bool_decide (lit "exit" = lit "session-active")) with false.
    change (bool_decide (lit "exit" = lit "session-inactive")) with false.
    change (bool_decide (lit "exit" = lit "exit")) with true.
    reflexivity.
Qed.

Lemma client_sendControl_open ws obj s :
  open_in s ws = true ->
  sendControl ws obj s
  = set_sockets
      (alter (fun k => mkSocket (readyState k)
                         (sentMessages k
                          ++ [CONTROL_BYTE :: utf8 (JSON_stringify obj)])
                         (creator k))
             ws) s.
Proof.
  intros Ho. unfold sendControl, bind, ws_is_open, gets.
  unfold open_in in Ho. rewrite Ho. cbv beta iota. cbn [negb].
  rewrite client_frame_eq. reflexivity.
Qed.

Lemma handleStop_open ws s :
  wsRef s = Some ws -> open_in s ws = true ->
  handleStop s = (Ok tt, stopped ws s).
Proof.
  intros Hw Ho. unfold handleStop, bind at 1, gets at 1.
  rewrite Hw. cbv beta iota.
  unfold bind at 1, ws_is_open, gets at 1.
  pose proof Ho as Ho'. unfold open_in in Ho'. rewrite Ho'.
  cbv beta iota. cbn [negb].
  unfold bind at 1. rewrite (client_sendControl_open ws _ s Ho).
  unfold stopped. destruct s as [sa co cr tr fa wr ror tm di aw ti so te ob dp].
  cbn in Hw. subst wr.
  destruct tr as [t |], ror as [ro |]; reflexivity.
Qed.

Lemma handleStop_closed s :
  has_open_socket s = false -> handleStop s = (Ok tt, s).
Proof.
  unfold has_open_socket, handleStop, bind, gets.
  destruct (wsRef s) as [ws |]; [| reflexivity].
  unfold ws_is_open, gets, open_in. intros ->. reflexivity.
Qed.

#[local] Instance nothing_disposed_preorder : PreOrder nothing_disposed.
Proof.
  split.
  - intros s. split; intros i x Hx Hd; exists x; auto.
  - intros s1 s2 s3 [Ht12 Ho12] [Ht23 Ho23]. split.
    + intros t x3 Hx3 Hd3.
      destruct (Ht23 t x3 Hx3 Hd3) as (x2 & Hx2 & Hd2).
      apply (Ht12 t x2 Hx2 Hd2).
    + intros o y3 Hy3 Hd3.
      destruct (Ho23 o y3 Hy3 Hd3) as (y2 & Hy2 & Hd2).
      apply (Ho12 o y2 Hy2 Hd2).
Qed.

Lemma nothing_disposed_same s s' :
  terminals s' = terminals s -> observers s' = observers s ->
  nothing_disposed s s'.
Proof.
  intros Ht Ho. unfold nothing_disposed. rewrite Ht, Ho.
  split; intros i x Hx Hd; exists x; auto.
Qed.

Lemma keeps_set_sockets f : keeps nothing_disposed (set_sockets f).
Proof. intros s. apply nothing_disposed_same; reflexivity. Qed.

(** Changing a terminal without touching its [disposed] flag. *)
Lemma keeps_alter_terminal (g : Terminal -> Terminal) t :
  (forall x, term_disposed (g x) = term_disposed x) ->
  keeps nothing_disposed (set_terminals (alter g t)).
Proof.
  intros Hg s. unfold set_terminals, modify. cbn [snd]. split.
  - cbn [terminals]. intros i x' Hx' Hd.
    destruct (decide (t = i)) as [-> | Hne].
    + rewrite list_lookup_alter_eq in Hx'.
      destruct (terminals s !! i) as [x |]; [| discriminate].
      injection Hx' as <-. rewrite Hg in Hd. exists x. auto.
    + rewrite list_lookup_alter_ne in Hx' by assumption. exists x'. auto.
  - cbn [observers]. intros o y Hy Hd. exists y. auto.
Qed.

Lemma keeps_new_terminal c r :
  keeps nothing_disposed
    (set_terminals (fun l => l ++ [mkTerminal false [] c r])).
Proof.
  intros s. unfold set_terminals, modify. cbn [snd]. split.
  - cbn [terminals]. intros i x' Hx' Hd.
    apply lookup_app_Some in Hx' as [Hx' | [_ Hx']].
    + exists x'. auto.
    + destruct (i - length (terminals s))%nat; [| discriminate].
      injection Hx' as <-. discriminate.
  - cbn [observers]. intros o y Hy Hd. exists y. auto.
Qed.

Lemma keeps_new_observer t :
  keeps nothing_disposed (set_observers (fun l => l ++ [mkObserver false t])).
Proof.
  intros s. unfold set_observers, modify. cbn [snd]. split.
  - cbn [terminals]. intros i x Hx Hd. exists x. auto.
  - cbn [observers]. intros o y' Hy' Hd.
    apply lookup_app_Some in Hy' as [Hy' | [_ Hy']].
    + exists y'. auto.
    + destruct (o - length (observers s))%nat; [| discriminate].
      injection Hy' as <-. discriminate.
Qed.

Lemma keeps_client_frame kind bytes :
  keeps nothing_disposed (frame kind bytes).
Proof. intros s. rewrite client_frame_eq. reflexivity. Qed.

(** One rule of the calculus, chosen by the shape of the statement. *)
Ltac ckeeps :=
  lazymatch goal with
  | |- keeps _ (bind _ _) => apply keeps_bind; [apply _ | | intros ?]
  | |- keeps _ (try_catch _ _) =>
    apply keeps_try_catch; [apply _ | | intros ?]
  | |- keeps _ (ret _) => apply keeps_ret; apply _
  | |- keeps _ (throw _) => apply keeps_throw; apply _
  | |- keeps _ (gets _) => apply keeps_gets; apply _
  | |- keeps _ (parse _) => apply keeps_parse; apply _
  | |- keeps _ (prop _ _) => apply keeps_prop; apply _
  | |- keeps _ (frame _ _) => apply keeps_client_frame
  | |- keeps _ (set_sockets _) => apply keeps_set_sockets
  | |- keeps _ (set_terminals (alter _ _)) =>
    apply keeps_alter_terminal; intros ?; reflexivity
  | |- keeps _ (set_terminals _) => apply keeps_new_terminal
  | |- keeps _ (set_observers _) => apply keeps_new_observer
  | |- keeps _ (modify _) =>
    apply keeps_modify; intros ?; apply nothing_disposed_same; reflexivity
  | |- keeps _ (match ?x with _ => _ end) => destruct x
  end.

Ltac unfold_setters :=
  unfold clearTimeout, setSessionActive, setConnected, set_containerRef,
    set_termRef, set_fitAddonRef, set_wsRef, set_resizeObserverRef,
    set_termModulesRef, set_effects, set_awaiting, set_timers,
    dispatchEvent, ws_send, ws_close, set_readyState, term_write.

Lemma createTerminal_keeps : keeps nothing_disposed createTerminal.
Proof. unfold createTerminal. unfold_setters. repeat ckeeps. Qed.

Lemma sendControl_client_keeps ws obj :
  keeps nothing_disposed (sendControl ws obj).
Proof.
  unfold sendControl, ws_is_open. unfold_setters. repeat ckeeps.
Qed.

Lemma client_onMessage_keeps raw : keeps nothing_disposed (onMessage raw).
Proof.
  unfold onMessage, ensureTerminal. unfold_setters.
  repeat lazymatch goal with
         | |- keeps _ createTerminal => apply createTerminal_keeps
         | _ => ckeeps
         end.
Qed.

Ltac ckeeps_call :=
  lazymatch goal with
  | |- keeps _ createTerminal => apply createTerminal_keeps
  | |- keeps _ (sendControl _ _) => apply sendControl_client_keeps
  | |- keeps _ (onMessage _) => apply client_onMessage_keeps
  | _ => ckeeps
  end.

Lemma client_handlers_keep e :
  e <> EvClickStop -> keeps nothing_disposed (step e).
Proof.
  intros Hne. destruct e; cbn [step]; try contradiction;
    unfold connectionEffect, connect, cleanup, onOpen, onClose,
      get_disposed, get_reconnectTimer, onModulesLoaded, onTermData,
      onResizeObserved, handleStart, ws_is_open;
    unfold_setters; repeat ckeeps_call.
Qed.

(** Apart from a click on stop while the component holds an open
    socket, no turn of the event loop disposes a terminal or
    disconnects an observer. *)
Lemma client_step_keeps e s :
  ~ (e = EvClickStop /\ has_open_socket s = true) ->
  nothing_disposed s (snd (step e s)).
Proof.
  intros Hno.
  assert (e = EvClickStop \/ e <> EvClickStop) as [-> | Hne]
    by (destruct e; auto; right; discriminate).
  - cbn [step]. rewrite handleStop_closed; [reflexivity |].
    destruct (has_open_socket s); [| reflexivity].
    exfalso. apply Hno. split; reflexivity.
  - apply client_handlers_keep, Hne.
Qed.

End ClientFacts.

Section ClientProperties.
Import Utf8 Json Eff Client.

(** C9, as the code has it. A [session-inactive] or [exit] control
    frame only marks the session inactive: the terminal, its observer
    and the refs to them stay. No turn of the page's event loop
    disposes a terminal or disconnects an observer, except a click on
    stop while the component holds an open socket; that click sends a
    [close] frame, disconnects the observer, disposes the terminal and
    clears the refs. A click on stop without an open socket does
    nothing. *)
Theorem C9_disposal_only_on_stop :
  forall s : State,
    (forall raw t,
       t = "session-inactive"%string \/ t = "exit"%string ->
       carries raw t ->
       onMessage raw s = (Ok tt, marked_inactive s))
    /\ (forall e,
          ~ (e = EvClickStop /\ has_open_socket s = true) ->
          nothing_disposed s (snd (step e s)))
    /\ (forall ws,
          wsRef s = Some ws -> open_in s ws = true ->
          step EvClickStop s = (Ok tt, stopped ws s))
    /\ (has_open_socket s = false -> step EvClickStop s = (Ok tt, s)).
Proof.
  intros s. split; [| split; [| split]].
  - intros raw t Ht Hc. apply (client_onMessage_inactive raw t s Ht Hc).
  - intros e He. apply client_step_keeps, He.
  - intros ws Hw Ho. apply handleStop_open; assumption.
  - intros Hc. apply handleStop_closed, Hc.
Qed.

Lemma C9_witness :
  onMessage (control_frame "exit") connected_with_terminal
    = (Ok tt, marked_inactive connected_with_terminal)
  /\ step EvClickStop connected_with_terminal
     = (Ok tt, stopped 0 connected_with_terminal)
  /\ step EvClickStop disconnected_with_terminal
     = (Ok tt, disconnected_with_terminal)
  /\ nothing_disposed connected_with_terminal
       (snd (step (EvClose 0) connected_with_terminal)).
Proof.
  assert (carries (control_frame "exit") "exit") as Hc.
  { exists (JObj [(lit "type", JStr (lit "exit"))]).
    split; vm_compute; reflexivity. }
  assert (wsRef connected_with_terminal = Some 0%nat) as Hw
    by (vm_compute; reflexivity).
  assert (open_in connected_with_terminal 0 = true) as Ho
    by (vm_compute; reflexivity).
  assert (has_open_socket disconnected_with_terminal = false) as Hd
    by (vm_compute; reflexivity).
  destruct (C9_disposal_only_on_stop connected_with_terminal)
    as (Hmsg & Hstep & Hstop & _).
  destruct (C9_disposal_only_on_stop disconnected_with_terminal)
    as (_ & _ & _ & Hnone).
  split; [| split; [| split]].
  - apply (Hmsg _ "exit"%string); [right; reflexivity | exact Hc].
  - apply (Hstop 0%nat Hw Ho).
  - apply (Hnone Hd).
  - apply Hstep. intros [He _]. discriminate.
Defined.

(** C9 as the specification states it fails: with the session shown as
    active and the terminal alive, a click on stop after the connection
    was lost sends no [close] frame and disposes nothing. *)
Lemma C9_counterexample :
  sessionActive disconnected_with_terminal = true
  /\ step EvClickStop disconnected_with_terminal
     = (Ok tt, disconnected_with_terminal)
  /\ termRef (snd (step EvClickStop disconnected_with_terminal))
     = Some 0%nat
  /\ disposed_terminals (snd (step EvClickStop disconnected_with_terminal))
     = [false]
  /\ disconnected_observers
       (snd (step EvClickStop disconnected_with_terminal)) = [false]
  /\ map sentMessages
         (sockets (snd (step EvClickStop disconnected_with_terminal)))
     = [[]].
Proof. vm_compute. repeat split. Qed.

End ClientProperties.

(** ** The session of a reachable state is alive *)

Section SessionAlive.
Import Utf8 Json Eff Server.

Lemma session_alive_same s s' :
  currentPty s' = currentPty s -> ptys s' = ptys s ->
  session_alive s -> session_alive s'.
Proof.
  intros Hc Hp H h Hh. rewrite Hc in Hh. rewrite Hp. apply (H h Hh).
Qed.

Lemma session_alive_none s : currentPty s = None -> session_alive s.
Proof. intros Hc h Hh. congruence. Qed.

Lemma session_alive_delivered ws p s :
  session_alive s -> session_alive (delivered ws p s).
Proof.
  apply session_alive_same;
    [apply delivered_currentPty | apply delivered_ptys].
Qed.

(** Changing a handle without touching its [killed] and [exited]
    flags. *)
Lemma session_alive_alter (g : Pty -> Pty) i s :
  (forall p, killed (g p) = killed p /\ exited (g p) = exited p) ->
  session_alive s -> session_alive (set_ptys (alter g i (ptys s)) s).
Proof.
  intros Hg H h Hh. cbn [currentPty set_ptys] in Hh.
  destruct (H h Hh) as (p & Hp & Hk & He). cbn [ptys set_ptys].
  destruct (decide (i = h)) as [-> | Hne].
  - exists (g p). rewrite list_lookup_alter_eq, Hp.
    destruct (Hg p) as [-> ->]. auto.
  - exists p. rewrite list_lookup_alter_ne by assumption. auto.
Qed.

Lemma session_alive_spawnSession o s :
  session_alive s -> session_alive (snd (spawnSession o s)).
Proof.
  intros H. destruct (currentPty s) as [h |] eqn:Hc.
  - rewrite (spawnSession_running o s h Hc). exact H.
  - destruct o.
    + rewrite (spawnSession_throws s Hc). cbn [snd].
      destruct (activeWs s); [apply session_alive_delivered |]; exact H.
    + rewrite (spawnSession_spawned p s Hc). cbn [snd].
      intros h Hh. cbn in Hh. injection Hh as <-.
      exists (fresh_pty p). cbn [ptys set_currentPty set_ptys].
      rewrite lookup_app_r by lia. rewrite Nat.sub_diag. auto.
Qed.

Lemma strict_eq_str_true t str : strict_eq_str t str = true -> t = JStr str.
Proof.
  destruct t; try discriminate. unfold strict_eq_str.
  intros H. apply bool_decide_eq_true in H. f_equal. exact H.
Qed.

Lemma session_alive_onMessage ws raw o s :
  session_alive s -> session_alive (snd (onMessage ws raw o s)).
Proof.
  intros H. destruct raw as [| b body]; [exact H |].
  destruct (Z.eqb_spec b DATA_BYTE) as [-> | Hd].
  { rewrite onMessage_data. cbn [snd].
    destruct (currentPty s); [| exact H].
    apply session_alive_alter; [intros p; split; reflexivity | exact H]. }
  destruct (Z.eqb_spec b CONTROL_BYTE) as [-> | Hc].
  2:{ rewrite (onMessage_other_kind ws b body o s Hd Hc). exact H. }
  destruct (JSON_parse (toString body)) as [msg |] eqn:Hp.
  2:{ rewrite (onMessage_bad_json ws body o s Hp). exact H. }
  destruct (get_prop msg (lit "type")) as [t |] eqn:Ht.
  2:{ rewrite (onMessage_no_type ws body msg o s Hp Ht). exact H. }
  destruct (strict_eq_str t (lit "start")) eqn:H1.
  { apply strict_eq_str_true in H1 as ->.
    destruct (spawnSession_ok o s) as [s1 Hs].
    rewrite (onMessage_start ws _ o s s1); [| | exact Hs].
    - cbn [snd]. apply session_alive_delivered.
      replace s1 with (snd (spawnSession o s)) by (rewrite Hs; reflexivity).
      apply session_alive_spawnSession, H.
    - exists msg. rewrite control_message_cons. auto. }
  destruct (strict_eq_str t (lit "close")) eqn:H2.
  { apply strict_eq_str_true in H2 as ->.
    rewrite (onMessage_close ws _ o s).
    - cbn [snd]. apply session_alive_delivered, session_alive_none.
      rewrite killSession_eq. cbn [snd]. destruct (currentPty s) eqn:Hc;
        [reflexivity | exact Hc].
    - exists msg. rewrite control_message_cons. auto. }
  destruct (strict_eq_str t (lit "resize")) eqn:H3.
  { apply strict_eq_str_true in H3 as ->.
    destruct (get_prop_total msg _ _ (lit "cols") Ht) as [c Hc].
    destruct (get_prop_total msg _ _ (lit "rows") Ht) as [r Hr].
    rewrite (onMessage_resize ws body msg c r o s Hp Ht Hc Hr). cbn [snd].
    destruct (truthy c && truthy r); [| exact H].
    destruct (currentPty s); [| exact H].
    destruct (positive_finite c && positive_finite r); [| exact H].
    apply session_alive_alter; [intros p; split; reflexivity | exact H]. }
  rewrite (onMessage_unrecognized ws body msg t o s Hp Ht H1 H2 H3). exact H.
Qed.

Lemma session_alive_step e s :
  session_alive s -> session_alive (snd (step e s)).
Proof.
  intros H. destruct e as [rs | ws raw o | ws | ws | h data | h | f |].
  - cbn [step]. rewrite onConnection_eq. cbn [snd].
    apply session_alive_delivered. revert H.
    apply session_alive_same; reflexivity.
  - destruct (socks s !! ws) as [k |] eqn:Hk.
    + rewrite (step_message ws raw o s k Hk).
      apply session_alive_onMessage, H.
    + rewrite (step_message_unknown ws raw o s Hk). exact H.
  - cbn [step]. revert H. apply session_alive_same; reflexivity.
  - cbn [step]. unfold bind at 1, gets at 1.
    destruct (bool_decide (is_Some (socks s !! ws))); [| exact H].
    unfold bind, set_readyState, modify. rewrite onClose_eq. cbn [snd].
    cbn [activeWs set_socks].
    destruct (bool_decide (activeWs s = Some ws)); revert H;
      apply session_alive_same; reflexivity.
  - cbn [step]. unfold bind at 1, gets at 1.
    destruct (ptys s !! h) as [p |]; [| exact H].
    destruct (exited p); [exact H |].
    unfold onData, bind, gets. destruct (activeWs s) as [a |]; [| exact H].
    rewrite sendData_eq. cbn [snd]. apply session_alive_delivered, H.
  - cbn [step]. unfold bind at 1, gets at 1.
    destruct (ptys s !! h) as [p |]; [| exact H].
    destruct (exited p); [exact H |].
    unfold bind, mark_exited, modify. rewrite onExit_eq. cbn [snd].
    cbn [activeWs set_ptys].
    destruct (activeWs s) as [a |].
    + apply session_alive_delivered, session_alive_none. reflexivity.
    + apply session_alive_none. reflexivity.
  - cbn [step]. unfold onWatch.
    destruct f as [f |]; [| exact H].
    destruct (_ || _); [exact H |].
    revert H. apply session_alive_same; reflexivity.
  - cbn [step]. unfold bind at 1, gets at 1.
    destruct (fileChangeTimer s) as [f |]; [| exact H].
    unfold bind at 1, modify at 1. cbv beta iota.
    assert (session_alive (set_fileChangeTimer None s)) as H'
      by (revert H; apply session_alive_same; reflexivity).
    revert H'. generalize (set_fileChangeTimer None s). intros s' H'.
    unfold onFileChangeTimer, bind, gets.
    destruct (activeWs s') as [a |]; [| exact H'].
    rewrite sendControl_eq. cbn [snd]. apply session_alive_delivered, H'.
Qed.

(** In every state the server reaches from its start, the session (if
    any) is a process that was neither killed nor reported as exited. *)
Lemma session_alive_reachable es : session_alive (exec es initial).
Proof.
  assert (forall s, session_alive s -> session_alive (exec es s)) as Hall.
  { induction es as [| e es IH]; intros s H; [exact H |].
    rewrite exec_cons. apply IH, session_alive_step, H. }
  apply Hall, session_alive_none. reflexivity.
Qed.

End SessionAlive.

(** ** The parser has fuel enough *)

Section ParserFuel.
Import Utf8 Json.

Lemma skip_ws_length s : (length (skip_ws s) <= length s)%nat.
Proof.
  induction s as [| c r IH]; cbn [skip_ws]; [lia |].
  destruct (is_ws c); cbn [length]; lia.
Qed.

Lemma tl_length (s : jsstring) : (length (tl s) <= length s)%nat.
Proof. destruct s; cbn; lia. Qed.

Lemma head_is_length c (s : jsstring) :
  head_is c s = true -> (length (tl s) < length s)%nat.
Proof. destruct s; cbn; [discriminate | lia]. Qed.

Lemma parse_chars_length n : forall s acc str r,
  (length s <= n)%nat ->
  parse_chars s acc = Some (str, r) -> (length r < length s)%nat.
Proof.
  induction n as [| n IH]; intros s acc str r Hn H.
  - destruct s; [discriminate | cbn in Hn; lia].
  - destruct s as [| c s1]; [discriminate |]. cbn [parse_chars] in H.
    cbn [length] in *.
    destruct (c =? 34).
    { injection H as _ <-. lia. }
    destruct (c =? 92).
    2:{ destruct (c <? 32); [discriminate |].
        apply IH in H; [lia | lia]. }
    destruct s1 as [| e s2]; [discriminate |]. cbn [length] in *.
    repeat match type of H with
           | (if ?b then parse_chars s2 _ else _) = _ =>
             destruct b; [apply IH in H; [lia | lia] |]
           end.
    destruct (e =? 117); [| discriminate].
    destruct s2 as [| h1 [| h2 [| h3 [| h4 s3]]]]; try discriminate.
    destruct (hex4 h1 h2 h3 h4); [| discriminate].
    cbn [length] in *. apply IH in H; [lia | lia].
Qed.

Lemma parse_string_length s k r :
  parse_string s = Some (k, r) -> (length r < length s)%nat.
Proof.
  unfold parse_string.
  destruct (parse_chars s []) as [[str r'] |] eqn:Hc; [| discriminate].
  intros H. injection H as _ <-.
  apply (parse_chars_length (length s) s [] str r' (Nat.le_refl _) Hc).
Qed.

Lemma parse_digits_length s : forall m n m' n' r,
  parse_digits s m n = (m', n', r) -> (length r <= length s)%nat.
Proof.
  induction s as [| c s IH]; intros m n m' n' r H; cbn [parse_digits] in H.
  - injection H as _ _ <-. lia.
  - destruct (is_digit c).
    + apply IH in H. cbn [length]. lia.
    + injection H as _ _ <-. lia.
Qed.

Lemma parse_fraction_length s m m' n r :
  parse_fraction s m = Some (m', n, r) -> (length r <= length s)%nat.
Proof.
  unfold parse_fraction. destruct (head_is 46 s).
  - destruct (parse_digits (tl s) m 0) as [[m1 n1] r1] eqn:Hd.
    destruct (n1 =? 0); [discriminate |].
    intros H. injection H as _ _ <-.
    apply parse_digits_length in Hd. pose proof (tl_length s). lia.
  - intros H. injection H as _ _ <-. lia.
Qed.

Lemma parse_exponent_length s x r :
  parse_exponent s = Some (x, r) -> (length r <= length s)%nat.
Proof.
  unfold parse_exponent. destruct s as [| c s1].
  - intros H. injection H as _ <-. lia.
  - destruct ((c =? 101) || (c =? 69)).
    + set (r1 := if head_is 43 s1 || head_is 45 s1 then tl s1 else s1).
      assert (length r1 <= length s1)%nat as Hr1.
      { unfold r1. destruct (_ || _); [apply tl_length | lia]. }
      destruct (parse_digits r1 0 0) as [[x1 n1] r2] eqn:Hd.
      destruct (n1 =? 0); [discriminate |].
      intros H. injection H as _ <-.
      apply parse_digits_length in Hd. cbn [length]. lia.
    + intros H. injection H as _ <-. lia.
Qed.

Lemma parse_number_length s x r :
  parse_number s = Some (x, r) -> (length r < length s)%nat.
Proof.
  unfold parse_number.
  set (s1 := if head_is 45 s then tl s else s).
  assert (length s1 <= length s)%nat as Hs1.
  { unfold s1. destruct (head_is 45 s); [apply tl_length | lia]. }
  set (int_part := match s1 with
                   | c :: r0 =>
                     if c =? 48 then Some (0, r0)
                     else if is_digit c
                          then let '(m, _, r') := parse_digits s1 0 0 in
                               Some (m, r')
                          else None
                   | [] => None
                   end).
  assert (forall m s2, int_part = Some (m, s2) ->
                       (length s2 < length s1)%nat) as Hint.
  { unfold int_part. destruct s1 as [| c r0]; [discriminate |].
    intros m s2. destruct (c =? 48).
    - intros H. injection H as _ <-. cbn [length]. lia.
    - destruct (is_digit c) eqn:Hd; [| discriminate].
      cbn [parse_digits]. rewrite Hd.
      destruct (parse_digits r0 _ _) as [[m1 n1] r1] eqn:Hp.
      intros H. injection H as _ <-.
      apply parse_digits_length in Hp. cbn [length]. lia. }
  destruct int_part as [[m s2] |]; [| discriminate].
  specialize (Hint m s2 eq_refl).
  destruct (parse_fraction s2 m) as [[[m' n] s3] |] eqn:Hf; [| discriminate].
  destruct (parse_exponent s3) as [[e s4] |] eqn:He; [| discriminate].
  intros H. injection H as _ <-.
  apply parse_fraction_length in Hf. apply parse_exponent_length in He. lia.
Qed.

Lemma expect_length w s r : expect w s = Some r -> (length r <= length s)%nat.
Proof.
  unfold expect. destruct (bool_decide _); [| discriminate].
  intros H. injection H as <-. rewrite length_drop. lia.
Qed.

(** A value that parses leaves less text than there was. *)
Lemma parse_consumes f :
  (forall s v r, parse_value f s = Some (v, r) ->
                 (length r < length s)%nat)
  /\ (forall s acc v r, parse_members f s acc = Some (v, r) ->
                        (length r < length s)%nat)
  /\ (forall s acc v r, parse_elements f s acc = Some (v, r) ->
                        (length r < length s)%nat).
Proof.
  induction f as [| f (IHv & IHm & IHe)];
    [repeat split; intros; discriminate |].
  split; [| split].
  - intros s v r. cbn [parse_value].
    pose proof (skip_ws_length s) as Hs.
    destruct (skip_ws s) as [| c s1]; [discriminate |]. cbn [length] in Hs.
    pose proof (skip_ws_length s1) as Hs1.
    destruct (c =? 123).
    { cbv zeta. destruct (head_is 125 (skip_ws s1)) eqn:Hh.
      - intros H. injection H as _ <-. pose proof (tl_length (skip_ws s1)). lia.
      - intros H. apply IHm in H. lia. }
    destruct (c =? 91).
    { cbv zeta. destruct (head_is 93 (skip_ws s1)) eqn:Hh.
      - intros H. injection H as _ <-. pose proof (tl_length (skip_ws s1)). lia.
      - intros H. apply IHe in H. lia. }
    destruct (c =? 34).
    { destruct (parse_string s1) as [[str r'] |] eqn:Hp; [| discriminate].
      intros H. injection H as _ <-. apply parse_string_length in Hp. lia. }
    destruct (c =? 116).
    { destruct (expect (lit "rue") s1) as [r' |] eqn:Hp; [| discriminate].
      intros H. injection H as _ <-. apply expect_length in Hp. lia. }
    destruct (c =? 102).
    { destruct (expect (lit "alse") s1) as [r' |] eqn:Hp; [| discriminate].
      intros H. injection H as _ <-. apply expect_length in Hp. lia. }
    destruct (c =? 110).
    { destruct (expect (lit "ull") s1) as [r' |] eqn:Hp; [| discriminate].
      intros H. injection H as _ <-. apply expect_length in Hp. lia. }
    destruct (parse_number (c :: s1)) as [[x r'] |] eqn:Hp; [| discriminate].
    intros H. injection H as _ <-. apply parse_number_length in Hp.
    cbn [length] in Hp. lia.
  - intros s acc v r. cbn [parse_members].
    pose proof (skip_ws_length s) as Hs.
    destruct (skip_ws s) as [| q s1]; [discriminate |]. cbn [length] in Hs.
    destruct (negb (q =? 34)); [discriminate |].
    destruct (parse_string s1) as [[k r1] |] eqn:Hp; [| discriminate].
    apply parse_string_length in Hp. cbv zeta.
    pose proof (skip_ws_length r1) as Hr1.
    pose proof (tl_length (skip_ws r1)) as Ht1.
    destruct (negb (head_is 58 (skip_ws r1))); [discriminate |].
    destruct (parse_value f (tl (skip_ws r1))) as [[v1 r3] |] eqn:Hv;
      [| discriminate].
    apply IHv in Hv.
    pose proof (skip_ws_length r3) as Hr3.
    pose proof (tl_length (skip_ws r3)) as Ht3.
    destruct (head_is 44 (skip_ws r3)).
    { intros H. apply IHm in H. lia. }
    destruct (head_is 125 (skip_ws r3)); [| discriminate].
    intros H. injection H as _ <-. lia.
  - intros s acc v r. cbn [parse_elements].
    destruct (parse_value f s) as [[v1 r1] |] eqn:Hv; [| discriminate].
    apply IHv in Hv. cbv zeta.
    pose proof (skip_ws_length r1) as Hr1.
    pose proof (tl_length (skip_ws r1)) as Ht1.
    destruct (head_is 44 (skip_ws r1)).
    { intros H. apply IHe in H. lia. }
    destruct (head_is 93 (skip_ws r1)); [| discriminate].
    intros H. injection H as _ <-. lia.
Qed.

(** With fuel beyond twice the length of the text, the result does not
    depend on the fuel. *)
Lemma parse_stable n :
  forall s, (length s <= n)%nat ->
    (forall f1 f2, (2 * n + 1 <= f1)%nat -> (2 * n + 1 <= f2)%nat ->
                   parse_value f1 s = parse_value f2 s)
    /\ (forall f1 f2 acc, (2 * n + 1 <= f1)%nat -> (2 * n + 1 <= f2)%nat ->
                          parse_members f1 s acc = parse_members f2 s acc)
    /\ (forall f1 f2 acc, (2 * n + 2 <= f1)%nat -> (2 * n + 2 <= f2)%nat ->
                          parse_elements f1 s acc = parse_elements f2 s acc).
Proof.
  induction n as [| n IH]; intros s Hn.
  - destruct s; [| cbn in Hn; lia].
    split; [| split].
    + intros [| f1] [| f2] H1 H2; try lia. reflexivity.
    + intros [| f1] [| f2] acc H1 H2; try lia. reflexivity.
    + intros [| [| f1]] [| [| f2]] acc H1 H2; try lia. reflexivity.
  - assert (forall f1 f2, (2 * S n + 1 <= f1)%nat -> (2 * S n + 1 <= f2)%nat ->
                          parse_value f1 s = parse_value f2 s) as Hvalue.
    { intros [| f1] [| f2] H1 H2; try lia. cbn [parse_value].
      pose proof (skip_ws_length s) as Hs.
      destruct (skip_ws s) as [| c s1]; [reflexivity |]. cbn [length] in Hs.
      pose proof (skip_ws_length s1) as Hs1.
      destruct (IH (skip_ws s1) ltac:(lia)) as (_ & Hm & He).
      rewrite (Hm f1 f2 []) by lia. rewrite (He f1 f2 []) by lia.
      reflexivity. }
    split; [exact Hvalue | split].
    + intros [| f1] [| f2] acc H1 H2; try lia. cbn [parse_members].
      pose proof (skip_ws_length s) as Hs.
      destruct (skip_ws s) as [| q s1]; [reflexivity |]. cbn [length] in Hs.
      destruct (negb (q =? 34)); [reflexivity |].
      destruct (parse_string s1) as [[k r1] |] eqn:Hp; [| reflexivity].
      apply parse_string_length in Hp. cbv zeta.
      pose proof (skip_ws_length r1) as Hr1.
      pose proof (tl_length (skip_ws r1)) as Ht1.
      destruct (negb (head_is 58 (skip_ws r1))); [reflexivity |].
      destruct (IH (tl (skip_ws r1)) ltac:(lia)) as (Hv & _ & _).
      rewrite (Hv f1 f2) by lia.
      destruct (parse_value f2 (tl (skip_ws r1))) as [[v1 r3] |] eqn:Hpv;
        [| reflexivity].
      apply (proj1 (parse_consumes f2)) in Hpv.
      pose proof (skip_ws_length r3) as Hr3.
      pose proof (tl_length (skip_ws r3)) as Ht3.
      destruct (IH (tl (skip_ws r3)) ltac:(lia)) as (_ & Hm & _).
      rewrite (Hm f1 f2) by lia. reflexivity.
    + intros [| f1] [| f2] acc H1 H2; try lia. cbn [parse_elements].
      rewrite (Hvalue f1 f2) by lia.
      destruct (parse_value f2 s) as [[v1 r1] |] eqn:Hpv; [| reflexivity].
      apply (proj1 (parse_consumes f2)) in Hpv. cbv zeta.
      pose proof (skip_ws_length r1) as Hr1.
      pose proof (tl_length (skip_ws r1)) as Ht1.
      destruct (IH (tl (skip_ws r1)) ltac:(lia)) as (_ & _ & He).
      rewrite (He f1 f2) by lia. reflexivity.
Qed.

(** The fuel of [JSON_parse] is never the reason for a failure: with
    any greater fuel the result is the same. *)
Lemma parse_value_fuel text f :
  (2 + 2 * length text <= f)%nat ->
  parse_value f text = parse_value (2 + 2 * length text) text.
Proof.
  intros Hf.
  destruct (parse_stable (length text) text (Nat.le_refl _)) as (Hv & _ & _).
  apply Hv; lia.
Qed.

End ParserFuel.

(** ** The session manager: starting, restarting and exiting *)

Section SessionLifeCycle.
Import Utf8 Json Eff Server.

Lemma lookup_fresh {A} (l : list A) (x : A) : (l ++ [x]) !! length l = Some x.
Proof. rewrite lookup_app_r by lia. rewrite Nat.sub_diag. reflexivity. Qed.

Lemma open_in_Some s ws :
  open_in s ws = true -> exists k, socks s !! ws = Some k.
Proof.
  unfold open_in. destruct (socks s !! ws) as [k |]; [eauto | discriminate].
Qed.

Lemma onMessage_start_spawned ws raw pid s :
  carries raw "start" -> currentPty s = None ->
  onMessage ws raw (Spawned pid) s
  = (Ok tt, delivered ws (control_frame "session-active")
              (set_currentPty (Some (length (ptys s)))
                 (set_ptys (ptys s ++ [fresh_pty pid]) s))).
Proof.
  intros Hraw Hcur.
  rewrite (onMessage_start ws raw (Spawned pid) s _ Hraw
             (spawnSession_spawned pid s Hcur)).
  reflexivity.
Qed.

(** X1. A [start] request with no session, when the spawn succeeds,
    creates the session: the new process gets a handle that no earlier
    process had, 80 columns by 24 rows and nothing written to it; the
    handles that were there are untouched; the requester is answered
    with [session-active], and no other socket is sent anything. *)
Theorem X1_start_spawns_session :
  forall ws raw pid s,
    carries raw "start" ->
    currentPty s = None ->
    let h := length (ptys s) in
    let s' := snd (onMessage ws raw (Spawned pid) s) in
    fst (onMessage ws raw (Spawned pid) s) = Ok tt
    /\ ptys s !! h = None
    /\ currentPty s' = Some h
    /\ ptys s' = ptys s ++ [fresh_pty pid]
    /\ ptys s' !! h
       = Some (mkPty pid (JNum (binary64_of_Z 80)) (JNum (binary64_of_Z 24))
                     [] false false)
    /\ activeWs s' = activeWs s
    /\ (open_in s ws = true ->
        sent s' ws = sent s ws ++ [control_frame "session-active"])
    /\ (forall w, w <> ws -> sent s' w = sent s w).
Proof.
  intros ws raw pid s Hraw Hcur h s'. subst s'.
  rewrite (onMessage_start_spawned ws raw pid s Hraw Hcur). cbn [fst snd].
  split; [reflexivity |].
  split; [apply lookup_ge_None_2; reflexivity |].
  rewrite delivered_currentPty, delivered_ptys, delivered_activeWs.
  cbn [currentPty ptys activeWs set_currentPty set_ptys].
  split; [reflexivity |]. split; [reflexivity |].
  split; [apply lookup_fresh |]. split; [reflexivity |].
  split.
  - intros Ho. rewrite sent_delivered_same; [reflexivity | exact Ho].
  - intros w Hw. rewrite sent_delivered_other by exact Hw. reflexivity.
Qed.

Lemma X1_witness :
  let s := exec [EvConnection OPEN] initial in
  let s' := snd (onMessage 0 (control_frame "start") (Spawned 4242) s) in
  currentPty s' = Some 0%nat
  /\ ptys s' = [fresh_pty 4242]
  /\ sent s' 0
     = sent s 0 ++ [control_frame "session-active"].
Proof.
  intros s s'.
  assert (carries (control_frame "start") "start") as Hc.
  { exists (JObj [(lit "type", JStr (lit "start"))]).
    split; vm_compute; reflexivity. }
  assert (currentPty s = None) as Hn by reflexivity.
  assert (open_in s 0 = true) as Ho by reflexivity.
  destruct (X1_start_spawns_session 0 (control_frame "start") 4242 s Hc Hn)
    as (_ & _ & H1 & H2 & _ & _ & H3 & _).
  split; [exact H1 | split; [exact H2 | exact (H3 Ho)]].
Defined.

(** X2. Stopping a session and starting again never brings the old
    process back: after a [close] request and a [start] request whose
    spawn succeeds, the session is a handle different from the one that
    was closed, with a process of its own at 80 x 24; the old handle was
    sent the kill and is no longer the session; the requester got
    [session-inactive] and then [session-active], and no other socket
    was sent anything. *)
Theorem X2_stop_then_start_is_a_new_session :
  forall ws rawc raws o pd s h p,
    carries rawc "close" ->
    carries raws "start" ->
    currentPty s = Some h ->
    ptys s !! h = Some p ->
    open_in s ws = true ->
    let s' := exec [EvMessage ws rawc o; EvMessage ws raws (Spawned pd)] s in
    let h' := length (ptys s) in
    h' <> h
    /\ currentPty s' = Some h'
    /\ ptys s' !! h' = Some (fresh_pty pd)
    /\ ptys s' !! h = Some (kill_sent p)
    /\ sent s' ws
       = sent s ws ++ [control_frame "session-inactive";
                       control_frame "session-active"]
    /\ (forall w, w <> ws -> sent s' w = sent s w).
Proof.
  intros ws rawc raws o pd s h p Hc Hs Hcur Hp Ho s' h'. subst s' h'.
  destruct (open_in_Some s ws Ho) as [k Hk].
  assert (h < length (ptys s))%nat as Hlt
    by (apply lookup_lt_is_Some; eexists; exact Hp).
  rewrite exec_cons, (step_message ws rawc o s k Hk).
  rewrite (onMessage_close ws rawc o s Hc), killSession_eq, Hcur.
  cbn [snd].
  pose (s0 := set_currentPty None (set_ptys (alter kill_sent h (ptys s)) s)).
  pose (s1 := delivered ws (control_frame "session-inactive") s0).
  change (delivered ws (control_frame "session-inactive") _) with s1.
  assert (open_in s0 ws = true) as Ho0 by exact Ho.
  assert (open_in s1 ws = true) as Ho1
    by (unfold s1; rewrite open_in_delivered; exact Ho0).
  destruct (open_in_Some s1 ws Ho1) as [k1 Hk1].
  assert (currentPty s1 = None) as Hcur1
    by (unfold s1; rewrite delivered_currentPty; reflexivity).
  assert (ptys s1 = alter kill_sent h (ptys s)) as Hp1
    by (unfold s1; rewrite delivered_ptys; reflexivity).
  rewrite exec_cons, exec_nil, (step_message ws raws _ s1 k1 Hk1).
  rewrite (onMessage_start_spawned ws raws pd s1 Hs Hcur1). cbn [snd].
  rewrite delivered_currentPty, delivered_ptys.
  cbn [currentPty ptys set_currentPty set_ptys].
  rewrite Hp1, length_alter.
  split; [lia |]. split; [reflexivity |].
  split.
  { rewrite <- (length_alter kill_sent (ptys s) h). apply lookup_fresh. }
  split.
  { rewrite lookup_app_l by (rewrite length_alter; exact Hlt).
    rewrite list_lookup_alter_eq, Hp. reflexivity. }
  split.
  - rewrite sent_delivered_same by exact Ho1.
    change (sent (set_currentPty (Some (length (ptys s)))
                    (set_ptys (alter kill_sent h (ptys s)
                               ++ [fresh_pty pd]) s1)) ws)
      with (sent s1 ws).
    unfold s1. rewrite sent_delivered_same by exact Ho0.
    change (sent s0 ws) with (sent s ws).
    rewrite <- app_assoc. reflexivity.
  - intros w Hw. rewrite sent_delivered_other by exact Hw.
    change (sent (set_currentPty (Some (length (ptys s)))
                    (set_ptys (alter kill_sent h (ptys s)
                               ++ [fresh_pty pd]) s1)) w)
      with (sent s1 w).
    unfold s1. rewrite sent_delivered_other by exact Hw. reflexivity.
Qed.

Lemma X2_witness :
  let s' := exec [EvMessage 0 (control_frame "close") SpawnThrows;
                  EvMessage 0 (control_frame "start") (Spawned 4243)]
                 running_state in
  currentPty s' = Some 1%nat
  /\ ptys s' !! 1%nat = Some (fresh_pty 4243)
  /\ ptys s' !! 0%nat = Some (kill_sent (fresh_pty 4242)).
Proof.
  intros s'.
  assert (carries (control_frame "close") "close") as Hc.
  { exists (JObj [(lit "type", JStr (lit "close"))]).
    split; vm_compute; reflexivity. }
  assert (carries (control_frame "start") "start") as Hs.
  { exists (JObj [(lit "type", JStr (lit "start"))]).
    split; vm_compute; reflexivity. }
  assert (currentPty running_state = Some 0%nat) as Hcur
    by (vm_compute; reflexivity).
  assert (ptys running_state !! 0%nat = Some (fresh_pty 4242)) as Hp
    by (vm_compute; reflexivity).
  assert (open_in running_state 0 = true) as Ho by (vm_compute; reflexivity).
  destruct (X2_stop_then_start_is_a_new_session 0 (control_frame "close")
              (control_frame "start") SpawnThrows 4243 running_state 0%nat
              (fresh_pty 4242) Hc Hs Hcur Hp Ho)
    as (_ & H1 & H2 & H3 & _).
  split; [exact H1 | split; [exact H2 | exact H3]].
Defined.

Lemma step_pty_exit_eq h p s :
  ptys s !! h = Some p -> exited p = false ->
  step (EvPtyExit h) s
  = (Ok tt,
     let s0 := set_currentPty None
                 (set_ptys (<[h := exit_reported p]> (ptys s)) s) in
     match activeWs s with
     | Some a => delivered a (control_frame "exit") s0
     | None => s0
     end).
Proof.
  intros Hp He. rewrite (step_pty_exit h p s Hp He), onExit_eq.
  cbn [activeWs set_ptys]. cbv zeta.
  rewrite (alter_as_insert _ _ _ _ Hp). reflexivity.
Qed.

Lemma step_pty_exit_again h p s :
  ptys s !! h = Some p -> exited p = true ->
  step (EvPtyExit h) s = (Ok tt, s).
Proof.
  intros Hp He. cbn [step]. unfold bind, gets. rewrite Hp, He. reflexivity.
Qed.

(** X3. When the exit of a spawned process is reported, the exit
    callback clears the session, whichever handle the session was, and
    sends one [exit] control frame to the active connection if it is
    open; no other socket is sent anything, the active connection stays
    what it was, and the handle is only marked as exited. *)
Theorem X3_exit_ends_session :
  forall s h p,
    ptys s !! h = Some p ->
    exited p = false ->
    let s' := snd (step (EvPtyExit h) s) in
    fst (step (EvPtyExit h) s) = Ok tt
    /\ currentPty s' = None
    /\ activeWs s' = activeWs s
    /\ ptys s' = <[h := exit_reported p]> (ptys s)
    /\ (forall a, activeWs s = Some a -> open_in s a = true ->
                  sent s' a = sent s a ++ [control_frame "exit"])
    /\ (forall w, activeWs s <> Some w -> sent s' w = sent s w)
    /\ (forall w, open_in s w = false -> sent s' w = sent s w).
Proof.
  intros s h p Hp He s'. subst s'.
  rewrite (step_pty_exit_eq h p s Hp He). cbn [fst snd]. cbv zeta.
  set (s0 := set_currentPty None
               (set_ptys (<[h := exit_reported p]> (ptys s)) s)).
  split; [reflexivity |].
  destruct (activeWs s) as [a |] eqn:Ha.
  - rewrite delivered_currentPty, delivered_activeWs, delivered_ptys.
    split; [reflexivity |]. split; [exact Ha |]. split; [reflexivity |].
    split; [| split].
    + intros a' Ha' Ho. injection Ha' as <-.
      rewrite sent_delivered_same; [reflexivity | exact Ho].
    + intros w Hw. rewrite sent_delivered_other by congruence. reflexivity.
    + intros w Hw. rewrite sent_delivered.
      destruct (decide (w = a)) as [-> | Hne].
      * change (open_in s0 a) with (open_in s a). rewrite Hw. reflexivity.
      * rewrite (bool_decide_eq_false_2 _ Hne), andb_false_r. reflexivity.
  - split; [reflexivity |]. split; [exact Ha |]. split; [reflexivity |].
    split; [| split].
    + intros a' Ha'. discriminate.
    + intros w _. reflexivity.
    + intros w _. reflexivity.
Qed.

(** Scenario F of the specification: the process of the running session
    exits by itself. *)
Lemma X3_witness :
  let s' := snd (step (EvPtyExit 0) running_state) in
  currentPty s' = None
  /\ sent s' 0 = sent running_state 0 ++ [control_frame "exit"].
Proof.
  intros s'.
  assert (ptys running_state !! 0%nat = Some (fresh_pty 4242)) as Hp
    by (vm_compute; reflexivity).
  assert (exited (fresh_pty 4242) = false) as He by reflexivity.
  assert (activeWs running_state = Some 0%nat) as Ha
    by (vm_compute; reflexivity).
  assert (open_in running_state 0 = true) as Ho by (vm_compute; reflexivity).
  destruct (X3_exit_ends_session running_state 0%nat (fresh_pty 4242) Hp He)
    as (_ & H1 & _ & _ & H2 & _).
  split; [exact H1 | exact (H2 0%nat Ha Ho)].
Defined.

Lemma step_pty_data_eq h p d s :
  ptys s !! h = Some p -> exited p = false ->
  step (EvPtyData h d) s
  = (Ok tt, match activeWs s with
            | Some a => delivered a (DATA_BYTE :: utf8 d) s
            | None => s
            end).
Proof.
  intros Hp He. cbn [step]. unfold bind at 1, gets at 1.
  rewrite Hp, He. unfold onData, bind, gets.
  destruct (activeWs s) as [a |]; [apply sendData_eq | reflexivity].
Qed.

Lemma delivered_is_Some ws pl s w :
  is_Some (socks (delivered ws pl s) !! w) <-> is_Some (socks s !! w).
Proof.
  unfold delivered. destruct (open_in s ws); [| reflexivity].
  cbn [socks set_socks]. rewrite !lookup_lt_is_Some, length_alter.
  reflexivity.
Qed.

Lemma step_pty_exit_facts h p s :
  ptys s !! h = Some p -> exited p = false ->
  let s1 := snd (step (EvPtyExit h) s) in
  currentPty s1 = None
  /\ activeWs s1 = activeWs s
  /\ ptys s1 = <[h := exit_reported p]> (ptys s)
  /\ (forall w, open_in s1 w = open_in s w)
  /\ (forall w, is_Some (socks s1 !! w) <-> is_Some (socks s !! w))
  /\ (forall w, sent s1 w
                = if open_in s w && bool_decide (activeWs s = Some w)
                  then sent s w ++ [control_frame "exit"] else sent s w).
Proof.
  intros Hp He s1. subst s1.
  rewrite (step_pty_exit_eq h p s Hp He). cbn [snd]. cbv zeta.
  destruct (activeWs s) as [a |] eqn:Ha.
  - rewrite delivered_currentPty, delivered_activeWs, delivered_ptys.
    split; [reflexivity |]. split; [exact Ha |]. split; [reflexivity |].
    split; [intros w; rewrite open_in_delivered; reflexivity |].
    split; [intros w; rewrite delivered_is_Some; reflexivity |].
    intros w. rewrite sent_delivered.
    change (open_in (set_currentPty None
                       (set_ptys (<[h:=exit_reported p]> (ptys s)) s)) a)
      with (open_in s a).
    destruct (decide (w = a)) as [-> | Hne].
    + rewrite !bool_decide_eq_true_2 by reflexivity. reflexivity.
    + rewrite (bool_decide_eq_false_2 (w = a)) by exact Hne.
      rewrite (bool_decide_eq_false_2 (Some a = Some w)) by congruence.
      rewrite !andb_false_r. reflexivity.
  - split; [reflexivity |]. split; [exact Ha |]. split; [reflexivity |].
    split; [reflexivity |]. split; [reflexivity |].
    intros w. rewrite (bool_decide_eq_false_2 (None = Some w)) by discriminate.
    rewrite andb_false_r. reflexivity.
Qed.

(** X4. The exit callback does not look at which process exited. When
    the exit of an earlier process (one that was killed by a [close]) is
    reported while a newer session runs, the newer session is forgotten
    although its process is alive: its handle is neither killed nor
    marked as exited, a later [close] request leaves it so, its output is
    still forwarded to the active connection (after the [exit] frame),
    and a later [start] request spawns one more process beside it. *)
Theorem X4_late_exit_forgets_newer_session :
  forall s h p h' p' ws o d,
    ptys s !! h = Some p ->
    exited p = false ->
    currentPty s = Some h' ->
    h' <> h ->
    ptys s !! h' = Some p' ->
    exited p' = false ->
    let s1 := snd (step (EvPtyExit h) s) in
    currentPty s1 = None
    /\ ptys s1 !! h' = Some p'
    /\ (forall rawc, carries rawc "close" ->
          ptys (snd (step (EvMessage ws rawc o) s1)) !! h' = Some p')
    /\ (forall a, activeWs s = Some a -> open_in s a = true ->
          sent (snd (step (EvPtyData h' d) s1)) a
          = sent s a ++ [control_frame "exit"; DATA_BYTE :: utf8 d])
    /\ (forall raws pd, carries raws "start" -> is_Some (socks s !! ws) ->
          let s2 := snd (step (EvMessage ws raws (Spawned pd)) s1) in
          currentPty s2 = Some (length (ptys s))
          /\ ptys s2 !! h' = Some p'
          /\ ptys s2 !! length (ptys s) = Some (fresh_pty pd)).
Proof.
  intros s h p h' p' ws o d Hp He Hcur Hne Hp' He' s1.
  destruct (step_pty_exit_facts h p s Hp He)
    as (Hc1 & Ha1 & Hp1 & Ho1 & Hk1 & Hs1).
  fold s1 in Hc1, Ha1, Hp1, Ho1, Hk1, Hs1.
  assert (ptys s1 !! h' = Some p') as Hp1'.
  { rewrite Hp1, list_lookup_insert_ne by congruence. exact Hp'. }
  split; [exact Hc1 |]. split; [exact Hp1' |].
  split; [| split].
  - intros rawc Hc.
    destruct (socks s1 !! ws) as [k |] eqn:Hk.
    + rewrite (step_message ws rawc o s1 k Hk).
      rewrite (onMessage_close ws rawc o s1 Hc), killSession_eq, Hc1.
      cbn [snd]. rewrite delivered_ptys. exact Hp1'.
    + rewrite (step_message_unknown ws rawc o s1 Hk). exact Hp1'.
  - intros a Ha Ho.
    rewrite (step_pty_data_eq h' p' d s1 Hp1' He'), Ha1, Ha. cbn [snd].
    rewrite sent_delivered_same by (rewrite Ho1; exact Ho).
    rewrite Hs1, Ho, (bool_decide_eq_true_2 _ Ha). cbn [andb].
    rewrite <- app_assoc. reflexivity.
  - intros raws pd Hs Hws s2. subst s2.
    apply Hk1 in Hws as [k Hk].
    rewrite (step_message ws raws _ s1 k Hk).
    rewrite (onMessage_start_spawned ws raws pd s1 Hs Hc1). cbn [snd].
    rewrite delivered_currentPty, delivered_ptys.
    cbn [currentPty ptys set_currentPty set_ptys].
    assert (length (ptys s1) = length (ptys s)) as Hlen
      by (rewrite Hp1; apply length_insert).
    rewrite Hlen. split; [reflexivity |].
    assert (h' < length (ptys s1))%nat as Hlt
      by (apply lookup_lt_is_Some; eexists; exact Hp1').
    split.
    + rewrite lookup_app_l by exact Hlt. exact Hp1'.
    + rewrite <- Hlen. apply lookup_fresh.
Qed.

(** A restart, then the exit of the first process: the second process
    is alive but no longer the session. *)
Lemma X4_witness :
  let s1 := snd (step (EvPtyExit 0) restarted_state) in
  currentPty restarted_state = Some 1%nat
  /\ currentPty s1 = None
  /\ ptys s1 !! 1%nat = Some (fresh_pty 2)
  /\ sent (snd (step (EvPtyData 1 (lit "$ ")) s1)) 0
     = sent restarted_state 0
       ++ [control_frame "exit"; DATA_BYTE :: utf8 (lit "$ ")].
Proof.
  intros s1.
  assert (ptys restarted_state !! 0%nat = Some (kill_sent (fresh_pty 1)))
    as Hp by (vm_compute; reflexivity).
  assert (exited (kill_sent (fresh_pty 1)) = false) as He by reflexivity.
  assert (currentPty restarted_state = Some 1%nat) as Hcur
    by (vm_compute; reflexivity).
  assert (1%nat <> 0%nat) as Hne by discriminate.
  assert (ptys restarted_state !! 1%nat = Some (fresh_pty 2)) as Hp'
    by (vm_compute; reflexivity).
  assert (exited (fresh_pty 2) = false) as He' by reflexivity.
  assert (activeWs restarted_state = Some 0%nat) as Ha
    by (vm_compute; reflexivity).
  assert (open_in restarted_state 0 = true) as Ho
    by (vm_compute; reflexivity).
  destruct (X4_late_exit_forgets_newer_session restarted_state 0%nat
              (kill_sent (fresh_pty 1)) 1%nat (fresh_pty 2) 0%nat SpawnThrows
              (lit "$ ") Hp He Hcur Hne Hp' He')
    as (H1 & H2 & _ & H3 & _).
  split; [exact Hcur |]. split; [exact H1 |]. split; [exact H2 |].
  exact (H3 0%nat Ha Ho).
Defined.

End SessionLifeCycle.

(** ** Forwarding: process output and terminal input, chunk by chunk *)

Section Forwarding.
Import Utf8 Json Eff Server.

Lemma exec_pty_data h p ds : forall s,
  ptys s !! h = Some p -> exited p = false ->
  let s' := exec (map (EvPtyData h) ds) s in
  currentPty s' = currentPty s
  /\ ptys s' = ptys s
  /\ activeWs s' = activeWs s
  /\ (forall w, open_in s' w = open_in s w)
  /\ (forall w, sent s' w
                = if open_in s w && bool_decide (activeWs s = Some w)
                  then sent s w ++ data_frames ds else sent s w).
Proof.
  induction ds as [| d ds IH]; intros s Hp He.
  - cbn [map]. rewrite exec_nil. cbv zeta.
    split; [reflexivity |]. split; [reflexivity |].
    split; [reflexivity |]. split; [reflexivity |].
    intros w. cbn [data_frames map]. rewrite app_nil_r.
    destruct (_ && _); reflexivity.
  - cbn [map]. rewrite exec_cons, (step_pty_data_eq h p d s Hp He).
    cbn [snd].
    set (s1 := match activeWs s with
               | Some a => delivered a (DATA_BYTE :: utf8 d) s
               | None => s
               end).
    assert (currentPty s1 = currentPty s /\ ptys s1 = ptys s
            /\ activeWs s1 = activeWs s
            /\ (forall w, open_in s1 w = open_in s w)
            /\ (forall w, sent s1 w
                          = if open_in s w && bool_decide (activeWs s = Some w)
                            then sent s w ++ [DATA_BYTE :: utf8 d]
                            else sent s w)) as (Hc1 & Hp1 & Ha1 & Ho1 & Hs1).
    { unfold s1. destruct (activeWs s) as [a |] eqn:Hact.
      - rewrite delivered_currentPty, delivered_ptys, delivered_activeWs.
        split; [reflexivity |]. split; [reflexivity |].
        split; [exact Hact |]. split.
        + intros w. apply open_in_delivered.
        + intros w. rewrite sent_delivered.
          destruct (decide (w = a)) as [-> | Hne].
          * rewrite !bool_decide_eq_true_2 by reflexivity. reflexivity.
          * rewrite (bool_decide_eq_false_2 (w = a)) by exact Hne.
            rewrite (bool_decide_eq_false_2 (Some a = Some w)) by congruence.
            rewrite !andb_false_r. reflexivity.
      - split; [reflexivity |]. split; [reflexivity |].
        split; [exact Hact |]. split; [reflexivity |].
        intros w.
        rewrite (bool_decide_eq_false_2 (None = Some w)) by discriminate.
        rewrite andb_false_r. reflexivity. }
    destruct (IH s1) as (Hc & Hpt & Ha & Ho & Hs);
      [rewrite Hp1; exact Hp | exact He |].
    cbv zeta. rewrite Hc, Hpt, Ha, Hc1, Hp1, Ha1.
    split; [reflexivity |]. split; [reflexivity |].
    split; [reflexivity |]. split.
    + intros w. rewrite Ho. apply Ho1.
    + intros w. rewrite Hs, Ho1, Ha1, Hs1.
      destruct (open_in s w && bool_decide (activeWs s = Some w));
        [| reflexivity].
      cbn [data_frames map]. rewrite <- app_assoc. reflexivity.
Qed.

Lemma exec_pty_data_dropped h p ds : forall s,
  ptys s !! h = Some p -> exited p = false ->
  (forall a, activeWs s = Some a -> open_in s a = false) ->
  exec (map (EvPtyData h) ds) s = s.
Proof.
  induction ds as [| d ds IH]; intros s Hp He Hno; [reflexivity |].
  cbn [map]. rewrite exec_cons, (step_pty_data_eq h p d s Hp He).
  cbn [snd]. destruct (activeWs s) as [a |] eqn:Ha.
  - rewrite delivered_closed by (apply Hno; reflexivity).
    apply IH; try assumption. rewrite Ha. exact Hno.
  - apply IH; try assumption. rewrite Ha. exact Hno.
Qed.

(** X5. The output of a process is forwarded chunk by chunk, in order:
    after the chunks [ds] the active connection, if it is open, has been
    sent one DATA frame per chunk, the byte 0x00 followed by the UTF-8
    bytes of the chunk, in the order of the chunks, after what it had
    been sent before. No other socket is sent anything and the session
    is as before. Without an open active connection the output is
    dropped: the state does not change, nothing is kept for later. *)
Theorem X5_output_forwarded_in_order :
  forall s h p ds,
    ptys s !! h = Some p ->
    exited p = false ->
    let s' := exec (map (EvPtyData h) ds) s in
    currentPty s' = currentPty s
    /\ ptys s' = ptys s
    /\ activeWs s' = activeWs s
    /\ (forall a, activeWs s = Some a -> open_in s a = true ->
                  sent s' a
                  = sent s a ++ map (fun d => 0x00 :: utf8 d) ds)
    /\ (forall w, activeWs s <> Some w -> sent s' w = sent s w)
    /\ ((forall a, activeWs s = Some a -> open_in s a = false) -> s' = s).
Proof.
  intros s h p ds Hp He s'.
  destruct (exec_pty_data h p ds s Hp He) as (Hc & Hpt & Ha & _ & Hs).
  fold s' in Hc, Hpt, Ha, Hs.
  split; [exact Hc |]. split; [exact Hpt |]. split; [exact Ha |].
  split; [| split].
  - intros a Hact Ho. rewrite Hs, Ho, (bool_decide_eq_true_2 _ Hact).
    reflexivity.
  - intros w Hw. rewrite Hs, (bool_decide_eq_false_2 _ Hw), andb_false_r.
    reflexivity.
  - intros Hno. apply (exec_pty_data_dropped h p ds s Hp He Hno).
Qed.

(** Scenario A of the specification: the process prints [hello] and a
    line feed. *)
Lemma X5_witness :
  sent (exec [EvPtyData 0 (lit "hello"); EvPtyData 0 [10]] running_state) 0
  = sent running_state 0 ++ [0x00 :: utf8 (lit "hello"); [0x00; 10]].
Proof.
  assert (ptys running_state !! 0%nat = Some (fresh_pty 4242)) as Hp
    by (vm_compute; reflexivity).
  assert (exited (fresh_pty 4242) = false) as He by reflexivity.
  assert (activeWs running_state = Some 0%nat) as Ha
    by (vm_compute; reflexivity).
  assert (open_in running_state 0 = true) as Ho by (vm_compute; reflexivity).
  destruct (X5_output_forwarded_in_order running_state 0%nat (fresh_pty 4242)
              [lit "hello"; [10]] Hp He) as (_ & _ & _ & H & _).
  exact (H 0%nat Ha Ho).
Defined.

Lemma step_data_message ws k b o s h p :
  socks s !! ws = Some k -> currentPty s = Some h -> ptys s !! h = Some p ->
  step (EvMessage ws (DATA_BYTE :: b) o) s
  = (Ok tt, set_ptys (<[h := written p [toString b]]> (ptys s)) s).
Proof.
  intros Hk Hcur Hp. rewrite (step_message ws _ o s k Hk).
  rewrite onMessage_data, Hcur, (alter_as_insert _ _ _ _ Hp). reflexivity.
Qed.

Lemma written_nil p : written p [] = p.
Proof. destruct p. unfold written. cbn. rewrite app_nil_r. reflexivity. Qed.

Lemma written_written p ds ds' :
  written (written p ds) ds' = written p (ds ++ ds').
Proof. unfold written. cbn. rewrite app_assoc. reflexivity. Qed.

Lemma set_ptys_same s : set_ptys (ptys s) s = s.
Proof. destruct s. reflexivity. Qed.

Lemma exec_data_messages ws k o h bodies : forall s p,
  socks s !! ws = Some k -> currentPty s = Some h -> ptys s !! h = Some p ->
  exec (map (fun b => EvMessage ws (DATA_BYTE :: b) o) bodies) s
  = set_ptys (<[h := written p (map toString bodies)]> (ptys s)) s.
Proof.
  induction bodies as [| b bodies IH]; intros s p Hk Hcur Hp.
  - cbn [map]. rewrite exec_nil, written_nil, list_insert_id by exact Hp.
    symmetry. apply set_ptys_same.
  - cbn [map]. rewrite exec_cons, (step_data_message ws k b o s h p Hk Hcur Hp).
    cbn [snd].
    assert (h < length (ptys s))%nat as Hlt
      by (apply lookup_lt_is_Some; eexists; exact Hp).
    rewrite (IH _ (written p [toString b])); [| exact Hk | exact Hcur |].
    + cbn [ptys set_ptys]. rewrite list_insert_insert_eq, written_written.
      reflexivity.
    + cbn [ptys set_ptys]. apply list_lookup_insert_eq. exact Hlt.
Qed.

Lemma input_stream_written p ds :
  input_stream (written p ds) = input_stream p ++ flat_map utf8 ds.
Proof. unfold input_stream, written. cbn [writes]. apply flat_map_app. Qed.

(** X6. The payloads of DATA frames are written to the process in the
    order the frames arrive, on whichever socket: after the frames with
    the payloads [bodies], the handle of the session has been written
    the decoded text of each payload, in order, after what had been
    written before; nothing else of the state changes, and nothing is
    sent back. When each payload is well-formed UTF-8 the bytes that
    reach the input of the process are the payload bytes, concatenated
    in the order of the frames. *)
Theorem X6_input_written_in_order :
  forall s ws k h p o bodies,
    socks s !! ws = Some k ->
    currentPty s = Some h ->
    ptys s !! h = Some p ->
    let s' := exec (map (fun b => EvMessage ws (0x00 :: b) o) bodies) s in
    let p' := mkPty (pid p) (cols p) (rows p)
                    (writes p ++ map toString bodies) (killed p)
                    (exited p) in
    s' = set_ptys (<[h := p']> (ptys s)) s
    /\ socks s' = socks s
    /\ currentPty s' = Some h
    /\ input_stream p'
       = input_stream p ++ flat_map (fun b => utf8 (toString b)) bodies
    /\ (Forall (fun b => exists str, Forall scalar str /\ b = utf8 str)
               bodies ->
        input_stream p' = input_stream p ++ concat bodies).
Proof.
  intros s ws k h p o bodies Hk Hcur Hp s' p'.
  assert (s' = set_ptys (<[h := p']> (ptys s)) s) as Hs'
    by apply (exec_data_messages ws k o h bodies s p Hk Hcur Hp).
  split; [exact Hs' |]. rewrite Hs'.
  split; [reflexivity |]. split; [exact Hcur |].
  assert (input_stream p'
          = input_stream p ++ flat_map (fun b => utf8 (toString b)) bodies)
    as Hin.
  { change p' with (written p (map toString bodies)).
    rewrite input_stream_written. f_equal.
    clear. induction bodies as [| b bodies IH]; [reflexivity |].
    cbn [map flat_map]. rewrite IH. reflexivity. }
  split; [exact Hin |].
  intros Hwf. rewrite Hin. f_equal.
  clear -Hwf. induction Hwf as [| b bodies (str & Hstr & ->) _ IH];
    [reflexivity |].
  cbn [flat_map concat]. rewrite toString_utf8 by exact Hstr.
  rewrite IH. reflexivity.
Qed.

(** Scenario B of the specification: [l], [s] and a line feed are
    typed. *)
Lemma X6_witness :
  let s' := exec (map (fun b => EvMessage 0 (0x00 :: b) SpawnThrows)
                      [[108]; [115]; [10]]) running_state in
  ptys s' !! 0%nat
  = Some (mkPty 4242 (JNum (binary64_of_Z 80)) (JNum (binary64_of_Z 24))
                [[108]; [115]; [10]] false false).
Proof.
  intros s'.
  assert (socks running_state !! 0%nat
          = Some (mkSocket OPEN [control_frame "session-inactive";
                                 control_frame "session-active"])) as Hk
    by (vm_compute; reflexivity).
  assert (currentPty running_state = Some 0%nat) as Hcur
    by (vm_compute; reflexivity).
  assert (ptys running_state !! 0%nat = Some (fresh_pty 4242)) as Hp
    by (vm_compute; reflexivity).
  destruct (X6_input_written_in_order running_state 0%nat _ 0%nat
              (fresh_pty 4242) SpawnThrows [[108]; [115]; [10]] Hk Hcur Hp)
    as (H & _).
  unfold s'. rewrite H. vm_compute. reflexivity.
Defined.

End Forwarding.

(** ** Who is sent what *)

Section Routing.
Import Utf8 Json Eff Server.

Lemma delivered_length ws pl s :
  length (socks (delivered ws pl s)) = length (socks s).
Proof.
  unfold delivered. destruct (open_in s ws); [| reflexivity].
  cbn [socks set_socks]. apply length_alter.
Qed.

Lemma step_watch_eq f s :
  step (EvWatch f) s
  = (Ok tt, if is_markdown f then set_fileChangeTimer f s else s).
Proof.
  cbn [step]. unfold onWatch, is_markdown.
  destruct f as [f |]; [| reflexivity].
  destruct (_ || _); reflexivity.
Qed.

Lemma step_timer_eq s :
  step EvTimer s
  = (Ok tt, match fileChangeTimer s with
            | Some f =>
              match activeWs s with
              | Some a => delivered a (file_changed_frame f)
                            (set_fileChangeTimer None s)
              | None => set_fileChangeTimer None s
              end
            | None => s
            end).
Proof.
  cbn [step]. unfold bind at 1, gets at 1.
  destruct (fileChangeTimer s) as [f |]; [| reflexivity].
  unfold bind at 1, modify at 1. cbv beta iota.
  unfold onFileChangeTimer, bind, gets. cbn [activeWs set_fileChangeTimer].
  destruct (activeWs s) as [a |]; [| reflexivity].
  rewrite sendControl_eq. reflexivity.
Qed.

Lemma step_close_eq ws s :
  step (EvClose ws) s
  = (Ok tt,
     if bool_decide (is_Some (socks s !! ws)) then
       let s1 := snd (set_readyState ws CLOSED s) in
       if bool_decide (activeWs s = Some ws) then set_activeWs None s1 else s1
     else s).
Proof.
  cbn [step]. unfold bind at 1, gets at 1.
  destruct (bool_decide (is_Some (socks s !! ws))); [| reflexivity].
  unfold bind, set_readyState, modify. rewrite onClose_eq. reflexivity.
Qed.

Lemma step_pty_data_cases h d s :
  step (EvPtyData h d) s
  = (Ok tt, match ptys s !! h with
            | Some p =>
              if exited p then s
              else match activeWs s with
                   | Some a => delivered a (DATA_BYTE :: utf8 d) s
                   | None => s
                   end
            | None => s
            end).
Proof.
  destruct (ptys s !! h) as [p |] eqn:Hp.
  - destruct (exited p) eqn:He.
    + cbn [step]. unfold bind, gets. rewrite Hp, He. reflexivity.
    + apply (step_pty_data_eq h p d s Hp He).
  - cbn [step]. unfold bind, gets. rewrite Hp. reflexivity.
Qed.

Lemma step_pty_exit_cases h s :
  step (EvPtyExit h) s
  = (Ok tt, match ptys s !! h with
            | Some p =>
              if exited p then s
              else
                let s0 := set_currentPty None
                            (set_ptys (<[h := exit_reported p]> (ptys s)) s) in
                match activeWs s with
                | Some a => delivered a (control_frame "exit") s0
                | None => s0
                end
            | None => s
            end).
Proof.
  destruct (ptys s !! h) as [p |] eqn:Hp.
  - destruct (exited p) eqn:He.
    + apply (step_pty_exit_again h p s Hp He).
    + apply (step_pty_exit_eq h p s Hp He).
  - cbn [step]. unfold bind, gets. rewrite Hp. reflexivity.
Qed.

(** The message handler sends to the socket of the message and to the
    active connection only, and leaves the active connection and the
    table of sockets what they were. *)
Lemma onMessage_routing ws raw o s :
  let s' := snd (onMessage ws raw o s) in
  activeWs s' = activeWs s
  /\ length (socks s') = length (socks s)
  /\ (forall w, w <> ws -> activeWs s <> Some w -> sent s' w = sent s w).
Proof.
  assert (forall s0 : State, socks s0 = socks s -> activeWs s0 = activeWs s ->
            activeWs s0 = activeWs s
            /\ length (socks s0) = length (socks s)
            /\ (forall w, w <> ws -> activeWs s <> Some w ->
                          sent s0 w = sent s w)) as Hsame.
  { intros s0 Hs Ha. split; [exact Ha |]. split; [rewrite Hs; reflexivity |].
    intros w _ _. unfold sent. rewrite Hs. reflexivity. }
  assert (forall t pl (s0 : State),
            (t = ws \/ activeWs s = Some t) ->
            activeWs s0 = activeWs s
            /\ length (socks s0) = length (socks s)
            /\ (forall w, w <> ws -> activeWs s <> Some w ->
                          sent s0 w = sent s w) ->
            activeWs (delivered t pl s0) = activeWs s
            /\ length (socks (delivered t pl s0)) = length (socks s)
            /\ (forall w, w <> ws -> activeWs s <> Some w ->
                          sent (delivered t pl s0) w = sent s w)) as Hdel.
  { intros t pl s0 Ht (Ha & Hl & Hs).
    rewrite delivered_activeWs, delivered_length.
    split; [exact Ha |]. split; [exact Hl |].
    intros w Hw Hact. rewrite sent_delivered_other; [apply Hs; assumption |].
    destruct Ht as [-> | Ht]; [exact Hw | congruence]. }
  cbv zeta.
  destruct raw as [| b body]; [apply Hsame; reflexivity |].
  destruct (Z.eqb_spec b DATA_BYTE) as [-> | Hd].
  { rewrite onMessage_data. cbn [snd].
    destruct (currentPty s); apply Hsame; reflexivity. }
  destruct (Z.eqb_spec b CONTROL_BYTE) as [-> | Hc].
  2:{ rewrite (onMessage_other_kind ws b body o s Hd Hc).
      apply Hsame; reflexivity. }
  destruct (JSON_parse (toString body)) as [msg |] eqn:Hp.
  2:{ rewrite (onMessage_bad_json ws body o s Hp). apply Hsame; reflexivity. }
  destruct (get_prop msg (lit "type")) as [t |] eqn:Ht.
  2:{ rewrite (onMessage_no_type ws body msg o s Hp Ht).
      apply Hsame; reflexivity. }
  destruct (strict_eq_str t (lit "start")) eqn:H1.
  { apply strict_eq_str_true in H1 as ->.
    assert (carries (CONTROL_BYTE :: body) "start") as Hcar
      by (exists msg; rewrite control_message_cons; auto).
    destruct (currentPty s) as [h |] eqn:Hcur.
    - rewrite (onMessage_start ws _ o s s Hcar
                 (spawnSession_running o s h Hcur)).
      cbn [snd]. apply Hdel; [left; reflexivity |].
      apply Hsame; reflexivity.
    - destruct o as [| pd].
      + rewrite (onMessage_start ws _ _ s _ Hcar (spawnSession_throws s Hcur)).
        cbn [snd]. apply Hdel; [left; reflexivity |].
        destruct (activeWs s) as [a |] eqn:Ha.
        * apply Hdel; [right; reflexivity | apply Hsame; auto].
        * apply Hsame; auto.
      + rewrite (onMessage_start_spawned ws _ pd s Hcar Hcur).
        cbn [snd]. apply Hdel; [left; reflexivity |].
        apply Hsame; reflexivity. }
  destruct (strict_eq_str t (lit "close")) eqn:H2.
  { apply strict_eq_str_true in H2 as ->.
    rewrite (onMessage_close ws _ o s)
      by (exists msg; rewrite control_message_cons; auto).
    cbn [snd]. apply Hdel; [left; reflexivity |].
    rewrite killSession_eq. cbn [snd].
    destruct (currentPty s); apply Hsame; reflexivity. }
  destruct (strict_eq_str t (lit "resize")) eqn:H3.
  { apply strict_eq_str_true in H3 as ->.
    destruct (get_prop_total msg _ _ (lit "cols") Ht) as [c Hcl].
    destruct (get_prop_total msg _ _ (lit "rows") Ht) as [r Hr].
    rewrite (onMessage_resize ws body msg c r o s Hp Ht Hcl Hr). cbn [snd].
    destruct (truthy c && truthy r); [| apply Hsame; reflexivity].
    destruct (currentPty s); [| apply Hsame; reflexivity].
    destruct (positive_finite c && positive_finite r);
      apply Hsame; reflexivity. }
  rewrite (onMessage_unrecognized ws body msg t o s Hp Ht H1 H2 H3).
  apply Hsame; reflexivity.
Qed.

Lemma step_routing e s w :
  (w < length (socks s))%nat ->
  activeWs s <> Some w ->
  ~ from_socket w e ->
  let s' := snd (step e s) in
  sent s' w = sent s w
  /\ (w < length (socks s'))%nat
  /\ activeWs s' <> Some w.
Proof.
  intros Hw Ha He. cbv zeta.
  destruct e as [rs | ws raw o | ws | ws | h d | h | f |].
  - cbn [step]. split; [apply onConnection_sent_old; lia |].
    rewrite onConnection_eq. cbn [snd].
    rewrite delivered_length, delivered_activeWs.
    cbn [socks activeWs set_activeWs set_socks]. rewrite length_app.
    split; [cbn; lia |]. intros H. injection H as H. lia.
  - cbn [from_socket] in He.
    destruct (socks s !! ws) as [k |] eqn:Hk.
    + rewrite (step_message ws raw o s k Hk).
      destruct (onMessage_routing ws raw o s) as (Ha' & Hl' & Hs').
      rewrite Ha', Hl'. split; [apply Hs'; congruence |]. split; assumption.
    + rewrite (step_message_unknown ws raw o s Hk). cbn [snd].
      split; [reflexivity |]. split; assumption.
  - cbn [step]. split; [apply sent_set_readyState |].
    unfold set_readyState, modify. cbn [snd socks activeWs set_socks].
    rewrite length_alter. split; assumption.
  - split; [apply step_close_sent |]. split.
    + rewrite step_close_length. exact Hw.
    + rewrite step_close_eq. cbn [snd].
      destruct (bool_decide (is_Some (socks s !! ws))); [| exact Ha].
      cbv zeta. destruct (bool_decide (activeWs s = Some ws));
        [discriminate | exact Ha].
  - rewrite step_pty_data_cases. cbn [snd].
    destruct (ptys s !! h) as [p |] eqn:Hp;
      [| split; [reflexivity | split; assumption]].
    destruct (exited p) eqn:Hex;
      [split; [reflexivity | split; assumption] |].
    destruct (activeWs s) as [a |] eqn:Hact;
      [| split; [reflexivity | split; [exact Hw | rewrite Hact; discriminate]]].
    rewrite delivered_length, delivered_activeWs, Hact.
    split; [apply sent_delivered_other; congruence |]. split; assumption.
  - rewrite step_pty_exit_cases. cbn [snd].
    destruct (ptys s !! h) as [p |] eqn:Hp;
      [| split; [reflexivity | split; assumption]].
    destruct (exited p) eqn:Hex;
      [split; [reflexivity | split; assumption] |].
    cbv zeta.
    destruct (activeWs s) as [a |] eqn:Hact;
      [| split; [reflexivity | split; [exact Hw | cbn; rewrite Hact; discriminate]]].
    rewrite delivered_length, delivered_activeWs.
    split; [rewrite sent_delivered_other by congruence; reflexivity |].
    split; [exact Hw | cbn; rewrite Hact; exact Ha].
  - rewrite step_watch_eq. cbn [snd].
    destruct (is_markdown f); split; try reflexivity; split; assumption.
  - rewrite step_timer_eq. cbn [snd].
    destruct (fileChangeTimer s) as [f |];
      [| split; [reflexivity | split; assumption]].
    destruct (activeWs s) as [a |] eqn:Hact;
      [| split; [reflexivity | split; [exact Hw | cbn; rewrite Hact; discriminate]]].
    rewrite delivered_length, delivered_activeWs.
    split; [rewrite sent_delivered_other by congruence; reflexivity |].
    split; [exact Hw | cbn; rewrite Hact; exact Ha].
Qed.

(** X7. A connection that is not the active one is sent nothing but the
    replies to its own requests. Once a socket has been replaced as the
    active connection it never becomes active again, and over any run of
    events in which no message arrives on it, it is sent nothing: no
    process output, no [exit] notice, no file notification, no reply to
    another connection's request. *)
Theorem X7_replaced_connection_is_sent_nothing :
  forall es s w,
    (w < length (socks s))%nat ->
    activeWs s <> Some w ->
    Forall (fun e => ~ from_socket w e) es ->
    sent (exec es s) w = sent s w
    /\ activeWs (exec es s) <> Some w.
Proof.
  induction es as [| e es IH]; intros s w Hw Ha Hes.
  - rewrite exec_nil. split; [reflexivity | exact Ha].
  - rewrite exec_cons.
    destruct (step_routing e s w Hw Ha (Forall_inv Hes)) as (Hs & Hl & Ha').
    destruct (IH (snd (step e s)) w Hl Ha' (Forall_inv_tail Hes))
      as (Hs2 & Ha2).
    split; [rewrite Hs2; exact Hs | exact Ha2].
Qed.

(** Scenario D of the specification: a second tab takes over; the
    output and the exit of the process, and the second tab's own
    request, bring the first tab nothing. *)
Lemma X7_witness :
  let s := exec two_connections initial in
  let es := [EvMessage 1 (control_frame "start") (Spawned 7);
             EvPtyData 0 (lit "hi"); EvPtyExit 0] in
  sent (exec es s) 0 = [control_frame "session-inactive"]
  /\ sent (exec es s) 1
     = [control_frame "session-inactive"; control_frame "session-active";
        0x00 :: utf8 (lit "hi"); control_frame "exit"].
Proof.
  intros s es.
  assert (0 < length (socks s))%nat as Hw by (vm_compute; lia).
  assert (activeWs s <> Some 0%nat) as Ha by (vm_compute; discriminate).
  assert (Forall (fun e => ~ from_socket 0 e) es) as Hes.
  { repeat apply List.Forall_cons; try apply List.Forall_nil;
      cbn [from_socket]; try tauto; discriminate. }
  destruct (X7_replaced_connection_is_sent_nothing es s 0%nat Hw Ha Hes)
    as (H & _).
  split; [rewrite H; vm_compute; reflexivity | vm_compute; reflexivity].
Defined.

(** A relation on states that holds whenever the sockets are the same,
    whenever a frame is delivered, whenever a socket is accepted and
    whenever a socket leaves the OPEN state, holds over every turn of the
    event loop and over every run. *)
Section SocketRelation.
Variable R : State -> State -> Prop.
Context {R_pre : PreOrder R}.
Hypothesis R_same : forall s s', socks s' = socks s -> R s s'.
Hypothesis R_delivered : forall ws pl s, R s (delivered ws pl s).
Hypothesis R_accept : forall k s, R s (set_socks (socks s ++ [k]) s).
Hypothesis R_leave : forall ws rs s,
  is_open rs = false -> R s (snd (set_readyState ws rs s)).

Ltac related :=
  lazymatch goal with
  | |- keeps _ (bind _ _) => apply keeps_bind; [exact R_pre | | intros ?]
  | |- keeps _ (try_catch _ _) =>
    apply keeps_try_catch; [exact R_pre | | intros ?]
  | |- keeps _ (ret _) => apply keeps_ret; exact R_pre
  | |- keeps _ (throw _) => apply keeps_throw; exact R_pre
  | |- keeps _ (gets _) => apply keeps_gets; exact R_pre
  | |- keeps _ (parse _) => apply keeps_parse; exact R_pre
  | |- keeps _ (prop _ _) => apply keeps_prop; exact R_pre
  | |- keeps _ (sendControl _ _) =>
    intros ?; rewrite sendControl_eq; apply R_delivered
  | |- keeps _ (sendData _ _) =>
    intros ?; rewrite sendData_eq; apply R_delivered
  | |- keeps _ (set_readyState _ _) =>
    intros ?; apply R_leave; reflexivity
  | |- keeps _ (modify _) =>
    apply keeps_modify; intros ?; apply R_same; reflexivity
  | |- keeps _ (match ?x with _ => _ end) => destruct x
  end.

Lemma pty_spawn_related o : keeps R (pty_spawn o).
Proof using R_pre R_same.
  destruct o; cbn [pty_spawn]; [related |].
  intros s. apply R_same. reflexivity.
Qed.

Lemma spawnSession_related o : keeps R (spawnSession o).
Proof using R_pre R_same R_delivered.
  unfold spawnSession.
  repeat lazymatch goal with
         | |- keeps _ (pty_spawn _) => apply pty_spawn_related
         | _ => related
         end.
Qed.

Lemma onMessage_related ws raw o : keeps R (onMessage ws raw o).
Proof using R_pre R_same R_delivered.
  unfold onMessage, killSession, pty_write, pty_resize, pty_kill.
  repeat lazymatch goal with
         | |- keeps _ (spawnSession _) => apply spawnSession_related
         | _ => related
         end.
Qed.

Lemma onConnection_related rs : keeps R (onConnection rs).
Proof using R_pre R_same R_delivered R_accept.
  unfold onConnection.
  related; [related |].
  related; [apply keeps_modify; intros s; apply R_accept |].
  repeat related.
Qed.

Lemma step_related e : keeps R (step e).
Proof using R_pre R_same R_delivered R_accept R_leave.
  destruct e; cbn [step].
  - apply onConnection_related.
  - related; [related |].
    related; [apply onMessage_related | related].
  - related.
  - unfold onClose. repeat related.
  - unfold onData. repeat related.
  - unfold mark_exited, onExit. repeat related.
  - unfold onWatch. repeat related.
  - unfold onFileChangeTimer. repeat related.
Qed.

Lemma run_related es : keeps R (run es).
Proof using R_pre R_same R_delivered R_accept R_leave.
  induction es as [| e es IH]; cbn [run]; [related |].
  related; [apply step_related | exact IH].
Qed.

End SocketRelation.

#[local] Instance stays_closed_preorder : PreOrder stays_closed.
Proof.
  split.
  - intros s w k Hk Ho. exists k. auto.
  - intros s1 s2 s3 H12 H23 w k Hk Ho.
    destruct (H12 w k Hk Ho) as (k2 & Hk2 & Ho2 & Hs2).
    destruct (H23 w k2 Hk2 Ho2) as (k3 & Hk3 & Ho3 & Hs3).
    exists k3. split; [exact Hk3 |]. split; [exact Ho3 | congruence].
Qed.

Lemma stays_closed_same s s' : socks s' = socks s -> stays_closed s s'.
Proof. intros H w k Hk Ho. exists k. rewrite H. auto. Qed.

Lemma stays_closed_delivered ws pl s : stays_closed s (delivered ws pl s).
Proof.
  intros w k Hk Ho. unfold delivered.
  destruct (open_in s ws) eqn:Hopen; [| exists k; auto].
  cbn [socks set_socks]. exists k.
  rewrite list_lookup_alter_ne; [auto |].
  intros ->. unfold open_in in Hopen. rewrite Hk in Hopen. congruence.
Qed.

Lemma stays_closed_accept k0 s :
  stays_closed s (set_socks (socks s ++ [k0]) s).
Proof.
  intros w k Hk Ho. exists k. cbn [socks set_socks].
  rewrite lookup_app_l by (apply lookup_lt_is_Some; eexists; exact Hk).
  auto.
Qed.

Lemma stays_closed_leave ws rs s :
  is_open rs = false -> stays_closed s (snd (set_readyState ws rs s)).
Proof.
  intros Hrs w k Hk Ho. unfold set_readyState, modify.
  cbn [snd socks set_socks].
  destruct (decide (ws = w)) as [-> | Hne].
  - rewrite list_lookup_alter_eq, Hk. cbn. eexists. split; [reflexivity |].
    split; [exact Hrs | reflexivity].
  - rewrite list_lookup_alter_ne by exact Hne. exists k. auto.
Qed.

(** X8. Nothing is ever sent on a socket that is not OPEN. In a turn
    of the event loop, whatever the event, a socket that is not OPEN when
    the turn starts (connecting, closing or closed) is sent nothing: every
    send is behind the [readyState] guard of [sendControl] and
    [sendData], so [send] is never called on a socket on which it would
    throw. Over any run of events, a socket that is closing or closed has
    been sent, at the end, exactly what it had been sent at the start. *)
Theorem X8_nothing_sent_unless_open :
  forall s w k,
    socks s !! w = Some k ->
    (is_open (readyState k) = false ->
     forall e, sent (snd (step e s)) w = sent s w)
    /\ (readyState k = CLOSING \/ readyState k = CLOSED ->
        forall es, sent (exec es s) w = sent s w).
Proof.
  intros s w k Hk. split.
  - intros Ho e.
    destruct (step_related stays_closed stays_closed_same
                stays_closed_delivered stays_closed_accept stays_closed_leave
                e s w k Hk Ho) as (k' & Hk' & _ & Hs').
    unfold sent. rewrite Hk, Hk'. exact Hs'.
  - intros Hrs es.
    assert (is_open (readyState k) = false) as Ho
      by (destruct Hrs as [-> | ->]; reflexivity).
    destruct (run_related stays_closed stays_closed_same
                stays_closed_delivered stays_closed_accept stays_closed_leave
                es s w k Hk Ho) as (k' & Hk' & _ & Hs').
    fold (exec es s) in Hk'.
    unfold sent. rewrite Hk, Hk'. exact Hs'.
Qed.

(** The only client loses its connection; the process then prints, the
    watched directory changes, and the process exits. *)
Lemma X8_witness :
  let es := [EvPtyData 0 (lit "hi"); EvWatch (Some (lit "a.md")); EvTimer;
             EvPtyExit 0] in
  let s := snd (step (EvClosing 0) running_state) in
  sent (exec es s) 0 = sent running_state 0.
Proof.
  intros es s.
  assert (socks s !! 0%nat
          = Some (mkSocket CLOSING [control_frame "session-inactive";
                                    control_frame "session-active"])) as Hk
    by (vm_compute; reflexivity).
  destruct (X8_nothing_sent_unless_open s 0%nat _ Hk) as (_ & H).
  rewrite (H (or_introl eq_refl) es). vm_compute. reflexivity.
Defined.

End Routing.

(** ** The file watcher and its debounce timer *)

Section Watcher.
Import Utf8 Json Eff Server.

Lemma exec_app es1 es2 s : exec (es1 ++ es2) s = exec es2 (exec es1 s).
Proof.
  revert s. induction es1 as [| e es1 IH]; intros s; [reflexivity |].
  cbn [app]. rewrite !exec_cons. apply IH.
Qed.

Lemma exec_watch_ignored fs : forall s,
  Forall (fun g => is_markdown g = false) fs ->
  exec (map EvWatch fs) s = s.
Proof.
  induction fs as [| g fs IH]; intros s Hfs; [reflexivity |].
  cbn [map]. rewrite exec_cons, step_watch_eq, (Forall_inv Hfs). cbn [snd].
  apply IH, (Forall_inv_tail Hfs).
Qed.

Lemma exec_watch_last pre f post : forall s,
  is_markdown (Some f) = true ->
  Forall (fun g => is_markdown g = false) post ->
  exec (map EvWatch (pre ++ Some f :: post)) s
  = set_fileChangeTimer (Some f) s.
Proof.
  induction pre as [| g pre IH]; intros s Hf Hpost.
  - cbn [app map]. rewrite exec_cons, step_watch_eq, Hf. cbn [snd].
    apply exec_watch_ignored, Hpost.
  - cbn [app map]. rewrite exec_cons, step_watch_eq. cbn [snd].
    destruct (is_markdown g); rewrite (IH _ Hf Hpost); reflexivity.
Qed.

Lemma is_markdown_suffix f :
  is_markdown (Some f) = true <-> exists stem, f = stem ++ lit ".md".
Proof.
  unfold is_markdown, endsWith. split.
  - intros H. apply negb_true_iff, orb_false_iff in H as [_ H].
    apply negb_false_iff, bool_decide_eq_true in H.
    exists (take (length f - length (lit ".md")) f).
    pose proof (take_drop (length f - length (lit ".md")) f) as Htd.
    rewrite H in Htd. symmetry. exact Htd.
  - intros [stem ->].
    apply negb_true_iff, orb_false_iff. split.
    + destruct stem; reflexivity.
    + apply negb_false_iff, bool_decide_eq_true.
      rewrite length_app, Nat.add_sub. apply drop_app_length.
Qed.

Lemma relative_path_no_backslash f : Forall (fun c => c <> 92) (relative_path f).
Proof.
  unfold relative_path. apply Forall_map, Forall_forall. intros c _. cbn.
  destruct (Z.eqb_spec c 92); [discriminate | assumption].
Qed.

Lemma relative_path_id f : Forall (fun c => c <> 92) f -> relative_path f = f.
Proof.
  unfold relative_path. induction 1 as [| c f Hc _ IH]; [reflexivity |].
  cbn [map]. rewrite IH. destruct (Z.eqb_spec c 92); [contradiction |].
  reflexivity.
Qed.

(** X9. The watcher ignores a change without a file name and a file
    name that does not end in [.md]: the state stays as it is. A burst of
    changes is answered once: when the debounce timer fires after the
    burst, one [file-changed] control frame is sent to the active
    connection, if it is open, for the last [.md] name of the burst, and
    no other socket is sent anything; during the burst nothing is sent.
    Without an open active connection the notification is lost, not
    kept for a later connection; after the timer fired no callback is
    pending. In the path that is reported every backslash has become a
    slash, and a path without backslashes is reported as it is. *)
Theorem X9_watcher_debounce :
  forall s : State,
    (forall fs, Forall (fun g => is_markdown g = false) fs ->
                exec (map EvWatch fs) s = s)
    /\ (forall f, is_markdown (Some f) = true
                  <-> exists stem, f = stem ++ lit ".md")
    /\ (forall f, Forall (fun c => c <> 92) (relative_path f)
                  /\ (Forall (fun c => c <> 92) f -> relative_path f = f))
    /\ (forall pre f post,
          is_markdown (Some f) = true ->
          Forall (fun g => is_markdown g = false) post ->
          let burst := map EvWatch (pre ++ Some f :: post) in
          let s2 := exec (burst ++ [EvTimer]) s in
          exec burst s = set_fileChangeTimer (Some f) s
          /\ s2 = match activeWs s with
                  | Some a => delivered a (file_changed_frame f)
                                (set_fileChangeTimer None s)
                  | None => set_fileChangeTimer None s
                  end
          /\ (forall a, activeWs s = Some a -> open_in s a = true ->
                        sent s2 a = sent s a ++ [file_changed_frame f])
          /\ (forall w, activeWs s <> Some w -> sent s2 w = sent s w)
          /\ (forall w, open_in s w = false -> sent s2 w = sent s w)
          /\ fileChangeTimer s2 = None).
Proof.
  intros s. split; [intros fs Hfs; apply exec_watch_ignored, Hfs |].
  split; [apply is_markdown_suffix |].
  split; [intros f; split;
          [apply relative_path_no_backslash | apply relative_path_id] |].
  intros pre f post Hf Hpost burst s2.
  assert (exec burst s = set_fileChangeTimer (Some f) s) as H1
    by apply (exec_watch_last pre f post s Hf Hpost).
  assert (s2 = match activeWs s with
               | Some a => delivered a (file_changed_frame f)
                             (set_fileChangeTimer None s)
               | None => set_fileChangeTimer None s
               end) as H2.
  { unfold s2. rewrite exec_app, H1, exec_cons, exec_nil, step_timer_eq.
    reflexivity. }
  split; [exact H1 |]. split; [exact H2 |]. rewrite H2.
  split; [| split; [| split]].
  - intros a Ha Ho. rewrite Ha.
    rewrite sent_delivered_same; [reflexivity | exact Ho].
  - intros w Hw. destruct (activeWs s) as [a |]; [| reflexivity].
    rewrite sent_delivered_other by congruence. reflexivity.
  - intros w Hw. destruct (activeWs s) as [a |]; [| reflexivity].
    rewrite sent_delivered.
    change (open_in (set_fileChangeTimer None s) a) with (open_in s a).
    destruct (decide (w = a)) as [-> | Hne].
    + rewrite Hw. reflexivity.
    + rewrite (bool_decide_eq_false_2 _ Hne), andb_false_r. reflexivity.
  - destruct (activeWs s) as [a |];
      [rewrite delivered_timer |]; reflexivity.
Qed.

(** An editor saves [notes\plan.md] on a Windows host: three events,
    one notification, with [notes/plan.md] as the path. *)
Lemma X9_witness :
  let burst := map EvWatch [Some (lit "notes\plan.md"); Some (lit ".swp");
                            Some (lit "notes\plan.md"); None] in
  sent (exec (burst ++ [EvTimer]) running_state) 0
  = sent running_state 0
    ++ [file_changed_frame (lit "notes/plan.md")].
Proof.
  intros burst.
  assert (is_markdown (Some (lit "notes\plan.md")) = true) as Hf
    by (vm_compute; reflexivity).
  assert (Forall (fun g => is_markdown g = false) [None]) as Hpost
    by (apply List.Forall_cons; [reflexivity | apply List.Forall_nil]).
  assert (activeWs running_state = Some 0%nat) as Ha
    by (vm_compute; reflexivity).
  assert (open_in running_state 0 = true) as Ho by (vm_compute; reflexivity).
  destruct (X9_watcher_debounce running_state) as (_ & _ & _ & H).
  destruct (H [Some (lit "notes\plan.md"); Some (lit ".swp")]
              (lit "notes\plan.md") [None] Hf Hpost)
    as (_ & _ & Hs & _).
  exact (Hs 0%nat Ha Ho).
Defined.

End Watcher.

(** ** Every run of the server *)

Section ServerRuns.
Import Utf8 Json Eff Server.

(** X10. No handler of the server lets an exception escape, whatever
    the events and their order: every run of the event loop goes through
    to its end, from any state. The only statements that can throw, the
    parse of a control payload and the spawn, run inside a [try], and
    [send] is only called on an OPEN socket. *)
Theorem X10_no_handler_throws :
  forall (es : list Event) (s : State),
    fst (run es s) = Ok tt
    /\ exec es s = fold_left (fun s e => snd (step e s)) es s.
Proof.
  intros es s. split; [apply safe_unit, run_safe |].
  revert s. induction es as [| e es IH]; intros s; [reflexivity |].
  rewrite exec_cons. cbn [fold_left]. apply IH.
Qed.

(** X11. In every state the server reaches from its start, the session
    (when there is one) is a handle that was spawned, was not sent the
    kill and whose exit was not reported: [close] and the exit callback
    clear [currentPty] in the same turn in which they kill the process or
    learn of its exit. *)
Theorem X11_session_is_alive :
  forall (es : list Event) (h : nat),
    currentPty (exec es initial) = Some h ->
    exists p, ptys (exec es initial) !! h = Some p
              /\ killed p = false /\ exited p = false.
Proof.
  intros es h Hh. apply (session_alive_reachable es h Hh).
Qed.

Lemma X11_witness :
  exists p, ptys running_state !! 0%nat = Some p
            /\ killed p = false /\ exited p = false.
Proof.
  apply (X11_session_is_alive
           [EvConnection OPEN;
            EvMessage 0 (control_frame "start") (Spawned 4242)] 0%nat).
  vm_compute. reflexivity.
Defined.

(** X24. Stopping is idempotent. A [close] request with no session
    kills nothing and changes nothing but for its reply: the requester is
    answered [session-inactive]. So of two [close] requests in a row the
    second finds no session, whatever the state before the first: it
    leaves every process as the first left it and only adds its reply;
    each request is answered, and no other socket is sent anything. *)
Theorem X24_close_is_idempotent :
  forall ws raw o o' s,
    carries raw "close" ->
    let s1 := snd (onMessage ws raw o s) in
    let s2 := snd (onMessage ws raw o' s1) in
    (currentPty s = None ->
     onMessage ws raw o s
     = (Ok tt, delivered ws (control_frame "session-inactive") s))
    /\ currentPty s1 = None
    /\ s2 = delivered ws (control_frame "session-inactive") s1
    /\ ptys s2 = ptys s1
    /\ (open_in s ws = true ->
        sent s2 ws = sent s ws ++ [control_frame "session-inactive";
                                   control_frame "session-inactive"])
    /\ (forall w, w <> ws -> sent s2 w = sent s w).
Proof.
  intros ws raw o o' s Hraw s1 s2.
  assert (forall o0 s0, currentPty s0 = None ->
            onMessage ws raw o0 s0
            = (Ok tt, delivered ws (control_frame "session-inactive") s0))
    as Hnone.
  { intros o0 s0 Hn. rewrite (onMessage_close ws raw o0 s0 Hraw).
    rewrite killSession_eq, Hn. reflexivity. }
  assert (s1 = delivered ws (control_frame "session-inactive")
                 (snd (killSession s))) as Hs1
    by (unfold s1; rewrite (onMessage_close ws raw o s Hraw); reflexivity).
  assert (currentPty s1 = None) as Hc1.
  { rewrite Hs1, delivered_currentPty, killSession_eq. cbn [snd].
    destruct (currentPty s) eqn:Hc; [reflexivity | exact Hc]. }
  assert (s2 = delivered ws (control_frame "session-inactive") s1) as Hs2
    by (unfold s2; rewrite (Hnone o' s1 Hc1); reflexivity).
  assert (forall w, sent (snd (killSession s)) w = sent s w) as Hk.
  { intros w. rewrite killSession_eq. cbn [snd].
    destruct (currentPty s); reflexivity. }
  assert (open_in (snd (killSession s)) ws = open_in s ws) as Hko.
  { rewrite killSession_eq. cbn [snd]. destruct (currentPty s); reflexivity. }
  split; [apply Hnone |]. split; [exact Hc1 |]. split; [exact Hs2 |].
  split; [rewrite Hs2; apply delivered_ptys |]. split.
  - intros Ho. rewrite Hs2, sent_delivered_same.
    + rewrite Hs1, sent_delivered_same by (rewrite Hko; exact Ho).
      rewrite Hk, <- app_assoc. reflexivity.
    + rewrite Hs1, open_in_delivered, Hko. exact Ho.
  - intros w Hw. rewrite Hs2, sent_delivered_other by exact Hw.
    rewrite Hs1, sent_delivered_other by exact Hw. apply Hk.
Qed.

(** The running session is closed twice. *)
Lemma X24_witness :
  let s1 := snd (onMessage 0 (control_frame "close") SpawnThrows
                   running_state) in
  let s2 := snd (onMessage 0 (control_frame "close") SpawnThrows s1) in
  currentPty s1 = None
  /\ ptys s2 = [kill_sent (fresh_pty 4242)]
  /\ sent s2 0 = sent running_state 0
                 ++ [control_frame "session-inactive";
                     control_frame "session-inactive"].
Proof.
  intros s1 s2.
  assert (carries (control_frame "close") "close") as Hc.
  { exists (JObj [(lit "type", JStr (lit "close"))]).
    split; vm_compute; reflexivity. }
  assert (open_in running_state 0 = true) as Ho by (vm_compute; reflexivity).
  destruct (X24_close_is_idempotent 0 (control_frame "close") SpawnThrows
              SpawnThrows running_state Hc)
    as (_ & H1 & _ & H2 & H3 & _).
  split; [exact H1 |]. split; [| exact (H3 Ho)].
  fold s1 s2 in H2. rewrite H2. vm_compute. reflexivity.
Defined.

End ServerRuns.

(** ** [JSON.parse] undoes [JSON.stringify] *)

Section JsonRoundTrip.
Import Utf8 Json.

Lemma hex_value_hex_digit d :
  0 <= d < 16 -> hex_value (hex_digit d) = Some d.
Proof.
  intros Hd. unfold hex_value, hex_digit.
  destruct (Z.ltb_spec d 10).
  - rewrite between_true by lia. f_equal. lia.
  - rewrite between_false by lia. rewrite between_true by lia. f_equal. lia.
Qed.

Lemma hex4_escape c :
  0 <= c < 65536 ->
  hex4 (hex_digit (c / 4096 mod 16)) (hex_digit (c / 256 mod 16))
       (hex_digit (c / 16 mod 16)) (hex_digit (c mod 16)) = Some c.
Proof.
  intros Hc. unfold hex4.
  rewrite !hex_value_hex_digit by (apply Z.mod_pos_bound; lia).
  f_equal. Z.div_mod_to_equations. lia.
Qed.

Lemma parse_chars_quote_char c rest acc :
  0 <= c ->
  parse_chars (quote_char c ++ rest) acc = parse_chars rest (c :: acc).
Proof.
  intros Hc. unfold quote_char.
  destruct (Z.eqb_spec c 8) as [-> | H8]; [reflexivity |].
  destruct (Z.eqb_spec c 9) as [-> | H9]; [reflexivity |].
  destruct (Z.eqb_spec c 10) as [-> | H10]; [reflexivity |].
  destruct (Z.eqb_spec c 12) as [-> | H12]; [reflexivity |].
  destruct (Z.eqb_spec c 13) as [-> | H13]; [reflexivity |].
  destruct (Z.eqb_spec c 34) as [-> | H34]; [reflexivity |].
  destruct (Z.eqb_spec c 92) as [-> | H92]; [reflexivity |].
  destruct ((c <? 32) || is_surrogate c) eqn:He.
  - assert (0 <= c < 65536) as Hr.
    { apply orb_true_iff in He as [He | He].
      - apply Z.ltb_lt in He. lia.
      - unfold is_surrogate in He. apply andb_true_iff in He as [_ He].
        apply Z.leb_le in He. lia. }
    unfold unicode_escape. cbn [app parse_chars].
    change (92 =? 34) with false. change (92 =? 92) with true.
    change (117 =? 34) with false. change (117 =? 92) with false.
    change (117 =? 47) with false. change (117 =? 98) with false.
    change (117 =? 102) with false. change (117 =? 110) with false.
    change (117 =? 114) with false. change (117 =? 116) with false.
    change (117 =? 117) with true. cbv beta iota.
    rewrite (hex4_escape c Hr). reflexivity.
  - apply orb_false_iff in He as [He _]. cbn [app parse_chars].
    rewrite (proj2 (Z.eqb_neq c 34) H34), (proj2 (Z.eqb_neq c 92) H92), He.
    reflexivity.
Qed.

Lemma parse_chars_quote s : forall rest acc,
  Forall (fun c => 0 <= c) s ->
  parse_chars (flat_map quote_char s ++ 34 :: rest) acc
  = Some (rev acc ++ s, rest).
Proof.
  induction s as [| c s IH]; intros rest acc Hs.
  - cbn. rewrite app_nil_r. reflexivity.
  - cbn [flat_map]. rewrite <- app_assoc.
    rewrite parse_chars_quote_char by (apply (Forall_inv Hs)).
    rewrite IH by (apply (Forall_inv_tail Hs)).
    cbn [rev]. rewrite <- app_assoc. reflexivity.
Qed.

Lemma pair_surrogates_scalar s : Forall scalar s -> pair_surrogates s = s.
Proof.
  induction 1 as [| c s Hc Hs IH]; [reflexivity |].
  cbn [pair_surrogates]. destruct s as [| l r]; [reflexivity |].
  destruct Hc as [Hr Hn].
  assert (between 0xD800 0xDBFF c = false) as ->.
  { unfold is_surrogate in Hn. unfold between.
    destruct (Z.leb_spec 0xD800 c); [| reflexivity].
    destruct (Z.leb_spec c 0xDFFF); [discriminate |].
    cbn. apply Z.leb_gt. lia. }
  cbn [andb]. rewrite IH. reflexivity.
Qed.

Lemma scalar_nonneg s : Forall scalar s -> Forall (fun c => 0 <= c) s.
Proof.
  intros H. eapply Forall_impl; [exact H |]. intros c [Hc _]. cbn. lia.
Qed.

Lemma parse_string_quote s rest :
  Forall scalar s ->
  parse_string (flat_map quote_char s ++ 34 :: rest) = Some (s, rest).
Proof.
  intros Hs. unfold parse_string.
  rewrite parse_chars_quote by (apply scalar_nonneg, Hs).
  cbn [rev app]. rewrite pair_surrogates_scalar by exact Hs. reflexivity.
Qed.

Lemma ascii_scalar c : 0 <= c < 128 -> scalar c.
Proof.
  intros Hc. split; [lia |]. unfold is_surrogate.
  destruct (Z.leb_spec 0xD800 c); [lia | reflexivity].
Qed.

Lemma hex_digit_scalar d : 0 <= d < 16 -> scalar (hex_digit d).
Proof.
  intros Hd. apply ascii_scalar. unfold hex_digit.
  destruct (d <? 10); lia.
Qed.

Lemma quote_char_scalar c : scalar c -> Forall scalar (quote_char c).
Proof.
  intros Hc. unfold quote_char.
  repeat lazymatch goal with
         | |- Forall _ (if ?b then _ else _) => destruct b
         end;
    try (repeat apply List.Forall_cons; try apply List.Forall_nil;
         try (apply ascii_scalar; lia); exact Hc).
  unfold unicode_escape.
  repeat apply List.Forall_cons; try apply List.Forall_nil;
    try (apply ascii_scalar; lia);
    apply hex_digit_scalar, Z.mod_pos_bound; lia.
Qed.

Lemma quote_scalar s : Forall scalar s -> Forall scalar (quote s).
Proof.
  intros Hs. unfold quote. apply Forall_app. split.
  - apply List.Forall_cons; [apply ascii_scalar; lia | apply List.Forall_nil].
  - apply Forall_app. split.
    + induction Hs as [| c s Hc _ IH]; [apply List.Forall_nil |].
      cbn [flat_map]. apply Forall_app. split;
        [apply quote_char_scalar, Hc | exact IH].
    + apply List.Forall_cons; [apply ascii_scalar; lia | apply List.Forall_nil].
Qed.

Lemma uint_digits_scalar u : Forall scalar (uint_digits u).
Proof.
  induction u; cbn [uint_digits]; try apply List.Forall_nil;
    (apply List.Forall_cons; [apply ascii_scalar; lia | assumption]).
Qed.

Lemma int_digits_scalar n : Forall scalar (int_digits n).
Proof.
  unfold int_digits. destruct (Z.to_int n).
  - apply uint_digits_scalar.
  - apply List.Forall_cons; [apply ascii_scalar; lia |].
    apply uint_digits_scalar.
Qed.

Lemma stringify_field_scalar f :
  well_formed_field f -> Forall scalar (stringify_field f).
Proof.
  destruct f as [s | n]; cbn [well_formed_field stringify_field].
  - apply quote_scalar.
  - intros _. apply int_digits_scalar.
Qed.

Lemma stringify_members_scalar o :
  well_formed o -> Forall scalar (stringify_members o).
Proof.
  induction 1 as [| [k f] o [Hk Hf] Ho IH]; [apply List.Forall_nil |].
  cbn [fst snd] in Hk, Hf. cbn [stringify_members].
  assert (Forall scalar [58]) as H58
    by (apply List.Forall_cons; [apply ascii_scalar; lia | apply List.Forall_nil]).
  assert (Forall scalar [44]) as H44
    by (apply List.Forall_cons; [apply ascii_scalar; lia | apply List.Forall_nil]).
  destruct o as [| m o].
  - apply Forall_app. split; [apply quote_scalar, Hk |].
    apply Forall_app. split; [exact H58 |].
    apply stringify_field_scalar, Hf.
  - apply Forall_app. split; [apply quote_scalar, Hk |].
    apply Forall_app. split; [exact H58 |].
    apply Forall_app. split; [apply stringify_field_scalar, Hf |].
    apply Forall_app. split; [exact H44 | exact IH].
Qed.

Lemma JSON_stringify_scalar o :
  well_formed o -> Forall scalar (JSON_stringify o).
Proof.
  intros Ho. unfold JSON_stringify.
  apply Forall_app. split;
    [apply List.Forall_cons; [apply ascii_scalar; lia | apply List.Forall_nil] |].
  apply Forall_app. split; [apply stringify_members_scalar, Ho |].
  apply List.Forall_cons; [apply ascii_scalar; lia | apply List.Forall_nil].
Qed.

Lemma ends_value_inv rest :
  ends_value rest -> exists c r, rest = c :: r /\ (c = 44 \/ c = 125).
Proof.
  unfold ends_value, head_is. destruct rest as [| c r].
  - intros [H | H]; discriminate.
  - intros [H | H]; apply Z.eqb_eq in H; exists c, r; auto.
Qed.

Lemma parse_digits_acc u : forall acc n c r,
  is_digit c = false ->
  exists n', parse_digits (uint_digits u ++ c :: r) (Z.pos acc) n
             = (Z.pos (Pos.of_uint_acc u acc), n', c :: r).
Proof.
  induction u as [| u IH | u IH | u IH | u IH | u IH | u IH | u IH | u IH
                  | u IH | u IH]; intros acc n c r Hc;
    cbn [uint_digits app parse_digits Pos.of_uint_acc].
  - rewrite Hc. eauto.
  - change (is_digit 48) with true. cbv beta iota.
    replace (10 * Z.pos acc + (48 - 48)) with (Z.pos (10 * acc)) by lia.
    apply IH, Hc.
  - change (is_digit 49) with true. cbv beta iota.
    replace (10 * Z.pos acc + (49 - 48)) with (Z.pos (1 + 10 * acc)) by lia.
    apply IH, Hc.
  - change (is_digit 50) with true. cbv beta iota.
    replace (10 * Z.pos acc + (50 - 48)) with (Z.pos (2 + 10 * acc)) by lia.
    apply IH, Hc.
  - change (is_digit 51) with true. cbv beta iota.
    replace (10 * Z.pos acc + (51 - 48)) with (Z.pos (3 + 10 * acc)) by lia.
    apply IH, Hc.
  - change (is_digit 52) with true. cbv beta iota.
    replace (10 * Z.pos acc + (52 - 48)) with (Z.pos (4 + 10 * acc)) by lia.
    apply IH, Hc.
  - change (is_digit 53) with true. cbv beta iota.
    replace (10 * Z.pos acc + (53 - 48)) with (Z.pos (5 + 10 * acc)) by lia.
    apply IH, Hc.
  - change (is_digit 54) with true. cbv beta iota.
    replace (10 * Z.pos acc + (54 - 48)) with (Z.pos (6 + 10 * acc)) by lia.
    apply IH, Hc.
  - change (is_digit 55) with true. cbv beta iota.
    replace (10 * Z.pos acc + (55 - 48)) with (Z.pos (7 + 10 * acc)) by lia.
    apply IH, Hc.
  - change (is_digit 56) with true. cbv beta iota.
    replace (10 * Z.pos acc + (56 - 48)) with (Z.pos (8 + 10 * acc)) by lia.
    apply IH, Hc.
  - change (is_digit 57) with true. cbv beta iota.
    replace (10 * Z.pos acc + (57 - 48)) with (Z.pos (9 + 10 * acc)) by lia.
    apply IH, Hc.
Qed.

(** The decimal digits of a positive number start with a digit that is
    not zero, and read back as the number. *)
Lemma parse_digits_pos p c r :
  is_digit c = false ->
  exists d ds n',
    uint_digits (Pos.to_uint p) = d :: ds
    /\ is_digit d = true /\ d <> 48
    /\ parse_digits (d :: ds ++ c :: r) 0 0 = (Z.pos p, n', c :: r).
Proof.
  intros Hc.
  pose proof (DecimalPos.Unsigned.of_to p) as Hof.
  pose proof (DecimalPos.Unsigned.to_of (Pos.to_uint p)) as Hto.
  rewrite Hof in Hto. cbn [N.to_uint] in Hto.
  pose proof (DecimalPos.Unsigned.to_uint_nonzero p) as Hnz.
  destruct (Pos.to_uint p) as [| u | u | u | u | u | u | u | u | u | u]
    eqn:Hu.
  - discriminate.
  - exfalso. unfold Decimal.unorm in Hto.
    destruct (Decimal.nzhead (Decimal.D0 u)) eqn:Hh; try discriminate.
    + apply Hnz. exact Hto.
    + apply (DecimalFacts.nzhead_nonzero (Decimal.D0 u) u0). exact Hh.
  - cbn [Pos.of_uint] in Hof. injection Hof as Hof.
    destruct (parse_digits_acc u 1 1 c r Hc) as [n' Hn'].
    exists 49, (uint_digits u), n'. rewrite <- Hof.
    split; [reflexivity |]. split; [reflexivity |]. split; [lia |].
    exact Hn'.
  - cbn [Pos.of_uint] in Hof. injection Hof as Hof.
    destruct (parse_digits_acc u 2 1 c r Hc) as [n' Hn'].
    exists 50, (uint_digits u), n'. rewrite <- Hof.
    split; [reflexivity |]. split; [reflexivity |]. split; [lia |].
    exact Hn'.
  - cbn [Pos.of_uint] in Hof. injection Hof as Hof.
    destruct (parse_digits_acc u 3 1 c r Hc) as [n' Hn'].
    exists 51, (uint_digits u), n'. rewrite <- Hof.
    split; [reflexivity |]. split; [reflexivity |]. split; [lia |].
    exact Hn'.
  - cbn [Pos.of_uint] in Hof. injection Hof as Hof.
    destruct (parse_digits_acc u 4 1 c r Hc) as [n' Hn'].
    exists 52, (uint_digits u), n'. rewrite <- Hof.
    split; [reflexivity |]. split; [reflexivity |]. split; [lia |].
    exact Hn'.
  - cbn [Pos.of_uint] in Hof. injection Hof as Hof.
    destruct (parse_digits_acc u 5 1 c r Hc) as [n' Hn'].
    exists 53, (uint_digits u), n'. rewrite <- Hof.
    split; [reflexivity |]. split; [reflexivity |]. split; [lia |].
    exact Hn'.
  - cbn [Pos.of_uint] in Hof. injection Hof as Hof.
    destruct (parse_digits_acc u 6 1 c r Hc) as [n' Hn'].
    exists 54, (uint_digits u), n'. rewrite <- Hof.
    split; [reflexivity |]. split; [reflexivity |]. split; [lia |].
    exact Hn'.
  - cbn [Pos.of_uint] in Hof. injection Hof as Hof.
    destruct (parse_digits_acc u 7 1 c r Hc) as [n' Hn'].
    exists 55, (uint_digits u), n'. rewrite <- Hof.
    split; [reflexivity |]. split; [reflexivity |]. split; [lia |].
    exact Hn'.
  - cbn [Pos.of_uint] in Hof. injection Hof as Hof.
    destruct (parse_digits_acc u 8 1 c r Hc) as [n' Hn'].
    exists 56, (uint_digits u), n'. rewrite <- Hof.
    split; [reflexivity |]. split; [reflexivity |]. split; [lia |].
    exact Hn'.
  - cbn [Pos.of_uint] in Hof. injection Hof as Hof.
    destruct (parse_digits_acc u 9 1 c r Hc) as [n' Hn'].
    exists 57, (uint_digits u), n'. rewrite <- Hof.
    split; [reflexivity |]. split; [reflexivity |]. split; [lia |].
    exact Hn'.
Qed.

Lemma binary64_of_decimal_int neg p :
  binary64_of_decimal neg (Z.pos p) (0 - 0)
  = binary64_of_Z (if neg then Z.neg p else Z.pos p).
Proof.
  unfold binary64_of_decimal, binary64_of_Z, binary_normalize.
  change (Z.pos p =? 0) with false. change (0 <=? 0 - 0) with true.
  cbv beta iota. change (10 ^ (0 - 0)) with 1. rewrite Z.mul_1_r.
  cbn [Z.to_pos]. destruct neg; reflexivity.
Qed.

(** An integer in decimal digits reads back as the binary64 nearest to
    it. *)
Lemma parse_number_int n rest :
  ends_value rest ->
  parse_number (int_digits n ++ rest) = Some (binary64_of_Z n, rest).
Proof.
  intros Hend. destruct (ends_value_inv rest Hend) as (c & r & -> & Hc).
  assert (is_digit c = false) as Hd by (destruct Hc as [-> | ->]; reflexivity).
  assert (head_is 46 (c :: r) = false) as H46
    by (destruct Hc as [-> | ->]; reflexivity).
  assert ((c =? 101) || (c =? 69) = false) as He
    by (destruct Hc as [-> | ->]; reflexivity).
  assert (parse_fraction (c :: r) = fun m => Some (m, 0, c :: r)) as Hfrac.
  { unfold parse_fraction. rewrite H46. reflexivity. }
  assert (parse_exponent (c :: r) = Some (0, c :: r)) as Hexp.
  { unfold parse_exponent. rewrite He. reflexivity. }
  unfold int_digits. destruct n as [| p | p]; cbn [Z.to_int].
  - cbn [uint_digits app]. unfold parse_number.
    cbn [head_is tl]. change (48 =? 45) with false. cbv beta iota.
    change (48 =? 48) with true. cbv beta iota.
    rewrite Hfrac, Hexp. reflexivity.
  - destruct (parse_digits_pos p c r Hd) as (d & ds & n' & -> & Hdd & Hd0 & Hp).
    cbn [app]. unfold parse_number. cbn [head_is tl].
    assert ((d =? 45) = false) as ->.
    { apply Z.eqb_neq. intros ->. discriminate. }
    cbv beta iota. rewrite (proj2 (Z.eqb_neq d 48) Hd0), Hdd, Hp.
    rewrite Hfrac, Hexp. rewrite binary64_of_decimal_int. reflexivity.
  - destruct (parse_digits_pos p c r Hd) as (d & ds & n' & -> & Hdd & Hd0 & Hp).
    cbn [app]. unfold parse_number. cbn [head_is tl].
    change (45 =? 45) with true. cbv beta iota.
    rewrite (proj2 (Z.eqb_neq d 48) Hd0), Hdd, Hp.
    rewrite Hfrac, Hexp. rewrite binary64_of_decimal_int. reflexivity.
Qed.

Lemma int_digits_head n :
  exists d ds, int_digits n = d :: ds /\ (d = 45 \/ is_digit d = true).
Proof.
  unfold int_digits. destruct n as [| p | p]; cbn [Z.to_int].
  - exists 48, []. split; [reflexivity | right; reflexivity].
  - destruct (parse_digits_pos p 44 [] eq_refl)
      as (d & ds & _ & -> & Hd & _).
    exists d, ds. auto.
  - exists 45, (uint_digits (Pos.to_uint p)). auto.
Qed.

(** More fuel never changes a result. *)
Lemma parse_fuel_S f :
  (forall s r, parse_value f s = Some r -> parse_value (S f) s = Some r)
  /\ (forall s acc r, parse_members f s acc = Some r ->
                      parse_members (S f) s acc = Some r)
  /\ (forall s acc r, parse_elements f s acc = Some r ->
                      parse_elements (S f) s acc = Some r).
Proof.
  induction f as [| f (IHv & IHm & IHe)].
  - split; [| split]; intros; discriminate.
  - split; [| split].
    + intros s r. cbn [parse_value].
      destruct (skip_ws s) as [| c r0]; [discriminate |].
      destruct (c =? 123).
      { destruct (head_is 125 (skip_ws r0)); [auto |]. apply IHm. }
      destruct (c =? 91).
      { destruct (head_is 93 (skip_ws r0)); [auto |]. apply IHe. }
      auto.
    + intros s acc r. cbn [parse_members].
      destruct (skip_ws s) as [| q r0]; [discriminate |].
      destruct (negb (q =? 34)); [discriminate |].
      destruct (parse_string r0) as [[k r1] |]; [| discriminate].
      cbv zeta. destruct (negb (head_is 58 (skip_ws r1))); [discriminate |].
      destruct (parse_value f (tl (skip_ws r1))) as [[v r3] |] eqn:Hv;
        [| discriminate].
      rewrite (IHv _ _ Hv).
      destruct (head_is 44 (skip_ws r3)); [apply IHm |]. auto.
    + intros s acc r. cbn [parse_elements].
      destruct (parse_value f s) as [[v r1] |] eqn:Hv; [| discriminate].
      rewrite (IHv _ _ Hv). cbv zeta.
      destruct (head_is 44 (skip_ws r1)); [apply IHe |]. auto.
Qed.

Lemma parse_value_more f f' s r :
  (f <= f')%nat -> parse_value f s = Some r -> parse_value f' s = Some r.
Proof.
  induction 1 as [| f' _ IH]; [auto |].
  intros H. apply (proj1 (parse_fuel_S f')), IH, H.
Qed.

Lemma is_digit_inv d : is_digit d = true -> 48 <= d <= 57.
Proof.
  unfold is_digit, between. intros H. apply andb_true_iff in H as [H1 H2].
  apply Z.leb_le in H1, H2. lia.
Qed.

Lemma parse_value_field f fld rest :
  well_formed_field fld -> ends_value rest ->
  parse_value (S f) (stringify_field fld ++ rest)
  = Some (value_of_field fld, rest).
Proof.
  intros Hwf Hend. destruct fld as [s | n];
    cbn [stringify_field value_of_field well_formed_field] in *.
  - unfold quote. rewrite <- !app_assoc. cbn [app parse_value skip_ws].
    change (is_ws 34) with false. cbv beta iota.
    change (34 =? 123) with false. change (34 =? 91) with false.
    change (34 =? 34) with true. cbv beta iota.
    rewrite parse_string_quote by exact Hwf. reflexivity.
  - pose proof (parse_number_int n rest Hend) as Hn.
    destruct (int_digits_head n) as (d & ds & Hds & Hd).
    rewrite Hds in *. cbn [app] in *. cbn [parse_value skip_ws].
    assert (d = 45 \/ 48 <= d <= 57) as Hr
      by (destruct Hd as [-> | Hd]; [left; reflexivity |
                                     right; apply is_digit_inv, Hd]).
    assert (is_ws d = false) as ->.
    { unfold is_ws.
      rewrite !(proj2 (Z.eqb_neq _ _)) by lia. reflexivity. }
    cbv beta iota.
    rewrite !(proj2 (Z.eqb_neq d _)) by lia. cbv beta iota.
    rewrite Hn. reflexivity.
Qed.

Lemma parse_value_field' f fld rest :
  (1 <= f)%nat -> well_formed_field fld -> ends_value rest ->
  parse_value f (stringify_field fld ++ rest)
  = Some (value_of_field fld, rest).
Proof.
  intros Hf. destruct f as [| f]; [lia |]. apply parse_value_field.
Qed.

Lemma parse_members_stringify o : forall k0 f0 f acc rest,
  well_formed ((k0, f0) :: o) ->
  (length o < f)%nat ->
  parse_members (S f) (stringify_members ((k0, f0) :: o) ++ 125 :: rest) acc
  = Some (JObj (acc ++ map (fun kf => (fst kf, value_of_field (snd kf)))
                           ((k0, f0) :: o)), rest).
Proof.
  induction o as [| [k1 f1] o IH]; intros k0 f0 f acc rest Hwf Hf.
  - destruct (Forall_inv Hwf) as [Hk Hfld]. cbn [fst snd] in Hk, Hfld.
    cbn [stringify_members]. unfold quote. rewrite <- !app_assoc.
    cbn [app parse_members skip_ws].
    change (is_ws 34) with false. cbv beta iota.
    change (negb (34 =? 34)) with false. cbv beta iota.
    rewrite parse_string_quote by exact Hk. cbv zeta.
    cbn [skip_ws]. change (is_ws 58) with false. cbv beta iota.
    cbn [head_is tl]. change (negb (58 =? 58)) with false. cbv beta iota.
    rewrite parse_value_field'; [| lia | exact Hfld | right; reflexivity].
    cbn [skip_ws]. change (is_ws 125) with false. cbv beta iota.
    cbn [head_is tl]. change (125 =? 44) with false.
    change (125 =? 125) with true. cbv beta iota. reflexivity.
  - destruct (Forall_inv Hwf) as [Hk Hfld]. cbn [fst snd] in Hk, Hfld.
    assert (stringify_members ((k0, f0) :: (k1, f1) :: o)
            = quote k0 ++ [58] ++ stringify_field f0 ++ [44]
              ++ stringify_members ((k1, f1) :: o)) as -> by reflexivity.
    remember (stringify_members ((k1, f1) :: o)) as members eqn:Hm.
    unfold quote. rewrite <- !app_assoc.
    cbn [app parse_members skip_ws].
    change (is_ws 34) with false. cbv beta iota.
    change (negb (34 =? 34)) with false. cbv beta iota.
    rewrite parse_string_quote by exact Hk. cbv zeta.
    cbn [skip_ws]. change (is_ws 58) with false. cbv beta iota.
    cbn [head_is tl]. change (negb (58 =? 58)) with false. cbv beta iota.
    rewrite parse_value_field';
      [| cbn in Hf; lia | exact Hfld | left; reflexivity].
    cbn [skip_ws]. change (is_ws 44) with false. cbv beta iota.
    cbn [head_is tl]. change (44 =? 44) with true. cbv beta iota.
    subst members. destruct f as [| f]; [cbn in Hf; lia |].
    rewrite (IH k1 f1 f (acc ++ [(k0, value_of_field f0)]) rest
               (Forall_inv_tail Hwf)) by (cbn in Hf; lia).
    cbn [map fst snd]. rewrite <- app_assoc. reflexivity.
Qed.

Lemma stringify_members_length o :
  (length o <= length (stringify_members o))%nat.
Proof.
  induction o as [| [k f] o IH]; [reflexivity |].
  cbn [stringify_members]. destruct o as [| m o].
  - unfold quote. rewrite !length_app. cbn. lia.
  - unfold quote. rewrite !length_app. cbn [length] in *. lia.
Qed.

(** [JSON.parse] reads an object literal back from the text that
    [JSON.stringify] made of it. *)
Lemma JSON_parse_stringify o :
  well_formed o -> JSON_parse (JSON_stringify o) = Some (value_of o).
Proof.
  intros Hwf. unfold JSON_parse.
  assert (parse_value (2 + length o) (JSON_stringify o)
          = Some (value_of o, [])) as H.
  { unfold JSON_stringify. destruct o as [| [k0 f0] o]; [reflexivity |].
    cbn [app Nat.add length parse_value skip_ws].
    change (is_ws 123) with false. cbv beta iota.
    change (123 =? 123) with true. cbv beta iota.
    assert (exists r, stringify_members ((k0, f0) :: o) ++ [125] = 34 :: r)
      as [r Hr].
    { cbn [stringify_members]. unfold quote.
      destruct o; rewrite <- !app_assoc; cbn [app]; eauto. }
    rewrite Hr. cbn [skip_ws]. change (is_ws 34) with false.
    cbv beta iota. cbn [head_is]. change (34 =? 125) with false.
    cbv beta iota. rewrite <- Hr.
    rewrite (parse_members_stringify o k0 f0 (S (length o)) [] [] Hwf)
      by lia.
    reflexivity. }
  assert (2 + length o <= 2 + 2 * length (JSON_stringify o))%nat as Hle.
  { pose proof (stringify_members_length o). unfold JSON_stringify.
    rewrite !length_app. cbn [length]. lia. }
  rewrite (parse_value_more _ _ _ _ Hle H). reflexivity.
Qed.

(** A control object sent by either side is read back by the other side
    as the value it denotes. *)
Lemma wire_to_server o :
  well_formed o ->
  JSON_parse (toString (utf8 (JSON_stringify o))) = Some (value_of o).
Proof.
  intros Hwf. rewrite toString_utf8 by (apply JSON_stringify_scalar, Hwf).
  apply JSON_parse_stringify, Hwf.
Qed.

Lemma wire_to_client o :
  well_formed o ->
  JSON_parse (TextDecoder_decode (utf8 (JSON_stringify o)))
  = Some (value_of o).
Proof.
  intros Hwf.
  assert (TextDecoder_decode (utf8 (JSON_stringify o))
          = toString (utf8 (JSON_stringify o))) as -> by reflexivity.
  apply wire_to_server, Hwf.
Qed.

End JsonRoundTrip.

(** ** Every run of the page *)

Section ClientRuns.
Import Utf8 Json Eff Client.

Lemma client_frame_safe kind bytes : safe (frame kind bytes).
Proof.
  intros s. exists (kind mod 256 :: bytes). rewrite client_frame_eq.
  reflexivity.
Qed.

Ltac csafe :=
  lazymatch goal with
  | |- safe (bind _ _) => apply safe_bind; [| intros ?]
  | |- safe (try_catch _ _) => apply safe_try_catch; intros ?
  | |- safe (ret _) => apply safe_ret
  | |- safe (gets _) => apply safe_gets
  | |- safe (modify _) => apply safe_modify
  | |- safe (frame _ _) => apply client_frame_safe
  | |- safe (match ?x with _ => _ end) => destruct x
  end.

Ltac unfold_client :=
  unfold connectionEffect, connect, cleanup, onOpen, onClose, get_disposed,
    get_reconnectTimer, clearTimeout, onModulesLoaded, onTermData,
    onResizeObserved, handleStart, handleStop, onMessage, ensureTerminal,
    createTerminal, sendControl, ws_is_open, observer_disconnect,
    term_dispose, setSessionActive, setConnected, set_containerRef,
    set_termRef, set_fitAddonRef, set_wsRef, set_resizeObserverRef,
    set_termModulesRef, set_effects, set_awaiting, set_timers,
    dispatchEvent, ws_send, ws_close, set_readyState, term_write,
    set_sockets, set_terminals, set_observers.

Lemma client_step_safe e : safe (step e).
Proof. destruct e; cbn [step]; unfold_client; repeat csafe. Qed.

Lemma client_run_safe es : safe (run es).
Proof.
  induction es as [| e es IH]; cbn [run]; [apply safe_ret |].
  apply safe_bind; [apply client_step_safe | intros _; exact IH].
Qed.

Lemma client_exec_cons e es s : exec (e :: es) s = exec es (snd (step e s)).
Proof.
  unfold exec. cbn [run].
  rewrite (bind_ok (step e) (fun _ => run es) s tt); [reflexivity |].
  apply safe_unit, client_step_safe.
Qed.

Lemma client_exec_nil s : exec [] s = s.
Proof. reflexivity. Qed.

(** X12. No handler of the component lets an exception escape,
    whatever the events and their order: building a frame never
    overflows the array that was sized for it, a control payload is
    parsed inside a [try], and [send] is only reached on an OPEN
    socket. Every run of the page's event loop goes through to its
    end. *)
Theorem X12_page_handlers_never_throw :
  forall (es : list Event) (s : State),
    fst (run es s) = Ok tt
    /\ exec es s = fold_left (fun s e => snd (step e s)) es s.
Proof.
  intros es s. split; [apply safe_unit, client_run_safe |].
  revert s. induction es as [| e es IH]; intros s; [reflexivity |].
  rewrite client_exec_cons. cbn [fold_left]. apply IH.
Qed.

Lemma createTerminal_eq s :
  createTerminal s
  = (Ok tt, if negb (containerRef s)
               || match termRef s with Some _ => true | None => false end
            then s else with_terminal s).
Proof.
  unfold createTerminal, bind, gets.
  destruct (negb (containerRef s) || _); reflexivity.
Qed.

Lemma ensureTerminal_eq s :
  ensureTerminal s
  = (Ok tt, match termRef s with
            | Some _ => s
            | None =>
              if termModulesRef s then
                if containerRef s then with_terminal s else s
              else with_import_pending s
            end).
Proof.
  unfold ensureTerminal, bind at 1, gets at 1.
  destruct (termRef s) as [t |] eqn:Ht; [reflexivity |].
  unfold bind at 1, gets at 1.
  destruct (termModulesRef s); cbn [negb]; cbv beta iota.
  - rewrite createTerminal_eq, Ht. destruct (containerRef s); reflexivity.
  - reflexivity.
Qed.

#[local] Instance keeps_one_terminal_preorder : PreOrder keeps_one_terminal.
Proof.
  split.
  - intros s H. exact H.
  - intros s1 s2 s3 H12 H23 H. apply H23, H12, H.
Qed.

Lemma one_terminal_same s s' :
  terminals s' = terminals s -> observers s' = observers s ->
  termRef s' = termRef s -> resizeObserverRef s' = resizeObserverRef s ->
  keeps_one_terminal s s'.
Proof.
  intros Ht Ho Htr Hor. unfold keeps_one_terminal, one_terminal.
  rewrite Ht, Ho, Htr, Hor. auto.
Qed.

Lemma one_terminal_alter (g : Terminal -> Terminal) t :
  (forall x, term_disposed (g x) = term_disposed x) ->
  keeps keeps_one_terminal (set_terminals (alter g t)).
Proof.
  intros Hg s (H1 & H2 & H3). unfold set_terminals, modify. cbn [snd].
  split; [| split]; cbn [terminals observers termRef resizeObserverRef];
    [| exact H2 | exact H3].
  intros i x' Hx' Hd. destruct (decide (t = i)) as [-> | Hne].
  - rewrite list_lookup_alter_eq in Hx'.
    destruct (terminals s !! i) as [x |] eqn:Hx; [| discriminate].
    injection Hx' as <-. rewrite Hg in Hd. apply (H1 i x Hx Hd).
  - rewrite list_lookup_alter_ne in Hx' by assumption. apply (H1 i x' Hx' Hd).
Qed.

Lemma one_terminal_with_terminal s :
  termRef s = None -> one_terminal s -> one_terminal (with_terminal s).
Proof.
  intros Hn (H1 & H2 & H3). pose proof (H3 Hn) as Hro.
  unfold with_terminal.
  split; [| split]; cbn [terminals observers termRef resizeObserverRef].
  - intros t x Hx Hd. apply lookup_app_Some in Hx as [Hx | [Hge Hx]].
    + pose proof (H1 t x Hx Hd). congruence.
    + f_equal. apply lookup_lt_Some in Hx. cbn in Hx. lia.
  - intros o y Hy Hd. apply lookup_app_Some in Hy as [Hy | [Hge Hy]].
    + pose proof (H2 o y Hy Hd). congruence.
    + f_equal. apply lookup_lt_Some in Hy. cbn in Hy. lia.
  - discriminate.
Qed.

Lemma createTerminal_one_terminal : keeps keeps_one_terminal createTerminal.
Proof.
  intros s H. rewrite createTerminal_eq. cbn [snd].
  destruct (termRef s) as [t |] eqn:Ht.
  - rewrite orb_true_r. exact H.
  - destruct (containerRef s); cbn [negb orb]; [| exact H].
    apply one_terminal_with_terminal; assumption.
Qed.

Lemma one_terminal_stopped ws s : one_terminal s -> one_terminal (stopped ws s).
Proof.
  intros (H1 & H2 & H3). unfold stopped.
  split; [| split]; cbn [terminals observers termRef resizeObserverRef];
    [| | reflexivity].
  - intros t x' Hx' Hd. exfalso.
    destruct (termRef s) as [t0 |] eqn:Ht.
    + destruct (decide (t0 = t)) as [-> | Hne].
      * rewrite list_lookup_alter_eq in Hx'.
        destruct (terminals s !! t); [| discriminate].
        injection Hx' as <-. discriminate.
      * rewrite list_lookup_alter_ne in Hx' by assumption.
        pose proof (H1 t x' Hx' Hd). congruence.
    + pose proof (H1 t x' Hx' Hd). congruence.
  - intros o y' Hy' Hd. exfalso.
    destruct (resizeObserverRef s) as [o0 |] eqn:Ho.
    + destruct (decide (o0 = o)) as [-> | Hne].
      * rewrite list_lookup_alter_eq in Hy'.
        destruct (observers s !! o); [| discriminate].
        injection Hy' as <-. discriminate.
      * rewrite list_lookup_alter_ne in Hy' by assumption.
        pose proof (H2 o y' Hy' Hd). congruence.
    + pose proof (H2 o y' Hy' Hd). congruence.
Qed.

Lemma handleStop_one_terminal : keeps keeps_one_terminal handleStop.
Proof.
  intros s H. destruct (has_open_socket s) eqn:Ho.
  - unfold has_open_socket in Ho.
    destruct (wsRef s) as [ws |] eqn:Hw; [| discriminate].
    rewrite (handleStop_open ws s Hw Ho). apply one_terminal_stopped, H.
  - rewrite (handleStop_closed s Ho). exact H.
Qed.

Ltac one_term :=
  lazymatch goal with
  | |- keeps _ (bind _ _) => apply keeps_bind; [apply _ | | intros ?]
  | |- keeps _ (try_catch _ _) =>
    apply keeps_try_catch; [apply _ | | intros ?]
  | |- keeps _ (ret _) => apply keeps_ret; apply _
  | |- keeps _ (throw _) => apply keeps_throw; apply _
  | |- keeps _ (gets _) => apply keeps_gets; apply _
  | |- keeps _ (parse _) => apply keeps_parse; apply _
  | |- keeps _ (prop _ _) => apply keeps_prop; apply _
  | |- keeps _ createTerminal => apply createTerminal_one_terminal
  | |- keeps _ handleStop => apply handleStop_one_terminal
  | |- keeps _ (frame _ _) =>
    intros ?; rewrite client_frame_eq; reflexivity
  | |- keeps _ (set_terminals (alter _ _)) =>
    apply one_terminal_alter; intros ?; reflexivity
  | |- keeps _ (modify _) =>
    apply keeps_modify; intros ?; apply one_terminal_same; reflexivity
  | |- keeps _ (match ?x with _ => _ end) => destruct x
  end.

Lemma step_one_terminal e : keeps keeps_one_terminal (step e).
Proof.
  destruct e; cbn [step];
    unfold connectionEffect, connect, cleanup, onOpen, onClose,
      get_disposed, get_reconnectTimer, clearTimeout, onModulesLoaded,
      onTermData, onResizeObserved, handleStart, onMessage, ensureTerminal,
      sendControl, ws_is_open, setSessionActive, setConnected,
      set_containerRef, set_wsRef, set_termModulesRef, set_effects,
      set_awaiting, set_timers, dispatchEvent, ws_send, ws_close,
      set_readyState, term_write, set_sockets;
    repeat one_term.
Qed.

Lemma exec_one_terminal es : forall s, one_terminal s -> one_terminal (exec es s).
Proof.
  induction es as [| e es IH]; intros s H; [exact H |].
  rewrite client_exec_cons. apply IH, (step_one_terminal e s H).
Qed.

Lemma one_terminal_initial : one_terminal initial.
Proof.
  split; [| split]; cbn; try reflexivity; intros i x Hx;
    rewrite lookup_nil in Hx; discriminate.
Qed.

(** X13. The terminal is created lazily and once: in every state the
    page reaches from its start, at most one terminal exists that was
    not disposed, and it is the one [termRef] points to; at most one
    resize observer is connected, and it is the one [resizeObserverRef]
    points to. *)
Theorem X13_at_most_one_live_terminal :
  forall (es : list Event),
    let s := exec es initial in
    (forall t x, terminals s !! t = Some x -> term_disposed x = false ->
                 termRef s = Some t)
    /\ (forall o y, observers s !! o = Some y -> disconnected y = false ->
                    resizeObserverRef s = Some o)
    /\ (forall t1 t2 x1 x2,
          terminals s !! t1 = Some x1 -> term_disposed x1 = false ->
          terminals s !! t2 = Some x2 -> term_disposed x2 = false ->
          t1 = t2)
    /\ (forall o1 o2 y1 y2,
          observers s !! o1 = Some y1 -> disconnected y1 = false ->
          observers s !! o2 = Some y2 -> disconnected y2 = false ->
          o1 = o2).
Proof.
  intros es s.
  destruct (exec_one_terminal es initial one_terminal_initial)
    as (H1 & H2 & _).
  fold s in H1, H2.
  split; [exact H1 |]. split; [exact H2 |]. split.
  - intros t1 t2 x1 x2 Hx1 Hd1 Hx2 Hd2.
    pose proof (H1 t1 x1 Hx1 Hd1). pose proof (H1 t2 x2 Hx2 Hd2). congruence.
  - intros o1 o2 y1 y2 Hy1 Hd1 Hy2 Hd2.
    pose proof (H2 o1 y1 Hy1 Hd1). pose proof (H2 o2 y2 Hy2 Hd2). congruence.
Qed.

(** A session is started, stopped, and started again once the render
    has committed: the first terminal was disposed, the second is the
    one [termRef] points to. *)
Lemma X13_witness :
  let s := exec [EvMount; EvOpen 0;
                 EvMessage (control_frame "session-active"); EvCommit;
                 EvModulesLoaded; EvClickStop; EvCommit;
                 EvMessage (control_frame "session-active")] initial in
  map term_disposed (terminals s) = [true; false]
  /\ termRef s = Some 1%nat.
Proof.
  intros s.
  destruct (X13_at_most_one_live_terminal
              [EvMount; EvOpen 0;
               EvMessage (control_frame "session-active"); EvCommit;
               EvModulesLoaded; EvClickStop; EvCommit;
               EvMessage (control_frame "session-active")])
    as (H1 & _).
  split; [vm_compute; reflexivity |].
  apply (H1 1%nat (mkTerminal false [] 80 24)); vm_compute; reflexivity.
Defined.

#[local] Instance same_connection_preorder : PreOrder same_connection.
Proof.
  split.
  - intros s. repeat split.
  - intros s1 s2 s3 (A1 & A2 & A3 & A4 & A5) (B1 & B2 & B3 & B4 & B5).
    unfold same_connection. rewrite B1, B2, B3, B4, B5. auto.
Qed.

Ltac same_conn :=
  lazymatch goal with
  | |- keeps _ (bind _ _) => apply keeps_bind; [apply _ | | intros ?]
  | |- keeps _ (try_catch _ _) =>
    apply keeps_try_catch; [apply _ | | intros ?]
  | |- keeps _ (ret _) => apply keeps_ret; apply _
  | |- keeps _ (throw _) => apply keeps_throw; apply _
  | |- keeps _ (gets _) => apply keeps_gets; apply _
  | |- keeps _ (parse _) => apply keeps_parse; apply _
  | |- keeps _ (prop _ _) => apply keeps_prop; apply _
  | |- keeps _ (modify _) =>
    apply keeps_modify; intros ?; repeat split
  | |- keeps _ (match ?x with _ => _ end) => destruct x
  end.

(** The message handler and the resumption of [ensureTerminal] leave
    the connection alone. *)
Lemma onMessage_same_connection data : keeps same_connection (onMessage data).
Proof.
  unfold onMessage, ensureTerminal, createTerminal, setSessionActive,
    set_termRef, set_fitAddonRef, set_resizeObserverRef, set_awaiting,
    dispatchEvent, term_write, set_terminals, set_observers.
  repeat same_conn.
Qed.

Lemma onModulesLoaded_same_connection : keeps same_connection onModulesLoaded.
Proof.
  unfold onModulesLoaded, createTerminal, set_termRef, set_fitAddonRef,
    set_resizeObserverRef, set_awaiting, set_termModulesRef, set_terminals,
    set_observers.
  repeat same_conn.
Qed.

Lemma same_connection_silent s s' :
  same_connection s s' -> silent s s'.
Proof.
  intros (H1 & _ & _ & _ & H5). unfold silent, sent. rewrite H1. auto.
Qed.

Lemma silent_readyState ws rs s : silent s (snd (set_readyState ws rs s)).
Proof.
  unfold set_readyState, set_sockets, modify, silent, sent.
  cbn [snd sockets connected]. rewrite length_alter.
  split; [reflexivity |]. split; [| reflexivity].
  intros w. destruct (decide (ws = w)) as [-> | Hne].
  - rewrite list_lookup_alter_eq. destruct (sockets s !! w); reflexivity.
  - rewrite list_lookup_alter_ne by assumption. reflexivity.
Qed.

Lemma silent_refl s : silent s s.
Proof. repeat split. Qed.

Lemma silent_trans s1 s2 s3 : silent s1 s2 -> silent s2 s3 -> silent s1 s3.
Proof.
  intros (A1 & A2 & A3) (B1 & B2 & B3). split; [congruence |].
  split; [| congruence]. intros ws. rewrite B2. apply A2.
Qed.

(** Where every run of the effect was cleaned up, each of their
    closures finds its [disposed] set. *)
Lemma get_disposed_all r s :
  all_disposed s -> get_disposed r s = (Ok true, s).
Proof.
  intros Ha. unfold get_disposed, gets.
  destruct (effects s !! r) as [e |] eqn:He; [| reflexivity].
  rewrite (proj1 (Forall_lookup _ _) Ha r e He). reflexivity.
Qed.

Lemma get_disposed_eq r e s :
  effects s !! r = Some e -> get_disposed r s = (Ok (disposed e), s).
Proof. intros He. unfold get_disposed, gets. rewrite He. reflexivity. Qed.

Lemma connect_disposed r s :
  get_disposed r s = (Ok true, s) -> connect r s = (Ok tt, s).
Proof. intros H. unfold connect, bind. rewrite H. reflexivity. Qed.

Lemma onOpen_disposed r s :
  get_disposed r s = (Ok true, s) -> onOpen r s = (Ok tt, s).
Proof. intros H. unfold onOpen, bind. rewrite H. reflexivity. Qed.

Lemma onClose_disposed r s :
  get_disposed r s = (Ok true, s) -> onClose r s = (Ok tt, s).
Proof. intros H. unfold onClose, bind. rewrite H. reflexivity. Qed.

(** What the cleanup of the run [r] leaves. *)
Lemma cleanup_facts r s :
  let s0 := snd (cleanup r s) in
  effects s0 = alter (fun e => mkEffect true (reconnectTimer e)) r (effects s)
  /\ wsRef s0 = None
  /\ (forall ws, wsRef s = Some ws -> open_in s0 ws = false)
  /\ silent s s0.
Proof.
  cbv zeta. unfold cleanup, bind, set_effects, get_reconnectTimer, gets,
    modify. cbn [effects wsRef].
  set (t := match alter _ r (effects s) !! r with
            | Some e => reconnectTimer e
            | None => None
            end).
  destruct t as [t |]; unfold clearTimeout, set_timers, modify, ret;
    cbn [wsRef]; destruct (wsRef s) as [w |] eqn:Hw;
    unfold ws_close, set_sockets, set_wsRef, modify;
    cbn [snd effects wsRef];
    (split; [reflexivity |]; split; [reflexivity |]; split;
     [| unfold silent, sent; cbn [sockets connected]]).
  all: try (intros ws [= <-]; unfold open_in; cbn [sockets];
            rewrite list_lookup_alter_eq;
            destruct (sockets s !! w) as [[rs sm cr] |]; [| reflexivity];
            destruct rs; reflexivity).
  all: try (intros ws [=]).
  all: try (rewrite length_alter; split; [reflexivity |];
            split; [| reflexivity]; intros ws;
            destruct (decide (w = ws)) as [-> | Hne];
            [rewrite list_lookup_alter_eq;
             destruct (sockets s !! ws) as [[rs sm cr] |]; [| reflexivity];
             destruct rs; reflexivity
            | rewrite list_lookup_alter_ne by assumption; reflexivity]).
  all: repeat split.
Qed.

Lemma step_unmount_eq s :
  step EvUnmount s
  = match length (effects s) with
    | O => (Ok tt, s)
    | S r => cleanup r s
    end.
Proof.
  cbn [step]. unfold bind, gets. destruct (length (effects s)); reflexivity.
Qed.

Lemma step_open_eq ws s :
  step (EvOpen ws) s
  = match sockets s !! ws with
    | Some k => onOpen (creator k) (snd (set_readyState ws OPEN s))
    | None => (Ok tt, s)
    end.
Proof.
  cbn [step]. unfold bind at 1, gets at 1.
  destruct (sockets s !! ws); reflexivity.
Qed.

Lemma step_close_client_eq ws s :
  step (EvClose ws) s
  = match sockets s !! ws with
    | Some k => onClose (creator k) (snd (set_readyState ws CLOSED s))
    | None => (Ok tt, s)
    end.
Proof.
  cbn [step]. unfold bind at 1, gets at 1.
  destruct (sockets s !! ws); reflexivity.
Qed.

Lemma step_reconnect_eq t s :
  step (EvReconnectTimer t) s
  = match timers s !! t with
    | Some x =>
      if pending x then connect (timer_effect x) (snd (clearTimeout t s))
      else (Ok tt, s)
    | None => (Ok tt, s)
    end.
Proof.
  cbn [step]. unfold bind at 1, gets at 1.
  destruct (timers s !! t) as [x |]; [| reflexivity].
  destruct (pending x); reflexivity.
Qed.

(** After the unmount, a turn of the event loop in which the effect
    does not run again leaves the component unmounted and silent. *)
Lemma step_unmounted e s :
  e <> EvMount ->
  unmounted s ->
  unmounted (snd (step e s)) /\ silent s (snd (step e s)).
Proof.
  intros Hne [Hd Hw].
  assert (forall s' : State, same_connection s s' ->
            unmounted s' /\ silent s s') as Hsame.
  { intros s' Hs. split; [| apply same_connection_silent, Hs].
    destruct Hs as (_ & H2 & H3 & _). split; [| congruence].
    unfold all_disposed. rewrite H3. exact Hd. }
  assert (unmounted s /\ silent s s) as Hrefl
    by (split; [split; [exact Hd | exact Hw] | apply silent_refl]).
  destruct e as [| | ws | data | ws | t | | | t data | o c r | |].
  - contradiction.
  - rewrite step_unmount_eq.
    destruct (length (effects s)) as [| r]; [exact Hrefl |].
    destruct (cleanup_facts r s) as (He & Hw0 & _ & Hs).
    split; [split; [| exact Hw0] | exact Hs].
    unfold all_disposed. rewrite He. apply Forall_lookup. intros i x Hx.
    destruct (decide (r = i)) as [-> | Hri].
    + rewrite list_lookup_alter_eq in Hx.
      destruct (effects s !! i); [| discriminate].
      injection Hx as <-. reflexivity.
    + rewrite list_lookup_alter_ne in Hx by assumption.
      apply (proj1 (Forall_lookup _ _) Hd i x Hx).
  - rewrite step_open_eq.
    destruct (sockets s !! ws) as [k |]; [| exact Hrefl].
    rewrite onOpen_disposed by (apply get_disposed_all; exact Hd).
    split; [split; [exact Hd | exact Hw] | apply silent_readyState].
  - apply Hsame, onMessage_same_connection.
  - rewrite step_close_client_eq.
    destruct (sockets s !! ws) as [k |]; [| exact Hrefl].
    rewrite onClose_disposed by (apply get_disposed_all; exact Hd).
    split; [split; [exact Hd | exact Hw] | apply silent_readyState].
  - rewrite step_reconnect_eq.
    destruct (timers s !! t) as [x |]; [| exact Hrefl].
    destruct (pending x); [| exact Hrefl].
    rewrite connect_disposed by (apply get_disposed_all; exact Hd).
    split; [split; [exact Hd | exact Hw] | repeat split].
  - apply Hsame, onModulesLoaded_same_connection.
  - cbn [step]. unfold bind, gets, set_containerRef, modify. cbn [snd].
    split; [split; [exact Hd | exact Hw] | repeat split].
  - assert (snd (step (EvKeys t data) s) = s) as ->; [| exact Hrefl].
    cbn [step]. unfold bind, gets, onTermData.
    destruct (terminals s !! t) as [x |]; [| reflexivity].
    destruct (term_disposed x); [reflexivity |].
    unfold bind, gets. rewrite Hw. reflexivity.
  - cbn [step]. unfold onResizeObserved, try_catch, set_terminals, bind,
      gets, modify.
    destruct (observers s !! o) as [ob |] eqn:Hob; [| exact Hrefl].
    destruct (disconnected ob); [exact Hrefl |].
    rewrite !Hob. cbn [wsRef]. rewrite Hw. unfold ret. cbn [snd].
    split; [split; [exact Hd | reflexivity] | repeat split].
  - assert (snd (step EvClickStart s) = s) as ->; [| exact Hrefl].
    cbn [step]. unfold handleStart, bind, gets. rewrite Hw. reflexivity.
  - assert (snd (step EvClickStop s) = s) as ->; [| exact Hrefl].
    cbn [step]. unfold handleStop, bind, gets. rewrite Hw. reflexivity.
Qed.

(** The effect runs in a state where every earlier run was cleaned up:
    the new run connects with a socket of its own. *)
Lemma step_mount_eq s :
  let s2 := snd (step EvMount s) in
  effects s2 = effects s ++ [mkEffect false None]
  /\ sockets s2
     = sockets s ++ [mkSocket CONNECTING [] (length (effects s))]
  /\ wsRef s2 = Some (length (sockets s))
  /\ connected s2 = connected s.
Proof.
  cbv zeta. cbn [step].
  unfold connectionEffect, connect, get_disposed, bind, gets, set_effects,
    set_sockets, set_wsRef, modify.
  cbn [effects]. rewrite lookup_fresh. cbn [disposed].
  repeat split.
Qed.

(** X14. Once the component has unmounted, the bridge is silent until
    the effect runs again. The cleanup of the latest run of the effect
    sets its [disposed], closes the socket the component held and clears
    the ref; React having cleaned up every earlier run, no run is left
    whose closures act. From then on, whatever events arrive (a late
    [open] or [close] of a socket, a reconnect timer, late messages,
    clicks, keys, resizes, the cleanup once more), no socket is created,
    no frame is sent on any socket, and the [connected] flag is no
    longer updated. When React runs the effect again (it remounts the
    component, as under StrictMode), the new run has a [disposed] of its
    own and connects with a new socket. *)
Theorem X14_unmounted_page_is_silent :
  forall (s : State) (es : list Event),
    one_live_effect s ->
    effects s <> [] ->
    Forall (fun e => e <> EvMount) es ->
    let s0 := snd (step EvUnmount s) in
    let s' := exec es s0 in
    let s2 := snd (step EvMount s') in
    all_disposed s0
    /\ wsRef s0 = None
    /\ (forall ws, wsRef s = Some ws -> open_in s0 ws = false)
    /\ all_disposed s'
    /\ wsRef s' = None
    /\ length (sockets s') = length (sockets s0)
    /\ (forall ws, sent s' ws = sent s0 ws)
    /\ connected s' = connected s0
    /\ effects s2 = effects s' ++ [mkEffect false None]
    /\ sockets s2
       = sockets s' ++ [mkSocket CONNECTING [] (length (effects s'))]
    /\ wsRef s2 = Some (length (sockets s')).
Proof.
  intros s es Hone Hne Hes s0 s' s2.
  assert (exists r, length (effects s) = S r) as [r Hr].
  { destruct (effects s) as [| e l]; [contradiction |].
    exists (length l). reflexivity. }
  assert (s0 = snd (cleanup r s)) as Hs0.
  { unfold s0. cbn [step]. unfold bind, gets. rewrite Hr. reflexivity. }
  destruct (cleanup_facts r s) as (He & Hw0 & Hclosed & _).
  rewrite <- Hs0 in He, Hw0, Hclosed.
  assert (unmounted s0) as Hu.
  { split; [| exact Hw0]. unfold all_disposed. rewrite He.
    apply Forall_lookup. intros i x Hx.
    destruct (decide (r = i)) as [-> | Hri].
    - rewrite list_lookup_alter_eq in Hx.
      destruct (effects s !! i); [| discriminate].
      injection Hx as <-. reflexivity.
    - rewrite list_lookup_alter_ne in Hx by assumption.
      destruct (disposed x) eqn:Hdx; [reflexivity |].
      pose proof (Hone i x Hx Hdx). lia. }
  assert (forall es s1, Forall (fun e => e <> EvMount) es -> unmounted s1 ->
            unmounted (exec es s1) /\ silent s1 (exec es s1)) as Hall.
  { clear. induction es as [| e es IH]; intros s1 Hes Hu.
    - split; [exact Hu | apply silent_refl].
    - rewrite client_exec_cons.
      apply Forall_cons in Hes as [He Hes].
      destruct (step_unmounted e s1 He Hu) as [Hu1 Hs1].
      destruct (IH _ Hes Hu1) as [Hu2 Hs2].
      split; [exact Hu2 | apply (silent_trans _ _ _ Hs1 Hs2)]. }
  destruct (Hall es s0 Hes Hu) as ((Hd & Hw) & Hl & Hs & Hc).
  destruct Hu as [Hd0 _]. fold s' in Hd, Hw, Hl, Hs, Hc.
  destruct (step_mount_eq s') as (M1 & M2 & M3 & _). fold s2 in M1, M2, M3.
  clearbody s0 s' s2.
  split; [exact Hd0 |]. split; [exact Hw0 |]. split; [exact Hclosed |].
  split; [exact Hd |]. split; [exact Hw |]. split; [exact Hl |].
  split; [exact Hs |]. split; [exact Hc |]. split; [exact M1 |].
  split; [exact M2 | exact M3].
Qed.

(** The page with its terminal is unmounted; the reconnect timer, a
    click on start, a key and the close of the socket come late. Then
    the effect runs again. *)
Lemma X14_witness :
  let s0 := snd (step EvUnmount connected_with_terminal) in
  let s' := exec [EvReconnectTimer 0; EvClickStart; EvKeys 0 (lit "x");
                  EvClose 0; EvUnmount] s0 in
  let s2 := snd (step EvMount s') in
  open_in s0 0 = false
  /\ length (sockets s') = 1%nat
  /\ sent s' 0 = []
  /\ wsRef s2 = Some 1%nat.
Proof.
  intros s0 s' s2.
  assert (one_live_effect connected_with_terminal) as Hone.
  { intros r e Hr _. apply lookup_lt_Some in Hr.
    change (length (effects connected_with_terminal)) with 1%nat in *.
    lia. }
  assert (effects connected_with_terminal <> []) as Hne
    by (vm_compute; discriminate).
  assert (Forall (fun e => e <> EvMount)
            [EvReconnectTimer 0; EvClickStart; EvKeys 0 (lit "x");
             EvClose 0; EvUnmount]) as Hes
    by (repeat (apply List.Forall_cons; [discriminate |]);
        apply List.Forall_nil).
  destruct (X14_unmounted_page_is_silent connected_with_terminal
              [EvReconnectTimer 0; EvClickStart; EvKeys 0 (lit "x");
               EvClose 0; EvUnmount] Hone Hne Hes)
    as (_ & _ & Hc & _ & _ & Hl & Hs & _ & _ & _ & Hw).
  split; [apply Hc; vm_compute; reflexivity |].
  split; [fold s0 s' in Hl; rewrite Hl; vm_compute; reflexivity |].
  split; [fold s0 s' in Hs; rewrite Hs; vm_compute; reflexivity |].
  fold s0 s' s2 in Hw. rewrite Hw. fold s0 s' in Hl. rewrite Hl.
  vm_compute. reflexivity.
Defined.

Lemma client_onMessage_active raw s :
  carries raw "session-active" ->
  onMessage raw s = ensureTerminal (marked_active s).
Proof.
  intros (msg & Hm & Hty).
  apply client_control_message_inv in Hm as (body & -> & Hp).
  unfold onMessage. rewrite decode_cons.
  change (CONTROL_BYTE =? DATA_BYTE) with false.
  change (CONTROL_BYTE =? CONTROL_BYTE) with true.
  cbv beta iota. unfold try_catch, bind, parse, prop.
  rewrite Hp. unfold ret at 1. cbv beta iota.
  rewrite !Hty. unfold ret at 1. cbv beta iota.
  rewrite strict_eq_str_lit.
  change (bool_decide (lit "session-active" = lit "session-active"))
    with true.
  cbv beta iota. unfold setSessionActive, modify. cbv beta iota.
  fold (marked_active s). rewrite ensureTerminal_eq. reflexivity.
Qed.

Lemma client_onMessage_data body s :
  onMessage (DATA_BYTE :: body) s
  = (Ok tt, match termRef s with
            | Some t => snd (term_write t body s)
            | None => s
            end).
Proof.
  unfold onMessage. rewrite decode_cons.
  change (DATA_BYTE =? DATA_BYTE) with true. cbv beta iota.
  unfold bind, gets. destruct (termRef s); reflexivity.
Qed.

(** X15. What a [session-active] message does. The session is marked
    active, and then: with a terminal already there, nothing more; with
    the terminal modules not loaded yet, the creation is put off until
    they are; with the modules loaded and the container mounted, a
    terminal of 80 x 24 is created with its fit addon and its resize
    observer; with the modules loaded but the container not mounted (the
    state of a page on which a session was stopped and is started
    again), no terminal is created. In that last case the render that
    follows mounts the container but calls nothing, so the page shows an
    active session without a terminal, and the output that arrives is
    dropped. *)
Theorem X15_session_active_and_the_terminal :
  forall (s : State) (raw : list Z),
    carries raw "session-active" ->
    let s1 := snd (onMessage raw s) in
    fst (onMessage raw s) = Ok tt
    /\ sessionActive s1 = true
    /\ (forall t, termRef s = Some t -> s1 = marked_active s)
    /\ (termRef s = None -> termModulesRef s = false ->
        s1 = with_import_pending (marked_active s))
    /\ (termRef s = None -> termModulesRef s = true ->
        containerRef s = true ->
        s1 = with_terminal (marked_active s)
        /\ termRef s1 = Some (length (terminals s))
        /\ terminals s1 = terminals s ++ [mkTerminal false [] 80 24])
    /\ (termRef s = None -> termModulesRef s = true ->
        containerRef s = false ->
        let s2 := snd (step EvCommit s1) in
        s1 = marked_active s
        /\ containerRef s2 = true
        /\ termRef s2 = None
        /\ terminals s2 = terminals s
        /\ (forall body, onMessage (DATA_BYTE :: body) s2 = (Ok tt, s2))).
Proof.
  intros s raw Hraw s1. subst s1.
  rewrite (client_onMessage_active raw s Hraw), ensureTerminal_eq.
  cbn [fst snd termRef termModulesRef containerRef marked_active].
  split; [reflexivity |]. split.
  { destruct (termRef s); [reflexivity |].
    destruct (termModulesRef s); [| reflexivity].
    destruct (containerRef s); reflexivity. }
  split; [intros t ->; reflexivity |].
  split; [intros -> ->; reflexivity |].
  split; [intros -> -> ->; repeat split |].
  intros Ht Hm Hc. rewrite Ht, Hm, Hc. cbv zeta.
  split; [reflexivity |]. split; [reflexivity |]. split; [exact Ht |].
  split; [reflexivity |].
  intros body. rewrite client_onMessage_data.
  change (termRef (snd (step EvCommit (marked_active s)))) with (termRef s).
  rewrite Ht. reflexivity.
Qed.

(** A session was stopped and start is clicked again: the server's
    [session-active] finds the modules loaded and the container not
    mounted. *)
Lemma X15_witness :
  let s1 := snd (onMessage (control_frame "session-active") restarting_page) in
  sessionActive s1 = true
  /\ termRef (snd (step EvCommit s1)) = None
  /\ map term_disposed (terminals (snd (step EvCommit s1))) = [true].
Proof.
  intros s1.
  assert (carries (control_frame "session-active") "session-active") as Hc.
  { exists (JObj [(lit "type", JStr (lit "session-active"))]).
    split; vm_compute; reflexivity. }
  destruct (X15_session_active_and_the_terminal restarting_page
              (control_frame "session-active") Hc)
    as (_ & Ha & _ & _ & _ & Hno).
  destruct Hno as (_ & _ & Ht & Hts & _); try (vm_compute; reflexivity).
  fold s1 in Ha, Ht, Hts.
  split; [exact Ha |]. split; [exact Ht |].
  rewrite Hts. vm_compute. reflexivity.
Defined.

#[local] Instance same_indicator_preorder : PreOrder same_indicator.
Proof.
  split.
  - intros s. reflexivity.
  - intros s1 s2 s3 H12 H23. unfold same_indicator in *. congruence.
Qed.

Ltac same_ind :=
  lazymatch goal with
  | |- keeps _ (bind _ _) => apply keeps_bind; [apply _ | | intros ?]
  | |- keeps _ (try_catch _ _) =>
    apply keeps_try_catch; [apply _ | | intros ?]
  | |- keeps _ (ret _) => apply keeps_ret; apply _
  | |- keeps _ (throw _) => apply keeps_throw; apply _
  | |- keeps _ (gets _) => apply keeps_gets; apply _
  | |- keeps _ (frame _ _) =>
    intros ?; rewrite client_frame_eq; reflexivity
  | |- keeps _ (modify _) => apply keeps_modify; intros ?; reflexivity
  | |- keeps _ (match ?x with _ => _ end) => destruct x
  end.

Lemma step_same_indicator e :
  ~ is_message e -> keeps same_indicator (step e).
Proof.
  intros He. destruct e; cbn [is_message] in He; try tauto; cbn [step];
    unfold connectionEffect, connect, cleanup, onOpen, onClose,
      get_disposed, get_reconnectTimer, clearTimeout, onModulesLoaded,
      onTermData, onResizeObserved, handleStart, handleStop, createTerminal,
      sendControl, ws_is_open, observer_disconnect, term_dispose,
      setConnected, set_containerRef, set_termRef, set_fitAddonRef,
      set_wsRef, set_resizeObserverRef, set_termModulesRef, set_effects,
      set_awaiting, set_timers, ws_send, ws_close, set_readyState,
      set_sockets, set_terminals, set_observers;
    repeat same_ind.
Qed.

Lemma client_carries_cons body msg t :
  JSON_parse (TextDecoder_decode body) = Some msg ->
  get_prop msg (lit "type") = Some (JStr (lit t)) ->
  carries (CONTROL_BYTE :: body) t.
Proof. intros Hp Ht. exists msg. split; assumption. Qed.

(** A message that is none of the three session frames leaves the
    indicator as it is. *)
Lemma onMessage_same_indicator data s :
  (forall t, t = "session-active"%string \/ t = "session-inactive"%string
             \/ t = "exit"%string -> ~ carries data t) ->
  sessionActive (snd (onMessage data s)) = sessionActive s.
Proof.
  intros Hno. destruct data as [| b body]; [reflexivity |].
  destruct (Z.eqb_spec b DATA_BYTE) as [-> | Hd].
  { rewrite client_onMessage_data. cbn [snd].
    destruct (termRef s); reflexivity. }
  unfold onMessage. rewrite decode_cons.
  rewrite (proj2 (Z.eqb_neq _ _) Hd).
  destruct (Z.eqb_spec b CONTROL_BYTE) as [-> | Hc]; [| reflexivity].
  unfold try_catch, bind, parse, prop.
  destruct (JSON_parse (TextDecoder_decode body)) as [msg |] eqn:Hp;
    [| reflexivity].
  unfold ret at 1. cbv beta iota.
  destruct (get_prop msg (lit "type")) as [t |] eqn:Ht; [| reflexivity].
  unfold ret at 1. cbv beta iota.
  destruct (strict_eq_str t (lit "session-active")) eqn:H1.
  { apply strict_eq_str_true in H1 as ->. exfalso.
    apply (Hno "session-active"%string); [auto |].
    apply (client_carries_cons body msg _ Hp Ht). }
  unfold ret at 1. cbv beta iota.
  destruct (strict_eq_str t (lit "session-inactive")) eqn:H2.
  { apply strict_eq_str_true in H2 as ->. exfalso.
    apply (Hno "session-inactive"%string); [auto |].
    apply (client_carries_cons body msg _ Hp Ht). }
  unfold ret at 1. cbv beta iota.
  destruct (strict_eq_str t (lit "exit")) eqn:H3.
  { apply strict_eq_str_true in H3 as ->. exfalso.
    apply (Hno "exit"%string); [auto |].
    apply (client_carries_cons body msg _ Hp Ht). }
  unfold ret at 1. cbv beta iota.
  destruct (strict_eq_str t (lit "file-changed")); [| reflexivity].
  destruct (get_prop_total msg _ _ (lit "file") Ht) as [v ->].
  reflexivity.
Qed.

(** X25. The session indicator is driven by the server alone. No click,
    key, resize, render, reconnect or unmount changes [sessionActive]: a
    click on stop disposes the terminal but leaves the session shown as
    active until the server answers. Of the messages, only a control
    frame whose [type] is [session-active], [session-inactive] or [exit]
    changes it; an empty message, a DATA frame, a frame of another kind,
    a payload that is not JSON and a control message of another type
    leave it as it is. *)
Theorem X25_indicator_is_server_driven :
  forall (s : State),
    (forall e, ~ is_message e ->
               sessionActive (snd (step e s)) = sessionActive s)
    /\ (forall data,
          (forall t, t = "session-active"%string
                     \/ t = "session-inactive"%string
                     \/ t = "exit"%string -> ~ carries data t) ->
          sessionActive (snd (step (EvMessage data) s)) = sessionActive s).
Proof.
  intros s. split.
  - intros e He. apply (step_same_indicator e He s).
  - intros data Hno. apply (onMessage_same_indicator data s Hno).
Qed.

(** On the page with a terminal, a click on stop and a DATA frame leave
    the session shown as active. *)
Lemma X25_witness :
  sessionActive (snd (step EvClickStop connected_with_terminal)) = true
  /\ sessionActive
       (snd (step (EvMessage (DATA_BYTE :: utf8 (lit "hi")))
               connected_with_terminal)) = true.
Proof.
  destruct (X25_indicator_is_server_driven connected_with_terminal)
    as (H1 & H2).
  split.
  - rewrite (H1 EvClickStop); [reflexivity |]. intros [].
  - rewrite H2; [reflexivity |].
    intros t _ (msg & Hm & _). discriminate.
Defined.

End ClientRuns.

(** ** Numbers: an integer that fits the mantissa is not rounded away *)

Section SmallIntegers.
Import Json.

Lemma digits2_iter_xO p d :
  digits2_pos (Pos.iter xO p d) = (digits2_pos p + d)%positive.
Proof.
  induction d as [| d IH] using Pos.peano_ind.
  - cbn. lia.
  - rewrite Pos.iter_succ. cbn [digits2_pos]. rewrite IH. lia.
Qed.

Lemma shr_fexp_normal m e :
  Z.pos (digits2_pos m) = 53 -> -1074 <= e ->
  shr_fexp 53 1024 (Z.pos m) e loc_Exact
  = ({| shr_m := Z.pos m; shr_r := false; shr_s := false |}, e).
Proof.
  intros Hd He. unfold shr_fexp, shr, Zdigits2, fexp, emin.
  rewrite Hd. cbn [shr_record_of_loc].
  replace (Z.max (53 + e - 53) (3 - 1024 - 53) - e) with 0 by lia.
  reflexivity.
Qed.

Lemma binary_round_small sx p :
  Z.pos (digits2_pos p) <= 53 ->
  exists m e, binary_round 53 1024 sx p 0 = S754_finite sx m e.
Proof.
  intros Hd. unfold binary_round.
  assert (exists mz ez, shl_align p 0
                          (fexp 53 1024 (Z.pos (digits2_pos p) + 0))
                        = (mz, ez)
                        /\ Z.pos (digits2_pos mz) = 53
                        /\ -52 <= ez <= 0) as (mz & ez & -> & Hmz & Hez).
  { unfold shl_align, fexp, emin.
    replace (Z.max (Z.pos (digits2_pos p) + 0 - 53) (3 - 1024 - 53) - 0)
      with (Z.pos (digits2_pos p) - 53) by lia.
    destruct (Z.pos (digits2_pos p) - 53) as [| k | k] eqn:Hk.
    - exists p, 0. split; [reflexivity |]. lia.
    - lia.
    - exists (Pos.iter xO p k).
      exists (Z.max (Z.pos (digits2_pos p) + 0 - 53) (3 - 1024 - 53)).
      split; [reflexivity |]. rewrite digits2_iter_xO. lia. }
  unfold binary_round_aux.
  rewrite (shr_fexp_normal mz ez Hmz) by lia.
  cbn [shr_m loc_of_shr_record round_nearest_even].
  rewrite (shr_fexp_normal mz ez Hmz) by lia.
  cbn [shr_m].
  replace (ez <=? 1024 - 53) with true by (symmetry; apply Z.leb_le; lia).
  eauto.
Qed.

Lemma digits2_pos_bound p :
  Z.pos p < 2 ^ 53 -> Z.pos (digits2_pos p) <= 53.
Proof.
  intros Hp.
  assert (forall q, 2 ^ (Z.pos (digits2_pos q) - 1) <= Z.pos q) as Hlow.
  { induction q as [q IH | q IH |]; cbn [digits2_pos].
    - rewrite Pos2Z.inj_succ.
      replace (Z.succ (Z.pos (digits2_pos q)) - 1)
        with (Z.succ (Z.pos (digits2_pos q) - 1)) by lia.
      rewrite Z.pow_succ_r by lia. lia.
    - rewrite Pos2Z.inj_succ.
      replace (Z.succ (Z.pos (digits2_pos q)) - 1)
        with (Z.succ (Z.pos (digits2_pos q) - 1)) by lia.
      rewrite Z.pow_succ_r by lia. lia.
    - cbn. lia. }
  destruct (Z_le_gt_dec (Z.pos (digits2_pos p)) 53) as [H | H]; [exact H |].
  exfalso. specialize (Hlow p).
  assert (2 ^ 53 <= 2 ^ (Z.pos (digits2_pos p) - 1))
    by (apply Z.pow_le_mono_r; lia).
  lia.
Qed.

(** An integer that is not zero and fits the 53-bit mantissa reads as a
    truthy number. *)
Lemma truthy_small_integer n :
  n <> 0 -> - 2 ^ 53 < n < 2 ^ 53 ->
  truthy (JNum (binary64_of_Z n)) = true.
Proof.
  intros Hn Hr. unfold binary64_of_Z, binary_normalize.
  destruct n as [| p | p]; [contradiction | |].
  - destruct (binary_round_small false p) as (m & e & ->);
      [apply digits2_pos_bound; lia | reflexivity].
  - destruct (binary_round_small true p) as (m & e & ->);
      [apply digits2_pos_bound; lia | reflexivity].
Qed.

(** A positive integer that fits the 53-bit mantissa reads as a positive
    finite number. *)
Lemma positive_small_integer n :
  0 < n < 2 ^ 53 ->
  Server.positive_finite (JNum (binary64_of_Z n)) = true.
Proof.
  intros Hr. unfold binary64_of_Z, binary_normalize.
  destruct n as [| p | p]; [lia | | lia].
  destruct (binary_round_small false p) as (m & e & ->);
    [apply digits2_pos_bound; lia | reflexivity].
Qed.

End SmallIntegers.

(** ** From the browser to the process and back *)

Section EndToEnd.
Import Utf8 Json Eff.

Lemma client_sent_send ws payload c :
  Client.open_in c ws = true ->
  Client.sent (snd (Client.ws_send ws payload c)) ws
  = Client.sent c ws ++ [payload].
Proof.
  unfold Client.open_in, Client.sent, Client.ws_send, Client.set_sockets,
    modify. cbn [snd Client.sockets]. rewrite list_lookup_alter_eq.
  destruct (Client.sockets c !! ws); [reflexivity | discriminate].
Qed.

Lemma client_step_keys t x ws data c :
  Client.terminals c !! t = Some x ->
  Client.term_disposed x = false ->
  Client.wsRef c = Some ws ->
  Client.open_in c ws = true ->
  Client.step (Client.EvKeys t data) c
  = Client.ws_send ws (Client.DATA_BYTE :: utf8 data) c.
Proof.
  intros Hx Hd Hw Ho. cbn [Client.step].
  unfold bind at 1, gets at 1. rewrite Hx, Hd.
  unfold Client.onTermData, bind at 1, gets at 1. rewrite Hw.
  unfold bind at 1, Client.ws_is_open, gets at 1.
  unfold Client.open_in in Ho. rewrite Ho.
  unfold bind. rewrite client_frame_eq. reflexivity.
Qed.

Lemma client_step_keys_closed t data c :
  Client.has_open_socket c = false ->
  Client.step (Client.EvKeys t data) c = (Ok tt, c).
Proof.
  intros Ho. cbn [Client.step]. unfold bind, gets.
  destruct (Client.terminals c !! t) as [x |]; [| reflexivity].
  destruct (Client.term_disposed x); [reflexivity |].
  unfold Client.onTermData, bind, gets, Client.ws_is_open.
  unfold Client.has_open_socket, Client.open_in in Ho.
  destruct (Client.wsRef c) as [ws |]; [| reflexivity].
  unfold gets. rewrite Ho. reflexivity.
Qed.

(** X16. What is typed reaches the process. A key event on the live
    terminal of a page that holds an open socket sends one DATA frame,
    the byte 0x00 followed by the UTF-8 bytes of the typed text; the
    server, while a session runs, writes the text decoded from that frame
    to the process. For well-formed text the process is written exactly
    what was typed, and its input receives exactly the bytes the page
    encoded. Without an open socket the keys are dropped. *)
Theorem X16_keys_reach_the_process :
  forall (c : Client.State) (s : Server.State) t x ws data w k h p o,
    Client.terminals c !! t = Some x ->
    Client.term_disposed x = false ->
    Client.wsRef c = Some ws ->
    Client.open_in c ws = true ->
    Server.socks s !! w = Some k ->
    Server.currentPty s = Some h ->
    Server.ptys s !! h = Some p ->
    let frame := 0x00 :: utf8 data in
    let c' := snd (Client.step (Client.EvKeys t data) c) in
    let s' := snd (Server.step (Server.EvMessage w frame o) s) in
    Client.sent c' ws = Client.sent c ws ++ [frame]
    /\ Server.ptys s' !! h
       = Some (Server.written p [toString (utf8 data)])
    /\ (Forall scalar data ->
        Server.ptys s' !! h = Some (Server.written p [data])
        /\ Server.input_stream (Server.written p [data])
           = Server.input_stream p ++ utf8 data)
    /\ (forall c0 t0,
          Client.has_open_socket c0 = false ->
          Client.step (Client.EvKeys t0 data) c0 = (Ok tt, c0)).
Proof.
  intros c s t x ws data w k h p o Hx Hd Hw Ho Hk Hcur Hp frame c' s'.
  assert (Server.ptys s' !! h
          = Some (Server.written p [toString (utf8 data)])) as Hs'.
  { unfold s', frame.
    change (0 :: utf8 data) with (Server.DATA_BYTE :: utf8 data).
    rewrite (step_data_message w k (utf8 data) o s h p Hk Hcur Hp).
    cbn [snd Server.ptys Server.set_ptys].
    apply list_lookup_insert_eq, lookup_lt_is_Some. eauto. }
  split; [| split; [exact Hs' | split]].
  - unfold c'. rewrite (client_step_keys t x ws data c Hx Hd Hw Ho).
    apply client_sent_send, Ho.
  - intros Hsc. rewrite Hs', toString_utf8 by exact Hsc.
    split; [reflexivity | apply (input_stream_write p data)].
  - intros c0 t0. apply client_step_keys_closed.
Qed.

(** [ls] and Enter are typed on the page with a live terminal; the
    session of the server is written [ls] followed by a carriage
    return. *)
Lemma X16_witness :
  let data := lit "ls" ++ [13] in
  Client.sent (snd (Client.step (Client.EvKeys 0 data)
                      Client.connected_with_terminal)) 0
  = [0x00 :: utf8 data]
  /\ Server.ptys
       (snd (Server.step (Server.EvMessage 0 (0x00 :: utf8 data)
                            Server.SpawnThrows) Server.running_state))
       !! 0%nat
     = Some (Server.written (Server.fresh_pty 4242) [data]).
Proof.
  intros data.
  assert (Forall scalar data) as Hsc.
  { apply Forall_app. split; [apply lit_scalar |].
    apply List.Forall_cons; [apply ascii_scalar; lia | apply List.Forall_nil]. }
  destruct (X16_keys_reach_the_process Client.connected_with_terminal
              Server.running_state 0%nat
              (Client.mkTerminal false [] 80 24) 0%nat data 0%nat
              (Server.mkSocket Server.OPEN
                 [Server.control_frame "session-inactive";
                  Server.control_frame "session-active"])
              0%nat (Server.fresh_pty 4242) Server.SpawnThrows)
    as (H1 & _ & H2 & _); try (vm_compute; reflexivity).
  split; [exact H1 | exact (proj1 (H2 Hsc))].
Defined.

(** X17. What the process prints reaches the terminal. A chunk of
    output of a process, with an open active connection, is sent to it
    as one DATA frame; the page that receives that frame hands exactly
    the UTF-8 bytes of the chunk to [write] of the terminal [termRef]
    points to, and changes nothing else. A page without a terminal drops
    the frame. *)
Theorem X17_output_reaches_the_terminal :
  forall (s : Server.State) (c : Client.State) h p a d,
    Server.ptys s !! h = Some p ->
    Server.exited p = false ->
    Server.activeWs s = Some a ->
    Server.open_in s a = true ->
    let frame := 0x00 :: utf8 d in
    let c' := snd (Client.step (Client.EvMessage frame) c) in
    Server.sent (snd (Server.step (Server.EvPtyData h d) s)) a
    = Server.sent s a ++ [frame]
    /\ fst (Client.step (Client.EvMessage frame) c) = Ok tt
    /\ (forall t x,
          Client.termRef c = Some t ->
          Client.terminals c !! t = Some x ->
          c' = snd (Client.term_write t (utf8 d) c)
          /\ Client.terminals c' !! t
             = Some (Client.mkTerminal (Client.term_disposed x)
                       (Client.term_written x ++ [utf8 d])
                       (Client.term_cols x) (Client.term_rows x)))
    /\ (Client.termRef c = None -> c' = c).
Proof.
  intros s c h p a d Hp He Ha Ho frame c'.
  split.
  { rewrite (step_pty_data_eq h p d s Hp He), Ha. cbn [snd].
    apply sent_delivered_same, Ho. }
  unfold c', frame. cbn [Client.step].
  change (0 :: utf8 d) with (Client.DATA_BYTE :: utf8 d).
  rewrite client_onMessage_data. cbn [fst snd].
  split; [reflexivity |]. split.
  - intros t x Ht Hx. rewrite Ht. split; [reflexivity |].
    unfold Client.term_write, Client.set_terminals, modify.
    cbn [snd Client.terminals]. rewrite list_lookup_alter_eq, Hx.
    reflexivity.
  - intros ->. reflexivity.
Qed.

(** Scenario A of the specification, end to end: the process prints
    [hello]. *)
Lemma X17_witness :
  let frame := 0x00 :: utf8 (lit "hello") in
  Server.sent (snd (Server.step (Server.EvPtyData 0 (lit "hello"))
                      Server.running_state)) 0
  = Server.sent Server.running_state 0 ++ [frame]
  /\ Client.terminals
       (snd (Client.step (Client.EvMessage frame)
               Client.connected_with_terminal)) !! 0%nat
     = Some (Client.mkTerminal false [utf8 (lit "hello")] 80 24).
Proof.
  intros frame.
  destruct (X17_output_reaches_the_terminal Server.running_state
              Client.connected_with_terminal 0%nat (Server.fresh_pty 4242)
              0%nat (lit "hello"))
    as (H1 & _ & H2 & _); try (vm_compute; reflexivity).
  split; [exact H1 |].
  apply (H2 0%nat (Client.mkTerminal false [] 80 24));
    vm_compute; reflexivity.
Defined.

Lemma client_step_resize ob obs ws cols rows c :
  Client.observers c !! ob = Some obs ->
  Client.disconnected obs = false ->
  Client.wsRef c = Some ws ->
  Client.open_in c ws = true ->
  Client.step (Client.EvResize ob cols rows) c
  = Client.ws_send ws (0x01 :: Server.resize_payload cols rows)
      (snd (Client.set_terminals
              (alter (fun x => Client.mkTerminal (Client.term_disposed x)
                                 (Client.term_written x) cols rows)
                     (Client.observed_term obs)) c)).
Proof.
  intros Hob Hd Hw Ho. cbn [Client.step].
  unfold bind at 1, gets at 1. rewrite Hob, Hd.
  unfold Client.onResizeObserved, try_catch, bind at 1, gets at 1.
  rewrite Hob. unfold bind at 1, Client.set_terminals at 1, modify at 1.
  cbv beta iota.
  set (c1 := Client.mkState _ _ _ _ _ _ _ _ _ _ _ _ _ _ _).
  assert (Client.open_in c1 ws = true) as Ho1 by exact Ho.
  unfold bind at 1, gets at 1. cbv beta iota.
  change (Client.wsRef c1) with (Client.wsRef c). rewrite Hw.
  unfold bind at 1, Client.ws_is_open at 1, gets at 1.
  pose proof Ho1 as Ho1'. unfold Client.open_in in Ho1'. rewrite Ho1'.
  cbv beta iota.
  rewrite (client_sendControl_open ws _ c1 Ho1). reflexivity.
Qed.

Lemma resize_well_formed cols rows :
  well_formed [(lit "type", FStr (lit "resize"));
               (lit "cols", FInt cols); (lit "rows", FInt rows)].
Proof.
  repeat apply List.Forall_cons; try apply List.Forall_nil;
    (split; [apply lit_scalar |]); cbn [snd well_formed_field];
    [apply lit_scalar | exact I | exact I].
Qed.

(** X18. A resize of the page reaches the process. When the resize
    observer of the live terminal fires on a page that holds an open
    socket, the page sends one control frame that carries the [resize]
    object with the grid size of the terminal; the server reads the same
    object back from that frame, and, while a session runs, sets the
    dimensions of the process to exactly these columns and rows when
    both are positive. A grid of zero columns or zero rows is not passed
    on. *)
Theorem X18_resize_reaches_the_process :
  forall (c : Client.State) (s : Server.State) ob obs ws cols rows w k h p o,
    Client.observers c !! ob = Some obs ->
    Client.disconnected obs = false ->
    Client.wsRef c = Some ws ->
    Client.open_in c ws = true ->
    Server.socks s !! w = Some k ->
    Server.currentPty s = Some h ->
    Server.ptys s !! h = Some p ->
    let frame := 0x01 :: Server.resize_payload cols rows in
    let c' := snd (Client.step (Client.EvResize ob cols rows) c) in
    let s' := snd (Server.step (Server.EvMessage w frame o) s) in
    Client.sent c' ws = Client.sent c ws ++ [frame]
    /\ Server.control_message frame = Some (Server.resize_message cols rows)
    /\ (0 < cols < 2 ^ 53 -> 0 < rows < 2 ^ 53 ->
        s' = Server.set_ptys
               (<[h := Server.mkPty (Server.pid p)
                         (JNum (binary64_of_Z cols))
                         (JNum (binary64_of_Z rows))
                         (Server.writes p) (Server.killed p)
                         (Server.exited p)]> (Server.ptys s)) s)
    /\ (cols = 0 \/ rows = 0 -> s' = s).
Proof.
  intros c s ob obs ws cols rows w k h p o Hob Hd Hw Ho Hk Hcur Hp
    frame c' s'.
  assert (JSON_parse (toString (Server.resize_payload cols rows))
          = Some (Server.resize_message cols rows)) as Hparse
    by apply (wire_to_server _ (resize_well_formed cols rows)).
  assert (s' = if truthy (JNum (binary64_of_Z cols))
                  && truthy (JNum (binary64_of_Z rows))
               then
                 if Server.positive_finite (JNum (binary64_of_Z cols))
                    && Server.positive_finite (JNum (binary64_of_Z rows))
                 then Server.set_ptys
                        (<[h := Server.mkPty (Server.pid p)
                                  (JNum (binary64_of_Z cols))
                                  (JNum (binary64_of_Z rows))
                                  (Server.writes p) (Server.killed p)
                                  (Server.exited p)]> (Server.ptys s)) s
                 else s
               else s) as Hs'.
  { unfold s', frame. rewrite (step_message w _ o s k Hk).
    change (1 :: Server.resize_payload cols rows)
      with (Server.CONTROL_BYTE :: Server.resize_payload cols rows).
    rewrite (onMessage_resize w _ _ (JNum (binary64_of_Z cols))
               (JNum (binary64_of_Z rows)) o s Hparse);
      [| reflexivity | reflexivity | reflexivity].
    cbn [snd]. rewrite Hcur, (alter_as_insert _ _ _ _ Hp). reflexivity. }
  split; [| split; [exact Hparse | split]].
  - unfold c'.
    rewrite (client_step_resize ob obs ws cols rows c Hob Hd Hw Ho).
    rewrite client_sent_send by exact Ho. reflexivity.
  - intros Hc Hr. rewrite Hs'.
    rewrite !truthy_small_integer by lia.
    rewrite !positive_small_integer by lia. reflexivity.
  - intros [-> | ->]; rewrite Hs'; [reflexivity |].
    rewrite andb_false_r. reflexivity.
Qed.

(** Scenario C of the specification, end to end: the page is resized to
    120 x 40. *)
Lemma X18_witness :
  let frame := 0x01 :: Server.resize_payload 120 40 in
  Client.sent (snd (Client.step (Client.EvResize 0 120 40)
                      Client.connected_with_terminal)) 0
  = [frame]
  /\ Server.ptys (snd (Server.step (Server.EvMessage 0 frame
                                      Server.SpawnThrows)
                         Server.running_state)) !! 0%nat
     = Some (Server.mkPty 4242 (JNum (binary64_of_Z 120))
               (JNum (binary64_of_Z 40)) [] false false).
Proof.
  intros frame.
  destruct (X18_resize_reaches_the_process Client.connected_with_terminal
              Server.running_state 0%nat (Client.mkObserver false 0)
              0%nat 120 40 0%nat
              (Server.mkSocket Server.OPEN
                 [Server.control_frame "session-inactive";
                  Server.control_frame "session-active"])
              0%nat (Server.fresh_pty 4242) Server.SpawnThrows)
    as (H1 & _ & H2 & _); try (vm_compute; reflexivity).
  split; [exact H1 |].
  unfold frame. rewrite H2 by lia. vm_compute. reflexivity.
Defined.

Lemma relative_path_scalar f :
  Forall scalar f -> Forall scalar (Server.relative_path f).
Proof.
  intros Hf. unfold Server.relative_path. apply Forall_map.
  eapply Forall_impl; [exact Hf |]. intros c Hc. cbn.
  destruct (c =? 92); [apply ascii_scalar; lia | exact Hc].
Qed.

Lemma file_changed_well_formed f :
  Forall scalar f ->
  well_formed [(lit "type", FStr (lit "file-changed"));
               (lit "file", FStr (Server.relative_path f))].
Proof.
  intros Hf.
  repeat apply List.Forall_cons; try apply List.Forall_nil;
    (split; [apply lit_scalar |]); cbn [snd well_formed_field];
    [apply lit_scalar | apply relative_path_scalar, Hf].
Qed.

Lemma client_onMessage_file_changed f c :
  Forall scalar f ->
  Client.onMessage (Server.file_changed_frame f) c
  = (Ok tt, snd (Client.dispatchEvent (JStr (Server.relative_path f)) c)).
Proof.
  intros Hf. unfold Server.file_changed_frame.
  change Server.CONTROL_BYTE with Client.CONTROL_BYTE.
  unfold Client.onMessage. rewrite decode_cons.
  change (Client.CONTROL_BYTE =? Client.DATA_BYTE) with false.
  change (Client.CONTROL_BYTE =? Client.CONTROL_BYTE) with true.
  cbv beta iota. unfold try_catch, bind, parse, prop.
  rewrite (wire_to_client _ (file_changed_well_formed f Hf)).
  unfold ret at 1. cbv beta iota.
  change (get_prop (value_of _) (lit "type"))
    with (Some (JStr (lit "file-changed"))).
  unfold ret at 1. cbv beta iota.
  rewrite !strict_eq_str_lit.
  change (bool_decide (lit "file-changed" = lit "session-active")) with false.
  change (bool_decide (lit "file-changed" = lit "session-inactive"))
    with false.
  change (bool_decide (lit "file-changed" = lit "exit")) with false.
  change (bool_decide (lit "file-changed" = lit "file-changed")) with true.
  cbv beta iota.
  change (get_prop (value_of _) (lit "file"))
    with (Some (JStr (Server.relative_path f))).
  unfold ret. cbv beta iota. reflexivity.
Qed.

(** X19. A change of a document reaches the page. When the debounce
    timer fires for the file [f], with an open active connection, the
    server sends one [file-changed] control frame; the page that
    receives that frame reads the same object back and dispatches one
    [docs-file-changed] event whose detail is the path of the file with
    every backslash turned into a slash, and changes nothing else: the
    session indicator, the terminal and the sockets stay as they are. *)
Theorem X19_file_change_reaches_the_page :
  forall (s : Server.State) (c : Client.State) f a,
    Server.fileChangeTimer s = Some f ->
    Server.activeWs s = Some a ->
    Server.open_in s a = true ->
    Forall scalar f ->
    let frame := Server.file_changed_frame f in
    let c' := snd (Client.step (Client.EvMessage frame) c) in
    Server.sent (snd (Server.step Server.EvTimer s)) a
    = Server.sent s a ++ [frame]
    /\ Client.control_message frame
       = Some (JObj [(lit "type", JStr (lit "file-changed"));
                     (lit "file", JStr (Server.relative_path f))])
    /\ c' = snd (Client.dispatchEvent (JStr (Server.relative_path f)) c)
    /\ Client.dispatched c'
       = Client.dispatched c ++ [JStr (Server.relative_path f)]
    /\ Client.sessionActive c' = Client.sessionActive c
    /\ Client.terminals c' = Client.terminals c
    /\ Client.sockets c' = Client.sockets c.
Proof.
  intros s c f a Ht Ha Ho Hf frame c'.
  assert (c' = snd (Client.dispatchEvent (JStr (Server.relative_path f)) c))
    as Hc'.
  { unfold c', frame. cbn [Client.step].
    rewrite (client_onMessage_file_changed f c Hf). reflexivity. }
  split; [| split; [| split; [exact Hc' |]]].
  - rewrite step_timer_eq, Ht, Ha. cbn [snd].
    rewrite sent_delivered_same; [reflexivity | exact Ho].
  - apply (wire_to_client _ (file_changed_well_formed f Hf)).
  - rewrite Hc'. repeat split.
Qed.

(** A document is saved while the page of [connected_with_terminal] is
    open. *)
Lemma X19_witness :
  let s := snd (Server.step (Server.EvWatch (Some (lit "notes\plan.md")))
                  Server.running_state) in
  let frame := Server.file_changed_frame (lit "notes\plan.md") in
  Server.sent (snd (Server.step Server.EvTimer s)) 0
  = Server.sent s 0 ++ [frame]
  /\ Client.dispatched
       (snd (Client.step (Client.EvMessage frame)
               Client.connected_with_terminal))
     = [JStr (lit "notes/plan.md")].
Proof.
  intros s frame.
  assert (Server.fileChangeTimer s = Some (lit "notes\plan.md")) as Ht
    by (vm_compute; reflexivity).
  assert (Server.activeWs s = Some 0%nat) as Ha by (vm_compute; reflexivity).
  assert (Server.open_in s 0 = true) as Ho by (vm_compute; reflexivity).
  destruct (X19_file_change_reaches_the_page s
              Client.connected_with_terminal (lit "notes\plan.md") 0%nat
              Ht Ha Ho (lit_scalar _))
    as (H1 & _ & _ & H2 & _).
  split; [exact H1 | exact H2].
Defined.

Lemma receive_app l1 l2 c :
  Bridge.receive (l1 ++ l2) c = Bridge.receive l2 (Bridge.receive l1 c).
Proof.
  unfold Bridge.receive. rewrite map_app.
  generalize (map Client.EvMessage l2). intros es2.
  generalize (map Client.EvMessage l1). intros es1. revert c.
  induction es1 as [| e es1 IH]; intros c; [reflexivity |].
  cbn [app]. rewrite !client_exec_cons. apply IH.
Qed.

Lemma receive_one frame c :
  Bridge.receive [frame] c = snd (Client.onMessage frame c).
Proof.
  unfold Bridge.receive. cbn [map].
  rewrite client_exec_cons, client_exec_nil. reflexivity.
Qed.

(** The three frames that tell the state of the session, as the page
    reads them. *)
Lemma receive_session_frame t c :
  t = "session-active"%string \/ t = "session-inactive"%string
  \/ t = "exit"%string ->
  Client.sessionActive (Bridge.receive [Server.control_frame t] c)
  = String.eqb t "session-active".
Proof.
  intros Ht. rewrite receive_one.
  destruct Ht as [-> | Ht].
  - rewrite client_onMessage_active, ensureTerminal_eq.
    + cbn [snd]. destruct (Client.termRef _); [reflexivity |].
      destruct (Client.termModulesRef _); [| reflexivity].
      destruct (Client.containerRef _); reflexivity.
    + exists (JObj [(lit "type", JStr (lit "session-active"))]).
      split; vm_compute; reflexivity.
  - rewrite (client_onMessage_inactive _ t c Ht).
    + destruct Ht as [-> | ->]; reflexivity.
    + destruct Ht as [-> | ->].
      * exists (JObj [(lit "type", JStr (lit "session-inactive"))]).
        split; vm_compute; reflexivity.
      * exists (JObj [(lit "type", JStr (lit "exit"))]).
        split; vm_compute; reflexivity.
Qed.

Lemma receive_data_frame d c :
  Client.sessionActive (Bridge.receive [Server.DATA_BYTE :: utf8 d] c)
  = Client.sessionActive c.
Proof.
  rewrite receive_one.
  change Server.DATA_BYTE with Client.DATA_BYTE.
  rewrite client_onMessage_data. cbn [snd].
  destruct (Client.termRef c); reflexivity.
Qed.

Lemma receive_file_frame f c :
  Forall scalar f ->
  Client.sessionActive (Bridge.receive [Server.file_changed_frame f] c)
  = Client.sessionActive c.
Proof.
  intros Hf. rewrite receive_one, (client_onMessage_file_changed f c Hf).
  reflexivity.
Qed.

Lemma one_client_same s s' :
  Server.socks s' = Server.socks s ->
  Server.activeWs s' = Server.activeWs s ->
  Server.fileChangeTimer s' = Server.fileChangeTimer s ->
  Bridge.one_client s -> Bridge.one_client s'.
Proof.
  intros Hs Ha Ht (H1 & H2 & H3 & H4).
  unfold Bridge.one_client, Server.open_in.
  rewrite Hs, Ha, Ht. auto.
Qed.

Lemma one_client_delivered pl s :
  Bridge.one_client s -> Bridge.one_client (Server.delivered 0 pl s).
Proof.
  intros (H1 & H2 & H3 & H4). unfold Bridge.one_client.
  rewrite open_in_delivered, delivered_length, delivered_activeWs,
    delivered_timer. auto.
Qed.

Lemma agrees_same s s' :
  Server.socks s' = Server.socks s ->
  Server.currentPty s' = Server.currentPty s ->
  Bridge.indicator_agrees s -> Bridge.indicator_agrees s'.
Proof.
  intros Hs Hc H c. unfold Bridge.has_session, Server.sent.
  rewrite Hs, Hc. apply H.
Qed.

(** After a frame that tells the state of the session, the indicator
    is what the frame tells. *)
Lemma agrees_session_frame t s :
  t = "session-active"%string \/ t = "session-inactive"%string
  \/ t = "exit"%string ->
  Server.open_in s 0 = true ->
  Bridge.has_session s = String.eqb t "session-active" ->
  Bridge.indicator_agrees (Server.delivered 0 (Server.control_frame t) s).
Proof.
  intros Ht Ho Hs c. rewrite sent_delivered_same by exact Ho.
  rewrite receive_app, receive_session_frame by exact Ht.
  unfold Bridge.has_session. rewrite delivered_currentPty. symmetry.
  exact Hs.
Qed.

(** A frame that tells nothing about the session leaves the indicator
    as it is. *)
Lemma agrees_neutral_frame frame s :
  (forall c, Client.sessionActive (Bridge.receive [frame] c)
             = Client.sessionActive c) ->
  Server.open_in s 0 = true ->
  Bridge.indicator_agrees s ->
  Bridge.indicator_agrees (Server.delivered 0 frame s).
Proof.
  intros Hn Ho H c. rewrite sent_delivered_same by exact Ho.
  rewrite receive_app, Hn. unfold Bridge.has_session.
  rewrite delivered_currentPty. apply H.
Qed.

Lemma onMessage_one_client raw o s :
  Bridge.one_client s -> Bridge.indicator_agrees s ->
  Bridge.one_client (snd (Server.onMessage 0 raw o s))
  /\ Bridge.indicator_agrees (snd (Server.onMessage 0 raw o s)).
Proof.
  intros Hone Hag.
  pose proof Hone as (Ho & Hlen & Ha & Htimer).
  assert (forall s' : Server.State,
            Server.socks s' = Server.socks s ->
            Server.activeWs s' = Server.activeWs s ->
            Server.fileChangeTimer s' = Server.fileChangeTimer s ->
            Server.currentPty s' = Server.currentPty s ->
            Bridge.one_client s' /\ Bridge.indicator_agrees s') as Hsame.
  { intros s' Hs Hact Ht Hc. split.
    - apply (one_client_same s s' Hs Hact Ht Hone).
    - apply (agrees_same s s' Hs Hc Hag). }
  destruct raw as [| b body]; [apply Hsame; reflexivity |].
  destruct (Z.eqb_spec b Server.DATA_BYTE) as [-> | Hd].
  { rewrite onMessage_data. cbn [snd].
    destruct (Server.currentPty s) eqn:Hcur; apply Hsame;
      first [reflexivity | exact Hcur]. }
  destruct (Z.eqb_spec b Server.CONTROL_BYTE) as [-> | Hc].
  2:{ rewrite (onMessage_other_kind 0 b body o s Hd Hc).
      apply Hsame; reflexivity. }
  destruct (JSON_parse (toString body)) as [msg |] eqn:Hp.
  2:{ rewrite (onMessage_bad_json 0 body o s Hp). apply Hsame; reflexivity. }
  destruct (get_prop msg (lit "type")) as [t |] eqn:Ht.
  2:{ rewrite (onMessage_no_type 0 body msg o s Hp Ht).
      apply Hsame; reflexivity. }
  destruct (strict_eq_str t (lit "start")) eqn:H1.
  { apply strict_eq_str_true in H1 as ->.
    assert (Server.carries (Server.CONTROL_BYTE :: body) "start") as Hcar
      by (exists msg; rewrite control_message_cons; auto).
    destruct (Server.currentPty s) as [h |] eqn:Hcur.
    - rewrite (onMessage_start 0 _ o s s Hcar
                 (spawnSession_running o s h Hcur)).
      cbn [snd]. rewrite Hcur. split; [apply one_client_delivered, Hone |].
      apply agrees_session_frame; [auto | exact Ho |].
      unfold Bridge.has_session. rewrite Hcur. reflexivity.
    - destruct o as [| pd].
      + rewrite (onMessage_start 0 _ _ s _ Hcar (spawnSession_throws s Hcur)).
        cbn [snd]. rewrite Ha, delivered_currentPty, Hcur.
        split; [apply one_client_delivered, one_client_delivered, Hone |].
        apply agrees_session_frame; [auto | |].
        * rewrite open_in_delivered. exact Ho.
        * unfold Bridge.has_session. rewrite delivered_currentPty, Hcur.
          reflexivity.
      + rewrite (onMessage_start_spawned 0 _ pd s Hcar Hcur).
        cbn [snd]. split.
        * apply one_client_delivered.
          apply (one_client_same s); [reflexivity .. | exact Hone].
        * apply agrees_session_frame; [auto | exact Ho | reflexivity]. }
  destruct (strict_eq_str t (lit "close")) eqn:H2.
  { apply strict_eq_str_true in H2 as ->.
    rewrite (onMessage_close 0 _ o s)
      by (exists msg; rewrite control_message_cons; auto).
    cbn [snd]. rewrite killSession_eq. cbn [snd].
    destruct (Server.currentPty s) as [h |] eqn:Hcur.
    - split.
      + apply one_client_delivered.
        apply (one_client_same s); [reflexivity .. | exact Hone].
      + apply agrees_session_frame; [auto | exact Ho | reflexivity].
    - split; [apply one_client_delivered, Hone |].
      apply agrees_session_frame; [auto | exact Ho |].
      unfold Bridge.has_session. rewrite Hcur. reflexivity. }
  destruct (strict_eq_str t (lit "resize")) eqn:H3.
  { apply strict_eq_str_true in H3 as ->.
    destruct (get_prop_total msg _ _ (lit "cols") Ht) as [c Hcl].
    destruct (get_prop_total msg _ _ (lit "rows") Ht) as [r Hr].
    rewrite (onMessage_resize 0 body msg c r o s Hp Ht Hcl Hr). cbn [snd].
    destruct (truthy c && truthy r); [| apply Hsame; reflexivity].
    destruct (Server.currentPty s) eqn:Hcur;
      [| apply Hsame; first [reflexivity | exact Hcur]].
    destruct (Server.positive_finite c && Server.positive_finite r);
      apply Hsame; first [reflexivity | exact Hcur]. }
  rewrite (onMessage_unrecognized 0 body msg t o s Hp Ht H1 H2 H3).
  apply Hsame; reflexivity.
Qed.

Lemma step_one_client e s :
  Bridge.one_client_event e ->
  Bridge.one_client s -> Bridge.indicator_agrees s ->
  Bridge.one_client (snd (Server.step e s))
  /\ Bridge.indicator_agrees (snd (Server.step e s)).
Proof.
  intros He Hone Hag.
  pose proof Hone as (Ho & Hlen & Ha & Htimer).
  destruct e as [rs | ws raw o | ws | ws | h d | h | f |];
    cbn [Bridge.one_client_event] in He; try contradiction.
  - destruct (Server.socks s !! ws) as [k |] eqn:Hk.
    + assert (ws = 0%nat) as ->
        by (apply lookup_lt_Some in Hk; lia).
      rewrite (step_message 0 raw o s k Hk).
      apply onMessage_one_client; assumption.
    + rewrite (step_message_unknown ws raw o s Hk). auto.
  - rewrite step_pty_data_cases. cbn [snd].
    destruct (Server.ptys s !! h) as [p |]; [| auto].
    destruct (Server.exited p); [auto |]. rewrite Ha.
    split; [apply one_client_delivered, Hone |].
    apply agrees_neutral_frame; [apply receive_data_frame | exact Ho |].
    exact Hag.
  - rewrite step_pty_exit_cases. cbn [snd].
    destruct (Server.ptys s !! h) as [p |]; [| auto].
    destruct (Server.exited p); [auto |]. cbv zeta. rewrite Ha. split.
    + apply one_client_delivered.
      apply (one_client_same s); [reflexivity .. | exact Hone].
    + apply agrees_session_frame; [auto | exact Ho | reflexivity].
  - rewrite step_watch_eq. cbn [snd].
    destruct (Server.is_markdown f) eqn:Hmd; [| auto].
    split.
    + split; [exact Ho |]. split; [exact Hlen |]. split; [exact Ha |].
      intros f' Hf'. cbn in Hf'. subst f. exact He.
    + apply (agrees_same s); [reflexivity | reflexivity | exact Hag].
  - rewrite step_timer_eq. cbn [snd].
    destruct (Server.fileChangeTimer s) as [f |] eqn:Hf; [| auto].
    rewrite Ha.
    assert (Bridge.one_client (Server.set_fileChangeTimer None s)) as Hone'.
    { split; [exact Ho |]. split; [exact Hlen |]. split; [exact Ha |].
      intros f' Hf'. discriminate. }
    split; [apply one_client_delivered, Hone' |].
    apply agrees_neutral_frame;
      [intros c; apply receive_file_frame, Htimer; reflexivity
      | exact Ho |].
    apply (agrees_same s); [reflexivity | reflexivity | exact Hag].
Qed.

(** X20. With one browser connected, its indicator is always right.
    From the moment the server accepts the connection of the only
    browser, and as long as that connection stays open and no other is
    accepted, a page that has processed every frame the server sent to
    it, in order, shows the session as active exactly when the server
    has a session: after every start, stop, failed spawn, exit of a
    process, input, output and file notification. *)
Theorem X20_indicator_agrees_for_one_client :
  forall (es : list Server.Event) (c : Client.State),
    Forall Bridge.one_client_event es ->
    let s := Server.exec (Server.EvConnection Server.OPEN :: es)
                         Server.initial in
    Client.sessionActive (Bridge.receive (Server.sent s 0) c)
    = match Server.currentPty s with
      | Some _ => true
      | None => false
      end.
Proof.
  intros es c Hes s.
  assert (forall s0, Bridge.one_client s0 -> Bridge.indicator_agrees s0 ->
            Bridge.indicator_agrees (Server.exec es s0)) as Hall.
  { clear c s. induction Hes as [| e es He _ IH]; intros s0 Hone Hag.
    - exact Hag.
    - rewrite exec_cons.
      destruct (step_one_client e s0 He Hone Hag) as [Hone' Hag'].
      apply IH; assumption. }
  unfold s. rewrite exec_cons. apply Hall.
  - split; [reflexivity |]. split; [reflexivity |]. split; [reflexivity |].
    intros f Hf. discriminate.
  - intros c0.
    change (Server.sent _ 0)
      with ([] ++ [Server.control_frame "session-inactive"]).
    rewrite receive_app, receive_session_frame by auto. reflexivity.
Qed.

(** A session is started, prints, a document changes, and the process
    exits: the page then shows no session. In between, after the start,
    it shows one. *)
Lemma X20_witness :
  let es := [Server.EvMessage 0 (Server.control_frame "start")
               (Server.Spawned 7);
             Server.EvPtyData 0 (lit "hi");
             Server.EvWatch (Some (lit "a.md")); Server.EvTimer] in
  let run es := Server.exec (Server.EvConnection Server.OPEN :: es)
                            Server.initial in
  Client.sessionActive
    (Bridge.receive (Server.sent (run es) 0) Client.initial) = true
  /\ Client.sessionActive
       (Bridge.receive (Server.sent (run (es ++ [Server.EvPtyExit 0])) 0)
          Client.initial) = false.
Proof.
  intros es run.
  assert (Forall Bridge.one_client_event (es ++ [Server.EvPtyExit 0])) as H.
  { apply List.Forall_cons; [exact I |].
    apply List.Forall_cons; [exact I |].
    apply List.Forall_cons; [apply lit_scalar |].
    apply List.Forall_cons; [exact I |].
    apply List.Forall_cons; [exact I | apply List.Forall_nil]. }
  assert (Forall Bridge.one_client_event es) as H'.
  { apply Forall_app in H as [H _]. exact H. }
  split.
  - unfold run.
    rewrite (X20_indicator_agrees_for_one_client es Client.initial H').
    vm_compute. reflexivity.
  - unfold run.
    rewrite (X20_indicator_agrees_for_one_client _ Client.initial H).
    vm_compute. reflexivity.
Defined.

End EndToEnd.

(** ** Requests and replies across the wire *)

Section RoundTrips.
Import Utf8 Json Eff.

Lemma client_sent_sendControl ws o c :
  Client.open_in c ws = true ->
  Client.sent (snd (Client.sendControl ws o c)) ws
  = Client.sent c ws ++ [Client.CONTROL_BYTE :: utf8 (JSON_stringify o)].
Proof.
  intros Ho. rewrite (client_sendControl_open ws o c Ho).
  apply (client_sent_send ws _ c Ho).
Qed.

(** X21. Control objects survive the wire. The control frame that
    either side builds for an object literal with well-formed strings is
    the byte 0x01 followed by the UTF-8 bytes of its JSON text, and the
    handler of the other side reads the same object back from it: the
    same fields in the same order, each string as it was, each integer
    as the number it denotes. A DATA frame is never read as a control
    message. *)
Theorem X21_control_objects_survive_the_wire :
  forall (o : ObjLit) (ws : nat) (s : Server.State) (c : Client.State),
    well_formed o ->
    let frame := 0x01 :: utf8 (JSON_stringify o) in
    (Server.open_in s ws = true ->
     Server.sent (snd (Server.sendControl ws o s)) ws
     = Server.sent s ws ++ [frame])
    /\ (Client.open_in c ws = true ->
        Client.sent (snd (Client.sendControl ws o c)) ws
        = Client.sent c ws ++ [frame])
    /\ Client.control_message frame = Some (value_of o)
    /\ Server.control_message frame = Some (value_of o)
    /\ (forall payload,
          Client.control_message (0x00 :: payload) = None
          /\ Server.control_message (0x00 :: payload) = None).
Proof.
  intros o ws s c Hwf frame. split; [| split; [| split; [| split]]].
  - intros Ho. rewrite sendControl_eq. cbn [snd].
    apply sent_delivered_same, Ho.
  - intros Ho. apply (client_sent_sendControl ws o c Ho).
  - apply (wire_to_client o Hwf).
  - apply (wire_to_server o Hwf).
  - intros payload. split; reflexivity.
Qed.

Lemma X21_witness :
  Client.control_message (Server.control_frame "exit")
  = Some (JObj [(lit "type", JStr (lit "exit"))])
  /\ Server.control_message (0x01 :: Server.resize_payload (-3) 40)
     = Some (JObj [(lit "type", JStr (lit "resize"));
                   (lit "cols", JNum (binary64_of_Z (-3)));
                   (lit "rows", JNum (binary64_of_Z 40))]).
Proof.
  assert (well_formed (Server.ctl "exit")) as H1.
  { apply List.Forall_cons; [| apply List.Forall_nil].
    split; apply lit_scalar. }
  destruct (X21_control_objects_survive_the_wire (Server.ctl "exit") 0%nat
              Server.initial Client.initial H1) as (_ & _ & Hc & _).
  destruct (X21_control_objects_survive_the_wire _ 0%nat
              Server.initial Client.initial (resize_well_formed (-3) 40))
    as (_ & _ & _ & Hs & _).
  split; [exact Hc | exact Hs].
Defined.

Lemma client_step_start ws c :
  Client.wsRef c = Some ws ->
  Client.open_in c ws = true ->
  Client.step Client.EvClickStart c
  = Client.ws_send ws (Client.control_frame "start") c.
Proof.
  intros Hw Ho. cbn [Client.step].
  unfold Client.handleStart, bind at 1, gets at 1. rewrite Hw.
  unfold bind at 1, Client.ws_is_open, gets at 1.
  pose proof Ho as Ho'. unfold Client.open_in in Ho'. rewrite Ho'.
  cbv beta iota. cbn [negb].
  rewrite (client_sendControl_open ws _ c Ho). reflexivity.
Qed.

Lemma client_step_start_closed c :
  Client.has_open_socket c = false ->
  Client.step Client.EvClickStart c = (Ok tt, c).
Proof.
  unfold Client.has_open_socket. cbn [Client.step].
  unfold Client.handleStart, bind, gets.
  destruct (Client.wsRef c) as [ws |]; [| reflexivity].
  unfold Client.ws_is_open, gets, Client.open_in. intros ->. reflexivity.
Qed.

(** X22. A click on start starts a session. On a page that holds an
    open socket the click sends one control frame; the server reads it
    as a [start] request and, with no session and a spawn that succeeds,
    creates the session and answers [session-active] on the socket the
    request came on; the page that receives the answer shows the session
    as active. Without an open socket the click does nothing. *)
Theorem X22_start_click_starts_a_session :
  forall (c : Client.State) (s : Server.State) ws w pd,
    Client.wsRef c = Some ws ->
    Client.open_in c ws = true ->
    Server.open_in s w = true ->
    Server.currentPty s = None ->
    let request := Client.control_frame "start" in
    let reply := Server.control_frame "session-active" in
    let c1 := snd (Client.step Client.EvClickStart c) in
    let s1 := snd (Server.step (Server.EvMessage w request
                                  (Server.Spawned pd)) s) in
    let c2 := snd (Client.step (Client.EvMessage reply) c1) in
    Client.sent c1 ws = Client.sent c ws ++ [request]
    /\ Server.carries request "start"
    /\ Server.currentPty s1 = Some (length (Server.ptys s))
    /\ Server.ptys s1 = Server.ptys s ++ [Server.fresh_pty pd]
    /\ Server.sent s1 w = Server.sent s w ++ [reply]
    /\ Client.sessionActive c2 = true
    /\ (forall c0, Client.has_open_socket c0 = false ->
                   Client.step Client.EvClickStart c0 = (Ok tt, c0)).
Proof.
  intros c s ws w pd Hw Ho Hso Hcur request reply c1 s1 c2.
  assert (Server.carries request "start") as Hcar.
  { exists (JObj [(lit "type", JStr (lit "start"))]).
    split; vm_compute; reflexivity. }
  destruct (open_in_Some s w Hso) as [k Hk].
  split; [| split; [exact Hcar |]].
  { unfold c1. rewrite (client_step_start ws c Hw Ho).
    apply (client_sent_send ws _ c Ho). }
  assert (s1 = Server.delivered w reply
                 (Server.set_currentPty (Some (length (Server.ptys s)))
                    (Server.set_ptys
                       (Server.ptys s ++ [Server.fresh_pty pd]) s)))
    as Hs1.
  { unfold s1. rewrite (step_message w request _ s k Hk).
    rewrite (onMessage_start_spawned w request pd s Hcar Hcur).
    reflexivity. }
  rewrite Hs1, delivered_currentPty, delivered_ptys.
  split; [reflexivity |]. split; [reflexivity |].
  split; [rewrite sent_delivered_same; [reflexivity | exact Hso] |].
  split; [| intros c0; apply client_step_start_closed].
  unfold c2. cbn [Client.step].
  rewrite <- receive_one.
  apply (receive_session_frame "session-active" c1). auto.
Qed.

(** The first start of Scenario A, from the click to the indicator. *)
Lemma X22_witness :
  let c := snd (Client.step (Client.EvOpen 0)
                  (snd (Client.step Client.EvMount Client.initial))) in
  let s := Server.exec [Server.EvConnection Server.OPEN] Server.initial in
  Server.currentPty
    (snd (Server.step (Server.EvMessage 0 (Client.control_frame "start")
                         (Server.Spawned 4242)) s)) = Some 0%nat
  /\ Client.sessionActive
       (snd (Client.step
               (Client.EvMessage (Server.control_frame "session-active"))
               (snd (Client.step Client.EvClickStart c)))) = true.
Proof.
  intros c s.
  assert (Client.wsRef c = Some 0%nat) as Hw by (vm_compute; reflexivity).
  assert (Client.open_in c 0 = true) as Ho by (vm_compute; reflexivity).
  assert (Server.open_in s 0 = true) as Hso by (vm_compute; reflexivity).
  assert (Server.currentPty s = None) as Hcur by (vm_compute; reflexivity).
  destruct (X22_start_click_starts_a_session c s 0%nat 0%nat 4242
              Hw Ho Hso Hcur) as (_ & _ & H1 & _ & _ & H2 & _).
  split; [exact H1 | exact H2].
Defined.

(** X23. A lost connection is followed by one reconnect, and the
    terminal survives it. The [close] of a socket is handled by the run
    of the connection effect that created the socket. While that run was
    not cleaned up, the page shows itself disconnected, drops the socket
    it holds and sets one reconnect timer, which the run remembers;
    until the timer fires the page holds no socket, so clicks and keys
    send nothing. When the timer fires, the same run creates one new
    socket, which the page holds, still connecting; when it opens the
    page shows itself connected again. Through all of it the terminal,
    its observer and the session indicator stay as they were. When the
    run was cleaned up (the socket is one that a cleanup closed), the
    [close] changes nothing but the state of that socket: the page keeps
    the socket it holds and its [connected] flag, and no timer is
    set. *)
Theorem X23_reconnect_after_close :
  forall (c : Client.State) (ws : nat) (k : Client.Socket)
         (e : Client.Effect),
    Client.sockets c !! ws = Some k ->
    Client.effects c !! Client.creator k = Some e ->
    let r := Client.creator k in
    let t := length (Client.timers c) in
    let new := length (Client.sockets c) in
    let c1 := snd (Client.step (Client.EvClose ws) c) in
    let c2 := snd (Client.step (Client.EvReconnectTimer t) c1) in
    let c3 := snd (Client.step (Client.EvOpen new) c2) in
    (Client.disposed e = false ->
     (Client.connected c1 = false
      /\ Client.wsRef c1 = None
      /\ Client.timers c1 = Client.timers c ++ [Client.mkTimer r true]
      /\ Client.effects c1 !! r = Some (Client.mkEffect false (Some t))
      /\ Client.has_open_socket c1 = false
      /\ Client.sockets c1 = <[ws := Client.closed k]> (Client.sockets c))
     /\ (Client.wsRef c2 = Some new
         /\ Client.sockets c2
            = Client.sockets c1 ++ [Client.mkSocket Client.CONNECTING [] r]
         /\ Client.timers c2 = Client.timers c ++ [Client.mkTimer r false]
         /\ Client.connected c2 = false
         /\ Client.has_open_socket c2 = false)
     /\ (Client.connected c3 = true
         /\ Client.wsRef c3 = Some new
         /\ Client.has_open_socket c3 = true
         /\ Client.sent c3 new = [])
     /\ (Client.sessionActive c3 = Client.sessionActive c
         /\ Client.termRef c3 = Client.termRef c
         /\ Client.resizeObserverRef c3 = Client.resizeObserverRef c
         /\ Client.terminals c3 = Client.terminals c
         /\ Client.observers c3 = Client.observers c))
    /\ (Client.disposed e = true ->
        Client.sockets c1 = <[ws := Client.closed k]> (Client.sockets c)
        /\ Client.wsRef c1 = Client.wsRef c
        /\ Client.connected c1 = Client.connected c
        /\ Client.timers c1 = Client.timers c
        /\ Client.effects c1 = Client.effects c
        /\ c2 = c1).
Proof.
  intros c ws k e Hk He r t new c1 c2 c3.
  change (Client.creator k) with r in He.
  assert (alter (fun k0 => Client.mkSocket Client.CLOSED
                             (Client.sentMessages k0) (Client.creator k0))
                ws (Client.sockets c)
          = <[ws := Client.closed k]> (Client.sockets c)) as Halter
    by apply (alter_as_insert _ _ _ _ Hk).
  split.
  - intros Hd.
    assert (c1 = Client.mkState (Client.sessionActive c) false
                   (Client.containerRef c) (Client.termRef c)
                   (Client.fitAddonRef c) None (Client.resizeObserverRef c)
                   (Client.termModulesRef c)
                   (alter (fun x => Client.mkEffect (Client.disposed x)
                                      (Some t)) r (Client.effects c))
                   (Client.awaiting c)
                   (Client.timers c ++ [Client.mkTimer r true])
                   (<[ws := Client.closed k]> (Client.sockets c))
                   (Client.terminals c) (Client.observers c)
                   (Client.dispatched c)) as H1.
    { unfold c1. rewrite step_close_client_eq, Hk. fold r.
      unfold Client.onClose, Client.get_disposed, Client.set_readyState,
        Client.setConnected, Client.set_wsRef, Client.set_timers,
        Client.set_effects, Client.set_sockets, bind, gets, modify.
      cbn [Client.effects snd]. rewrite He, Hd. cbv beta iota.
      cbn [Client.timers Client.effects Client.sockets snd].
      rewrite Halter. reflexivity. }
    assert (Client.effects c1 !! r = Some (Client.mkEffect false (Some t)))
      as He1.
    { rewrite H1. cbn [Client.effects].
      rewrite list_lookup_alter_eq, He. cbn.
      rewrite Hd. reflexivity. }
    assert (length (Client.sockets c1) = new) as Hlen
      by (rewrite H1; cbn [Client.sockets]; apply length_insert).
    assert (c2 = Client.mkState (Client.sessionActive c) false
                   (Client.containerRef c) (Client.termRef c)
                   (Client.fitAddonRef c) (Some new)
                   (Client.resizeObserverRef c)
                   (Client.termModulesRef c) (Client.effects c1)
                   (Client.awaiting c)
                   (Client.timers c ++ [Client.mkTimer r false])
                   (Client.sockets c1
                    ++ [Client.mkSocket Client.CONNECTING [] r])
                   (Client.terminals c) (Client.observers c)
                   (Client.dispatched c)) as H2.
    { unfold c2. rewrite step_reconnect_eq.
      assert (Client.timers c1 !! t = Some (Client.mkTimer r true)) as ->
        by (rewrite H1; cbn [Client.timers]; apply lookup_fresh).
      cbn [Client.pending Client.timer_effect].
      unfold Client.connect, Client.get_disposed, Client.clearTimeout,
        Client.set_timers, Client.set_wsRef, Client.set_sockets, bind, gets,
        modify.
      cbn [Client.effects snd]. rewrite He1. cbv beta iota.
      cbn [Client.disposed Client.sockets snd]. rewrite Hlen.
      rewrite H1. cbn [Client.timers Client.sessionActive Client.connected
        Client.containerRef Client.termRef Client.fitAddonRef
        Client.resizeObserverRef Client.termModulesRef Client.effects
        Client.awaiting Client.sockets Client.terminals Client.observers
        Client.dispatched].
      unfold t. rewrite alter_app_r_alt, Nat.sub_diag by lia. reflexivity. }
    assert (forall x : Client.Socket,
              (Client.sockets c1 ++ [x]) !! new = Some x) as Hnew
      by (intros x; rewrite <- Hlen; apply lookup_fresh).
    assert (c3 = Client.mkState (Client.sessionActive c) true
                   (Client.containerRef c) (Client.termRef c)
                   (Client.fitAddonRef c) (Some new)
                   (Client.resizeObserverRef c)
                   (Client.termModulesRef c) (Client.effects c1)
                   (Client.awaiting c)
                   (Client.timers c ++ [Client.mkTimer r false])
                   (Client.sockets c1 ++ [Client.mkSocket Client.OPEN [] r])
                   (Client.terminals c) (Client.observers c)
                   (Client.dispatched c)) as H3.
    { unfold c3. rewrite step_open_eq, H2. cbn [Client.sockets].
      rewrite Hnew. cbn [Client.creator].
      unfold Client.onOpen, Client.get_disposed, Client.set_readyState,
        Client.setConnected, Client.set_sockets, bind, gets, modify.
      cbn [Client.effects Client.sockets fst snd]. rewrite He1.
      cbv beta iota. cbn [Client.disposed].
      rewrite <- Hlen, alter_app_r_alt, Nat.sub_diag by lia. reflexivity. }
    clearbody c1 c2 c3 new t r.
    split; [| split; [| split]].
    + split; [rewrite H1; reflexivity |]. split; [rewrite H1; reflexivity |].
      split; [rewrite H1; reflexivity |]. split; [exact He1 |].
      split; [rewrite H1; reflexivity |]. rewrite H1. reflexivity.
    + split; [rewrite H2; reflexivity |]. split; [rewrite H2; reflexivity |].
      split; [rewrite H2; reflexivity |]. split; [rewrite H2; reflexivity |].
      rewrite H2. unfold Client.has_open_socket, Client.open_in.
      cbn [Client.wsRef Client.sockets]. rewrite Hnew. reflexivity.
    + split; [rewrite H3; reflexivity |]. split; [rewrite H3; reflexivity |].
      split.
      * rewrite H3. unfold Client.has_open_socket, Client.open_in.
        cbn [Client.wsRef Client.sockets]. rewrite Hnew. reflexivity.
      * rewrite H3. unfold Client.sent. cbn [Client.sockets].
        rewrite Hnew. reflexivity.
    + rewrite H3. repeat split.
  - intros Hd.
    assert (c1 = snd (Client.set_readyState ws Client.CLOSED c)) as H1.
    { unfold c1. rewrite step_close_client_eq, Hk. fold r.
      rewrite onClose_disposed; [reflexivity |].
      rewrite (get_disposed_eq r e) by exact He. rewrite Hd. reflexivity. }
    assert (c2 = c1) as H2.
    { unfold c2. rewrite step_reconnect_eq.
      assert (Client.timers c1 !! t = None) as ->; [| reflexivity].
      rewrite H1. apply lookup_ge_None_2. cbn. unfold t. lia. }
    clearbody c1 c2 c3 new t r.
    split; [rewrite H1; cbn; exact Halter |].
    split; [rewrite H1; reflexivity |]. split; [rewrite H1; reflexivity |].
    split; [rewrite H1; reflexivity |]. split; [rewrite H1; reflexivity |].
    exact H2.
Qed.

(** On the page that React remounted, the [close] of the first run's
    socket, which the cleanup closed, is ignored; when the connection of
    the second run is lost, it comes back. *)
Lemma X23_witness :
  let c := Client.remounted_page in
  let old := snd (Client.step (Client.EvClose 0) c) in
  let c1 := snd (Client.step (Client.EvClose 1) c) in
  let c2 := snd (Client.step (Client.EvReconnectTimer 0) c1) in
  let c3 := snd (Client.step (Client.EvOpen 2) c2) in
  (Client.wsRef old = Some 1%nat /\ Client.connected old = true)
  /\ Client.wsRef c1 = None
  /\ Client.connected c3 = true
  /\ Client.has_open_socket c3 = true.
Proof.
  intros c old c1 c2 c3.
  assert (Client.sockets c !! 0%nat
          = Some (Client.mkSocket Client.CLOSING [] 0)) as Hk0
    by (vm_compute; reflexivity).
  assert (Client.sockets c !! 1%nat
          = Some (Client.mkSocket Client.OPEN [] 1)) as Hk1
    by (vm_compute; reflexivity).
  assert (Client.effects c !! 0%nat = Some (Client.mkEffect true None))
    as He0 by (vm_compute; reflexivity).
  assert (Client.effects c !! 1%nat = Some (Client.mkEffect false None))
    as He1 by (vm_compute; reflexivity).
  destruct (X23_reconnect_after_close c 0%nat _ _ Hk0 He0) as [_ Hold].
  destruct (Hold eq_refl) as (_ & Hw & Hc & _).
  destruct (X23_reconnect_after_close c 1%nat _ _ Hk1 He1) as [Hlive _].
  destruct (Hlive eq_refl)
    as ((_ & Hw1 & _) & _ & (Hc3 & _ & Ho3 & _) & _).
  split; [split; [exact Hw | exact Hc] |].
  split; [exact Hw1 |]. split; [exact Hc3 | exact Ho3].
Defined.

End RoundTrips.
